(** * The Westeros map builders of [map.py] and [sameinad.py]

    A shallow embedding of the two [map()] render functions of the repository
    (the standalone map app [map.py] and the combined dashboard [sameinad.py])
    together with the properties their specification states about them.

    The two scripts are glue over pandas/geopandas, shapely, numpy, matplotlib
    and folium.  What the scripts themselves decide (which rows are filtered,
    which collection is centred on, the order of [add_to] calls, the lookup
    defaults, the text of the popups, the radius formula) is modelled from the
    source.  What the libraries decide (geometry, the random generator, the
    colour table) is kept behind three interfaces, [Shapely], [NumpyRandom]
    and [Matplotlib]; small executable instances of them are given further
    down for the concrete examples.  Each script composes a folium map
    object ([build_map] below) and returns its rendering,
    [ui.HTML(m._repr_html_())]; the rendered document is represented by the
    map it renders, and of the rendering itself what is modelled is when it
    raises. *)

From Stdlib Require Import ZArith QArith Qabs Floats Uint63 String List Lia Lqa.
From stdpp Require Import base option list gmap strings pretty sorting.
Import ListNotations.

Local Open Scope string_scope.
Local Open Scope Z_scope.
Local Open Scope list_scope.

(* ===================================================================== *)
(** ** Python values, exceptions *)
(* ===================================================================== *)

(** The exceptions the modelled code paths can raise.  [IndexError] comes from
    the [[0]] of [centroid.coords[:][0]] and from the [features[0]] folium
    reads when it renders the tooltip and the popup of a GeoJSON layer,
    [ValueError] from folium's location validation (the one [sameinad.py]
    catches around [folium.Marker]), [WKTReadingError] from [wkt.loads],
    [AssertionError] from the [assert] of that same rendering. *)
Inductive exn : Type :=
  | IndexError
  | ValueError
  | WKTReadingError
  | AssertionError.

Definition exn_name (e : exn) : string :=
  match e with
  | IndexError => "IndexError"
  | ValueError => "ValueError"
  | WKTReadingError => "WKTReadingError"
  | AssertionError => "AssertionError"
  end.

#[global] Instance exn_eq_dec : EqDecision exn.
Proof. solve_decision. Defined.

(** A computation that returns a value or raises. *)
Inductive result (A : Type) : Type :=
  | Ok (a : A)
  | Raise (e : exn).
Arguments Ok {A} a.
Arguments Raise {A} e.

#[global] Instance result_ret : MRet result := fun A a => Ok a.
#[global] Instance result_bind : MBind result := fun A B f r =>
  match r with
  | Ok a => f a
  | Raise e => Raise e
  end.
#[global] Instance result_fmap : FMap result := fun A B f r =>
  match r with
  | Ok a => Ok (f a)
  | Raise e => Raise e
  end.

(** [try: body  except ValueError: handler]. *)
Definition try_except_ValueError {A} (body handler : result A) : result A :=
  match body with
  | Raise ValueError => handler
  | r => r
  end.

(** A [for] loop that threads a mutable object through its body and stops at
    the first exception. *)
Fixpoint for_each {A S} (body : S -> A -> result S) (rows : list A) (s : S)
  : result S :=
  match rows with
  | [] => Ok s
  | r :: rows' => s' ← body s r; for_each body rows' s'
  end.

(** [seq[0]] on a Python list. *)
Definition first_item {A} (l : list A) : result A :=
  match l with
  | x :: _ => Ok x
  | [] => Raise IndexError
  end.

(** A nullable text column as pandas hands it to Python: [None] or a [str]. *)
Definition pystr := option string.

(** [f"{v}"]. *)
Definition py_format (v : pystr) : string := default "None" v.

(** [v or d] for [v] a [str] or [None]: [None] and the empty string are falsy. *)
Definition py_or (v : pystr) (d : string) : string :=
  match v with
  | Some s => if decide (s = "") then d else s
  | None => d
  end.

(** [d.get(k, dflt)] on a dict with string keys; a [None] key is in no table. *)
Definition dict_get {V} (d : gmap string V) (k : pystr) (dflt : V) : V :=
  match k with
  | Some s => default dflt (d !! s)
  | None => dflt
  end.

(** JSON-able cell values of a data-frame row. *)
Inductive pyval : Type :=
  | PyNone
  | PyStr (s : string)
  | PyInt (z : Z).

#[global] Instance pyval_inhabited : Inhabited pyval := populate PyNone.

Definition pyval_of_pystr (v : pystr) : pyval :=
  match v with
  | Some s => PyStr s
  | None => PyNone
  end.

(** Substring test, used to speak about what a popup text contains. *)
Fixpoint contains (needle hay : string) : bool :=
  String.prefix needle hay ||
  match hay with
  | EmptyString => false
  | String _ hay' => contains needle hay'
  end.

(* ===================================================================== *)
(** ** Python floats *)
(* ===================================================================== *)

(** The float operations the scripts use.  Python computes in IEEE binary64
    ([binary64] below, on Rocq's primitive floats); the specification reads
    its formulas in exact arithmetic ([exact] below, on [Q]).  The functions
    that do float arithmetic are written once, over this interface. *)
Class PyFloat (F : Type) := {
  of_int : Z -> F;
  fadd : F -> F -> F;
  fmul : F -> F -> F;
  fdiv : F -> F -> F;
  feqb : F -> F -> bool;
  fltb : F -> F -> bool;
  fisnan : F -> bool;
  (** [astype(int)]: truncation towards zero *)
  ftrunc : F -> Z;
}.

(** [float(z)], exact for the integers of the scripts (row counts, loop
    indices and populations, all far below [2^53]). *)
Definition float_of_Z (z : Z) : float :=
  if z <? 0
  then PrimFloat.opp (PrimFloat.of_uint63 (Uint63.of_Z (- z)))
  else PrimFloat.of_uint63 (Uint63.of_Z z).

(** [x.astype(int)]: the integer part of a finite float; numpy gives the
    least [int64] for NaN and the infinities. *)
Definition float_trunc (x : float) : Z :=
  match Prim2SF x with
  | S754_finite s m e =>
      let a := Z.shiftl (Z.pos m) e in if s then - a else a
  | S754_zero _ => 0
  | _ => - 2 ^ 63
  end.

#[global] Instance binary64 : PyFloat float := {
  of_int := float_of_Z;
  fadd := PrimFloat.add;
  fmul := PrimFloat.mul;
  fdiv := PrimFloat.div;
  feqb := PrimFloat.eqb;
  fltb := PrimFloat.ltb;
  fisnan := PrimFloat.is_nan;
  ftrunc := float_trunc;
}.

(** The number a binary64 value stands for: [m * 2^e], signed, for a finite
    value of mantissa [m] and exponent [e], and 0 for a zero.  (NaN and the
    infinities stand for no number; they are given 0 here.) *)
Definition binary64_value (x : float) : Q :=
  match Prim2SF x with
  | S754_finite s m e =>
      let z := if s then Z.neg m else Z.pos m in
      if 0 <=? e then inject_Z (z * 2 ^ e) else z # (2 ^ Z.to_pos (- e))
  | _ => 0
  end.

(** [x] is the positive finite value of mantissa [m] and exponent [e]. *)
Definition SF_is (x : float) (m : positive) (e : Z) : bool :=
  match Prim2SF x with
  | S754_finite false m' e' => Pos.eqb m' m && Z.eqb e' e
  | _ => false
  end.

#[global] Instance exact : PyFloat Q := {
  of_int := inject_Z;
  fadd := Qplus;
  fmul := Qmult;
  fdiv := Qdiv;
  feqb := Qeq_bool;
  fltb := fun a b => negb (Qle_bool b a);
  fisnan := fun _ => false;
  ftrunc := fun q => Z.quot (Qnum q) (Z.pos (Qden q));
}.

(* ===================================================================== *)
(** ** The libraries behind the scripts *)
(* ===================================================================== *)

(** shapely / geopandas: geometries, [wkt.loads] ([None] when it raises),
    [GeoSeries.unary_union], [.centroid], [.coords[:]], and the [.x] / [.y] of
    a point.  Coordinates are Python floats. *)
Class Shapely := {
  Geometry : Type;
  wkt_loads : string -> option Geometry;
  unary_union : list Geometry -> Geometry;
  centroid : Geometry -> Geometry;
  coords : Geometry -> list (float * float);
  geom_x : Geometry -> float;
  geom_y : Geometry -> float;
}.

(** numpy's global generator: [np.random.seed(s)] replaces the state by one
    that depends on [s] only; [np.random.randint(low, high, size)] returns
    [size] integers "from low (inclusive) to high (exclusive)" and the state
    it leaves behind. *)
Class NumpyRandom := {
  RandomState : Type;
  seed : Z -> RandomState;
  randint : Z -> Z -> nat -> RandomState -> list Z * RandomState;
  randint_length : forall low high size st,
    length (randint low high size st).1 = size;
  randint_range : forall low high size st x,
    low < high -> In x (randint low high size st).1 -> low <= x < high;
}.

(** matplotlib: the lookup table of a colormap resampled to [N] entries
    (entries [0 .. N-1], then the under, over and bad colours at [N], [N+1],
    [N+2]) and [colors.rgb2hex]. *)
Class Matplotlib := {
  RGBA : Type;
  cmap_lut : string -> Z -> Z -> RGBA;
  rgb2hex : RGBA -> string;
}.

Record Colormap := { cmap_name : string; cmap_N : Z }.

(** [cm.get_cmap(name, lut)]. *)
Definition get_cmap (name : string) (lut : Z) : Colormap :=
  {| cmap_name := name; cmap_N := lut |}.

(** The table index [Colormap.__call__] reads for a float [X]: [X * N], with
    [N] itself mapped to [N - 1], truncated; negative, too large and NaN
    values go to the three extra entries. *)
Definition lut_index {F} `{PyFloat F} (N : Z) (X : F) : Z :=
  let xa := fmul X (of_int N) in
  if fisnan xa then N + 2
  else if fltb xa (of_int 0) then N
  else if feqb xa (of_int N) then N - 1
  else if fltb (of_int N) xa then N + 1
  else ftrunc xa.

(** [colormap(X)]. *)
Definition colormap_call {F} `{PyFloat F} `{Matplotlib} (c : Colormap) (X : F)
  : RGBA :=
  cmap_lut (cmap_name c) (cmap_N c) (lut_index (cmap_N c) X).

(* ===================================================================== *)
(** ** The database and its three queries *)
(* ===================================================================== *)

(** A row of [atlas.locations] as selected:
    [gid, name, type, summary, ST_AsText(geog) as geom_wkt]. *)
Record Location := {
  loc_gid : Z;
  loc_name : pystr;
  loc_type : pystr;
  loc_summary : pystr;
  loc_geom_wkt : string;
}.

(** A row of [atlas.kingdoms] as selected:
    [gid, name, claimedby, summary, ST_AsText(geog) as geom_wkt]. *)
Record Kingdom := {
  k_gid : Z;
  k_name : pystr;
  k_claimedby : pystr;
  k_summary : pystr;
  k_geom_wkt : string;
}.

Record Database := {
  atlas_locations : list Location;
  atlas_kingdoms : list Kingdom;
}.

Definition query_locations (db : Database) : list Location :=
  atlas_locations db.

Definition query_kingdoms (db : Database) : list Kingdom :=
  atlas_kingdoms db.

(** [WHERE type IN ('Castle', 'City')]. *)
Definition is_house (l : Location) : Prop :=
  loc_type l = Some "Castle" \/ loc_type l = Some "City".

#[global] Instance is_house_dec l : Decision (is_house l).
Proof. unfold is_house. apply _. Defined.

Definition query_houses (db : Database) : list Location :=
  filter is_house (atlas_locations db).

(* ===================================================================== *)
(** ** folium objects *)
(* ===================================================================== *)

Record Icon := {
  icon_icon : string;
  icon_prefix : string;
  icon_icon_color : string;
  icon_color : string;
}.

Record Popup := {
  popup_html : string;
  popup_max_width : Z;
}.

Record Marker := {
  marker_location : float * float;
  marker_popup : Popup;
  marker_icon : Icon;
}.

Record CircleMarker := {
  circle_location : float * float;
  circle_radius : float;
  circle_color : string;
  circle_fill : bool;
  circle_fill_color : string;
  circle_fill_opacity : Q;
  circle_popup : Popup;
}.

Record Style := {
  style_fillColor : pyval;
  style_color : string;
  style_weight : Z;
  style_fillOpacity : Q;
  style_opacity : Z;
}.

Record GeoJsonTooltip := {
  tooltip_fields : list string;
  tooltip_aliases : list string;
  tooltip_labels : bool;
}.

Record GeoJsonPopup := {
  gjpopup_fields : list string;
  gjpopup_aliases : list string;
  gjpopup_labels : bool;
  gjpopup_max_width : Z;
}.

Section Folium.
Context {geo : Shapely}.

(** A GeoJSON feature: the row's non-geometry columns and its geometry. *)
Record Feature := {
  feature_properties : gmap string pyval;
  feature_geometry : Geometry;
}.

Record GeoJson := {
  geojson_data : list Feature;
  geojson_name : string;
  geojson_style_function : Feature -> Style;
  geojson_tooltip : GeoJsonTooltip;
  geojson_popup : GeoJsonPopup;
}.

Inductive Layer : Type :=
  | TileLayer (tiles attr name : string) (overlay control : bool)
  | GeoJsonLayer (g : GeoJson)
  | MarkerCluster (name : string) (markers : list Marker)
  | FeatureGroup (name : string) (circles : list CircleMarker)
  | LayerControl.

(** The map object: [location] is [[lat, lon]]; the children are kept in
    the order in which [add_to(m)] was called on them. *)
Record Map := {
  map_location : float * float;
  map_zoom_start : Z;
  map_children : list Layer;
}.

(** folium validates every [location] it is given and raises [ValueError]
    on a NaN coordinate. *)
Definition validate_location (loc : float * float) : result (float * float) :=
  if PrimFloat.is_nan loc.1 || PrimFloat.is_nan loc.2
  then Raise ValueError
  else Ok loc.

(** [folium.Map(location=..., zoom_start=..., tiles=None)]. *)
Definition folium_Map (location : float * float) (zoom_start : Z)
  : result Map :=
  loc ← validate_location location;
  mret {| map_location := loc; map_zoom_start := zoom_start;
          map_children := [] |}.

(** [folium.Marker(location=..., popup=..., icon=...)]. *)
Definition folium_Marker (location : float * float) (popup : Popup)
    (icon : Icon) : result Marker :=
  loc ← validate_location location;
  mret {| marker_location := loc; marker_popup := popup;
          marker_icon := icon |}.

(** [folium.CircleMarker(location=..., radius=..., color='blue', fill=True,
    fill_color='blue', fill_opacity=0.6, popup=...)]. *)
Definition folium_CircleMarker (location : float * float) (radius : float)
    (popup : Popup) : result CircleMarker :=
  loc ← validate_location location;
  mret {| circle_location := loc; circle_radius := radius;
          circle_color := "blue"; circle_fill := true;
          circle_fill_color := "blue"; circle_fill_opacity := 6 # 10;
          circle_popup := popup |}.

(** [layer.add_to(m)]: the layer becomes the last child of the map. *)
Definition add_to (l : Layer) (m : Map) : Map :=
  {| map_location := map_location m; map_zoom_start := map_zoom_start m;
     map_children := map_children m ++ [l] |}.

(** [marker.add_to(marker_cluster)] and [circle.add_to(houses_layer)]: the
    container is the object already held by the map, at child position
    [h]; adding to it changes the map's child in place. *)
Definition cluster_add (mk : Marker) (l : Layer) : Layer :=
  match l with
  | MarkerCluster name markers => MarkerCluster name (markers ++ [mk])
  | _ => l
  end.

Definition group_add (c : CircleMarker) (l : Layer) : Layer :=
  match l with
  | FeatureGroup name circles => FeatureGroup name (circles ++ [c])
  | _ => l
  end.

Definition update_child (f : Layer -> Layer) (h : nat) (m : Map) : Map :=
  {| map_location := map_location m; map_zoom_start := map_zoom_start m;
     map_children := alter f h (map_children m) |}.

(** The cells a [GeoJsonPopup] shows for a feature: each alias beside the
    value of its field in the feature's properties. *)
Definition popup_cells (g : GeoJson) (f : Feature) : list (string * pyval) :=
  zip (gjpopup_aliases (geojson_popup g))
      ((fun field => feature_properties f !!! field)
         <$> gjpopup_fields (geojson_popup g)).

(** The popup cells of every polygon of a layer; other layers have none. *)
Definition layer_popup_cells (l : Layer) : list (list (string * pyval)) :=
  match l with
  | GeoJsonLayer g => popup_cells g <$> geojson_data g
  | _ => []
  end.

(** The fill colours the style function gives the polygons of a layer. *)
Definition layer_fill_colors (l : Layer) : list pyval :=
  match l with
  | GeoJsonLayer g =>
      (fun f => style_fillColor (geojson_style_function g f)) <$> geojson_data g
  | _ => []
  end.

(** The icons of the markers of a layer. *)
Definition layer_icons (l : Layer) : list Icon :=
  match l with
  | MarkerCluster _ markers => marker_icon <$> markers
  | _ => []
  end.

(** The popup texts of the markers and circles of a layer. *)
Definition layer_popup_texts (l : Layer) : list string :=
  match l with
  | MarkerCluster _ markers => (fun mk => popup_html (marker_popup mk)) <$> markers
  | FeatureGroup _ circles => (fun c => popup_html (circle_popup c)) <$> circles
  | _ => []
  end.

(** [GeoJsonDetail.render], the rendering of the tooltip and of the popup
    of a GeoJSON layer: folium reads the property names of the first
    feature, [self._parent.data['features'][0]['properties'].keys()], drops
    ['style'] and ['highlight'], and asserts that every field it was given
    is among them. *)
Definition GeoJsonDetail_render (data : list Feature) (fields : list string)
  : result unit :=
  first ← first_item data;
  let is_key (value : string) : bool :=
    bool_decide (is_Some (feature_properties first !! value))
    && negb (bool_decide (value ∈ ["style"; "highlight"])) in
  if forallb is_key fields then Ok tt else Raise AssertionError.

(** Rendering a layer renders its children: for a GeoJSON layer the tooltip,
    then the popup.  Nothing is read that could fail when the other layers
    are rendered. *)
Definition layer_render (l : Layer) : result unit :=
  match l with
  | GeoJsonLayer g =>
      _ ← GeoJsonDetail_render (geojson_data g)
            (tooltip_fields (geojson_tooltip g));
      GeoJsonDetail_render (geojson_data g) (gjpopup_fields (geojson_popup g))
  | _ => Ok tt
  end.

(** [m._repr_html_()]: the children of the map are rendered in the order
    in which they were added.  The HTML text is represented by the map it is
    the rendering of. *)
Definition _repr_html_ (m : Map) : result Map :=
  _ ← mapM layer_render (map_children m);
  mret m.

Inductive LayerKind : Type :=
  | BaseTiles | KingdomPolygons | LocationMarkers | SettlementCircles
  | LayerVisibilityControl.

Definition layer_kind (l : Layer) : LayerKind :=
  match l with
  | TileLayer _ _ _ _ _ => BaseTiles
  | GeoJsonLayer _ => KingdomPolygons
  | MarkerCluster _ _ => LocationMarkers
  | FeatureGroup _ _ => SettlementCircles
  | LayerControl => LayerVisibilityControl
  end.
End Folium.

(* ===================================================================== *)
(** ** The steps both scripts share *)
(* ===================================================================== *)

(** The text is the same in [map.py] and [sameinad.py] for: loading the
    geometries, the synthetic population, the tile layer, the popup of a
    location marker, and the whole settlement ("Houses") layer. *)

Definition newline : string := String (Ascii.ascii_of_nat 10) "".

(** The line break and the twelve spaces that open every line of the popup
    f-strings. *)
Definition indent : string := newline +:+ "            ".

Definition placeholder : string := "No summary available.".

Section Common.
Context {geo : Shapely} {rnd : NumpyRandom}.

(** A row of a [GeoDataFrame]: the queried columns and the parsed geometry. *)
Record GeoRow (R : Type) := {
  row : R;
  geometry : Geometry;
}.
Arguments row {R} _.
Arguments geometry {R} _.

Definition load_wkt (s : string) : result Geometry :=
  match wkt_loads s with
  | Some g => Ok g
  | None => Raise WKTReadingError
  end.

(** [df['geometry'] = df['geom_wkt'].apply(wkt.loads)] followed by
    [gpd.GeoDataFrame(df, geometry='geometry', crs='EPSG:4326')]. *)
Definition to_gdf {R} (geom_wkt : R -> string) (df : list R)
  : result (list (GeoRow R)) :=
  mapM (fun r => g ← load_wkt (geom_wkt r);
                 mret {| row := r; geometry := g |}) df.

(** [np.random.seed(s)] overwrites the global generator state. *)
Definition np_random_seed (s : Z) (_ : RandomState) : RandomState := seed s.

(** [np.random.seed(42)] then
    [np.random.randint(100, 5000, size=len(houses_gdf))], run on the global
    generator state [rng]. *)
Definition synth_population (size : nat) (rng : RandomState)
  : list Z * RandomState :=
  let rng := np_random_seed 42 rng in
  randint 100 5000 size rng.

(** [Series.min()] and [Series.max()]; [None] stands for the NaN pandas
    returns on an empty column. *)
Definition series_min (l : list Z) : option Z :=
  match l with
  | [] => None
  | x :: l' => Some (foldr Z.min x l')
  end.

Definition series_max (l : list Z) : option Z :=
  match l with
  | [] => None
  | x :: l' => Some (foldr Z.max x l')
  end.

(** [get_radius], closed over [pop_min] and [pop_max].  A comparison with NaN
    is false, so the [else] branch is the one taken on NaN bounds. *)
Definition get_radius {F} `{PyFloat F} (pop_min pop_max : option Z) (pop : Z)
  : F :=
  match pop_min, pop_max with
  | Some pop_min, Some pop_max =>
      if pop_min <? pop_max
      then fadd (of_int 5)
             (fmul (fdiv (of_int (pop - pop_min)) (of_int (pop_max - pop_min)))
                (of_int 10))
      else of_int 10
  | _, _ => of_int 10
  end.

Definition tile_layer : Layer :=
  TileLayer
    ("https://cartocdn-gusc.global.ssl.fastly.net/ramirocartodb/api/v1/map/named/"
     +:+ "tpl_756aec63_3adb_48b6_9d14_331c6cbc47cf/all/{z}/{x}/{y}.png")
    "CartoDB" "CartoDB" false false.

(** The popup text of a location marker. *)
Definition location_popup_content (l : Location) : string :=
  indent +:+ "<b>Name:</b> " +:+ py_format (loc_name l) +:+ "<br>"
  +:+ indent +:+ "<b>Type:</b> " +:+ py_format (loc_type l) +:+ "<br>"
  +:+ indent +:+ "<b>Summary:</b> " +:+ py_or (loc_summary l) placeholder
  +:+ indent.

(** The popup text of a settlement circle. *)
Definition house_popup_content (l : Location) (pop : Z) : string :=
  indent +:+ "<b>Name:</b> " +:+ py_format (loc_name l) +:+ "<br>"
  +:+ indent +:+ "<b>Population:</b> " +:+ pretty pop +:+ "<br>"
  +:+ indent +:+ "<b>Type:</b> " +:+ py_format (loc_type l) +:+ "<br>"
  +:+ indent +:+ "<b>Summary:</b> " +:+ py_or (loc_summary l) placeholder
  +:+ indent.

(** A row whose point folium accepts as a location: no NaN coordinate. *)
Definition valid_point (r : GeoRow Location) : Prop :=
  PrimFloat.is_nan (geom_y (geometry r)) = false
  /\ PrimFloat.is_nan (geom_x (geometry r)) = false.

(** The circle one row of [houses_gdf] is drawn as: what the loop body below
    builds before it adds it to the "Houses" group. *)
Definition house_circle (pop_min pop_max : option Z) (r : GeoRow Location * Z)
  : result CircleMarker :=
  folium_CircleMarker (geom_y (geometry r.1), geom_x (geometry r.1))
    (get_radius pop_min pop_max r.2)
    {| popup_html := house_popup_content (row r.1) r.2;
       popup_max_width := 300 |}.

(** The body of [for idx, row in houses_gdf.iterrows()]; [houses_layer] is
    the position of the "Houses" group among the map's children. *)
Definition add_house_circle (houses_layer : nat) (pop_min pop_max : option Z)
    (m : Map) (r : GeoRow Location * Z) : result Map :=
  let pop := r.2 in
  let radius := get_radius pop_min pop_max pop in
  let popup_content := house_popup_content (row r.1) pop in
  c ← folium_CircleMarker (geom_y (geometry r.1), geom_x (geometry r.1)) radius
        {| popup_html := popup_content; popup_max_width := 300 |};
  mret (update_child (group_add c) houses_layer m).

(** The settlement layer: the "Houses" feature group is added to the map,
    then filled with one circle per row of [houses_gdf]. *)
Definition add_houses_layer (houses_gdf : list (GeoRow Location))
    (population : list Z) (m : Map) : result Map :=
  let houses_layer := length (map_children m) in
  let m := add_to (FeatureGroup "Houses" []) m in
  let pop_min := series_min population in
  let pop_max := series_max population in
  for_each (add_house_circle houses_layer pop_min pop_max)
    (zip houses_gdf population) m.

(** [gdf.geometry.unary_union.centroid]: the centroid of the union of a
    geometry column. *)
Definition union_centroid {R} (gdf : list (GeoRow R)) : Geometry :=
  centroid (unary_union (geometry <$> gdf)).

End Common.
Arguments row {_ R} _.
Arguments geometry {_ R} _.

(** *** The radius in binary64, checked over the whole synthetic range *)

(** Populations are drawn from [[100, 5000)], so the spread
    [k = pop_max - pop_min] of a column is at most 4899 and a settlement
    lies [d = pop - pop_min] above the least one, [0 <= d <= k].  The
    definitions below run the binary64 computation of [get_radius] on every
    such pair and compare it with the exact value; the lemmas on them are
    further down. *)

(** The two ends of the scale: [5 = 5 * 2^50 * 2^-50] and
    [15 = 15 * 2^49 * 2^-49]. *)
Definition radius_ends_check (k : Z) : bool :=
  SF_is (get_radius (Some 0) (Some k) 0) 5629499534213120 (-50)
  && SF_is (get_radius (Some 0) (Some k) k) 8444249301319680 (-49).

(** [get_radius] on machine integers: the radius of a settlement [di] above
    the least population of a column of spread [ki]. *)
Definition radius_at (ki di : int) : float :=
  PrimFloat.add (PrimFloat.of_uint63 5)
    (PrimFloat.mul
       (PrimFloat.div (PrimFloat.of_uint63 di) (PrimFloat.of_uint63 ki))
       (PrimFloat.of_uint63 10)).

Definition near (a b : int) : bool :=
  Uint63.leb a (Uint63.add b 1) && Uint63.leb b (Uint63.add a 1).

(** The check run on a pair: the radius is a positive normal number of
    exponent 3 or 4 (a value from 4 to 16), and its 53-bit mantissa, cut to
    45 fractional bits, is within one unit of [(5 k + 10 d) * 2^45 / k]. *)
Definition radius_check (ki di : int) : bool :=
  let r := radius_at ki di in
  let '(f, e) := PrimFloat.frshiftexp r in
  let m := PrimFloat.normfr_mantissa f in
  let N := Uint63.add (Uint63.mul 5 ki) (Uint63.mul 10 di) in
  let T := Uint63.div (Uint63.lsl N 45) ki in
  negb (PrimFloat.is_nan r) && negb (PrimFloat.is_zero r)
  && negb (PrimFloat.is_infinity r) && negb (PrimFloat.get_sign r)
  && Uint63.leb 4503599627370496 m && Uint63.ltb m 9007199254740992
  && ((Uint63.eqb e 2104 && near (Uint63.lsr m 5) T)
      || (Uint63.eqb e 2105 && near (Uint63.lsr m 4) T)).

(** The check on [n] settlements of a column, from [di] on. *)
Fixpoint radius_check_row (n : nat) (ki di : int) : bool :=
  match n with
  | O => true
  | S n' => radius_check ki di && radius_check_row n' ki (Uint63.add di 1)
  end.

(** The check on [n] spreads from [ki] on, each with its [len = ki + 1]
    settlements. *)
Fixpoint radius_check_rows (n : nat) (ki : int) (len : nat) : bool :=
  match n with
  | O => true
  | S n' =>
      radius_check_row len ki 0
      && radius_check_rows n' (Uint63.add ki 1) (S len)
  end.

(** The table index in binary64, checked for every position of every
    kingdom count up to [n]. *)
Definition lut_index_check (n : nat) : bool :=
  forallb
    (fun i : nat =>
       lut_index (F:=float) (Z.of_nat n)
         (fdiv (of_int (Z.of_nat i)) (of_int (Z.of_nat n)))
       =? Z.of_nat i)
    (seq 0 n).

Section Colors.
Context {mpl : Matplotlib}.

(** [colormap = cm.get_cmap('rainbow', n)] and
    [[colors.rgb2hex(colormap(i / n)) for i in range(n)]]. *)
Definition rainbow_colors {F} `{PyFloat F} (n : nat) : list string :=
  let colormap := get_cmap "rainbow" (Z.of_nat n) in
  (fun i : nat =>
     rgb2hex (colormap_call colormap
                (fdiv (of_int (Z.of_nat i)) (of_int (Z.of_nat n)))))
  <$> seq 0 n.

End Colors.

(* ===================================================================== *)
(** ** [map.py] *)
(* ===================================================================== *)

Module MapPy.
Section Script.
Context {geo : Shapely} {rnd : NumpyRandom} {mpl : Matplotlib}.

(** The ['color'] column: no guard on [n]; for [n = 0] the comprehension
    ranges over nothing. *)
Definition kingdom_colors {F} `{PyFloat F} (n : nat) : list string :=
  rainbow_colors n.

Definition type_icon_mapping : gmap string string :=
  {[ "Castle" := "fa-fort-awesome";
     "City" := "fa-building";
     "Landmark" := "fa-map-pin";
     "Region" := "fa-globe";
     "Ruin" := "fa-university";
     "Town" := "fa-home" ]}.

(** The icon of a location marker: keyed by type, always blue. *)
Definition location_icon (location_type : pystr) : Icon :=
  let icon_name := dict_get type_icon_mapping location_type "fa-info-circle" in
  {| icon_icon := icon_name; icon_prefix := "fa"; icon_icon_color := "white";
     icon_color := "blue" |}.

(** The marker one row of [location_gdf] is drawn as: what the loop body
    below builds before it adds it to the cluster. *)
Definition location_marker (r : GeoRow Location) : result Marker :=
  folium_Marker (geom_y (geometry r), geom_x (geometry r))
    {| popup_html := location_popup_content (row r); popup_max_width := 300 |}
    (location_icon (loc_type (row r))).

(** The body of [for idx, row in location_gdf.iterrows()]. *)
Definition add_location_marker (marker_cluster : nat) (m : Map)
    (r : GeoRow Location) : result Map :=
  let popup_content := location_popup_content (row r) in
  let location_type := loc_type (row r) in
  let icon := location_icon location_type in
  mk ← folium_Marker (geom_y (geometry r), geom_x (geometry r))
         {| popup_html := popup_content; popup_max_width := 300 |} icon;
  mret (update_child (cluster_add mk) marker_cluster m).

Definition add_locations_layer (location_gdf : list (GeoRow Location))
    (m : Map) : result Map :=
  let marker_cluster := length (map_children m) in
  let m := add_to (MarkerCluster "Locations" []) m in
  for_each (add_location_marker marker_cluster) location_gdf m.

Definition style_function (feature : Feature) : Style :=
  {| style_fillColor := feature_properties feature !!! "color";
     style_color := "black"; style_weight := 2;
     style_fillOpacity := 5 # 10; style_opacity := 1 |}.

(** The ['tooltip'] column. *)
Definition kingdom_tooltip (k : Kingdom) : string :=
  "<b>Name:</b> " +:+ py_format (k_name k)
  +:+ "<br><b>Claimed By:</b> " +:+ py_format (k_claimedby k).

(** The ['popup'] column. *)
Definition kingdom_popup (k : Kingdom) : string :=
  indent +:+ "<b>Name:</b> " +:+ py_format (k_name k) +:+ "<br>"
  +:+ indent +:+ "<b>Claimed By:</b> " +:+ py_format (k_claimedby k) +:+ "<br>"
  +:+ indent +:+ "<b>Summary:</b> " +:+ py_or (k_summary k) placeholder
  +:+ indent.

(** A row of [kingdom_gdf] as a GeoJSON feature: the queried columns and the
    three added ones, ['color'], ['tooltip'], ['popup']. *)
Definition kingdom_feature (r : GeoRow Kingdom) (color : string) : Feature :=
  {| feature_properties :=
       {[ "gid" := PyInt (k_gid (row r));
          "name" := pyval_of_pystr (k_name (row r));
          "claimedby" := pyval_of_pystr (k_claimedby (row r));
          "summary" := pyval_of_pystr (k_summary (row r));
          "geom_wkt" := PyStr (k_geom_wkt (row r));
          "color" := PyStr color;
          "tooltip" := PyStr (kingdom_tooltip (row r));
          "popup" := PyStr (kingdom_popup (row r)) ]};
     feature_geometry := geometry r |}.

(** [folium.GeoJson(kingdom_gdf, name='Kingdoms', ...)]; a popup or tooltip
    given no aliases uses its field names. *)
Definition kingdoms_geojson (kingdom_gdf : list (GeoRow Kingdom))
    (color : list string) : GeoJson :=
  {| geojson_data := zip_with kingdom_feature kingdom_gdf color;
     geojson_name := "Kingdoms";
     geojson_style_function := style_function;
     geojson_tooltip :=
       {| tooltip_fields := ["tooltip"]; tooltip_aliases := [""];
          tooltip_labels := false |};
     geojson_popup :=
       {| gjpopup_fields := ["popup"]; gjpopup_aliases := ["popup"];
          gjpopup_labels := false; gjpopup_max_width := 300 |} |}.

(** The centre: always the centroid of the union of the locations, read
    through [center.y] and [center.x]. *)
Definition map_center (location_gdf : list (GeoRow Location)) : float * float :=
  let center := union_centroid location_gdf in
  (geom_y center, geom_x center).

(** The folium map [m] that [map()] of [map.py] composes, up to its last
    [add_to(m)], run on the database [db] with the global numpy generator in
    state [rng]. *)
Definition build_map (db : Database) (rng : RandomState) : result Map :=
  let location_df := query_locations db in
  let kingdom_df := query_kingdoms db in
  let houses_df := query_houses db in
  location_gdf ← to_gdf loc_geom_wkt location_df;
  kingdom_gdf ← to_gdf k_geom_wkt kingdom_df;
  houses_gdf ← to_gdf loc_geom_wkt houses_df;
  let population := (synth_population (length houses_gdf) rng).1 in
  let n := length kingdom_gdf in
  let color := kingdom_colors (F:=float) n in
  m ← folium_Map (map_center location_gdf) 5;
  let m := add_to tile_layer m in
  m ← add_locations_layer location_gdf m;
  let m := add_to (GeoJsonLayer (kingdoms_geojson kingdom_gdf color)) m in
  m ← add_houses_layer houses_gdf population m;
  let m := add_to LayerControl m in
  mret m.

(** The render function [map()] of [map.py]: it returns
    [ui.HTML(m._repr_html_())]. *)
Definition map (db : Database) (rng : RandomState) : result Map :=
  m ← build_map db rng;
  _repr_html_ m.

End Script.
End MapPy.

(* ===================================================================== *)
(** ** [sameinad.py] *)
(* ===================================================================== *)

Module Sameinad.
Section Script.
Context {geo : Shapely} {rnd : NumpyRandom} {mpl : Matplotlib}.

(** [kingdom_gdf['name'].isin(selected_kingdoms)] on one row. *)
Definition name_isin (selected_kingdoms : list string) (name : pystr) : Prop :=
  match name with
  | Some s => s ∈ selected_kingdoms
  | None => False
  end.

#[global] Instance name_isin_dec sel name : Decision (name_isin sel name).
Proof. destruct name; simpl; apply _. Defined.

(** [if selected_kingdoms: kingdom_gdf = kingdom_gdf[...isin(...)]]; the
    [else] branch only rebinds [selected_kingdoms], which is not read again. *)
Definition filter_kingdoms (selected_kingdoms : list string)
    (kingdom_gdf : list (GeoRow Kingdom)) : list (GeoRow Kingdom) :=
  match selected_kingdoms with
  | [] => kingdom_gdf
  | _ :: _ =>
      filter (fun r => name_isin selected_kingdoms (k_name (row r))) kingdom_gdf
  end.

(** The ['color'] column: the rainbow samples when [n > 0], else the scalar
    ['gray'] broadcast over the (zero) rows. *)
Definition kingdom_colors {F} `{PyFloat F} (n : nat) : list string :=
  if (0 <? n)%nat then rainbow_colors n else replicate n "gray".

(** [center]: a [(lon, lat)] tuple, from the kingdoms unless there are none. *)
Definition map_center (kingdom_gdf : list (GeoRow Kingdom))
    (location_gdf : list (GeoRow Location)) : result (float * float) :=
  match kingdom_gdf with
  | _ :: _ => first_item (coords (union_centroid kingdom_gdf))
  | [] => first_item (coords (union_centroid location_gdf))
  end.

Definition style_function (feature : Feature) : Style :=
  {| style_fillColor := feature_properties feature !!! "color";
     style_color := "black"; style_weight := 2;
     style_fillOpacity := 5 # 10; style_opacity := 1 |}.

(** A row of [kingdom_gdf] as a GeoJSON feature: the queried columns and
    ['color']. *)
Definition kingdom_feature (r : GeoRow Kingdom) (color : string) : Feature :=
  {| feature_properties :=
       {[ "gid" := PyInt (k_gid (row r));
          "name" := pyval_of_pystr (k_name (row r));
          "claimedby" := pyval_of_pystr (k_claimedby (row r));
          "summary" := pyval_of_pystr (k_summary (row r));
          "geom_wkt" := PyStr (k_geom_wkt (row r));
          "color" := PyStr color ]};
     feature_geometry := geometry r |}.

(** [folium.GeoJson(kingdom_gdf, name='Kingdoms', ...)]: tooltip and popup
    are built by folium from the named fields of each feature. *)
Definition kingdoms_geojson (kingdom_gdf : list (GeoRow Kingdom))
    (color : list string) : GeoJson :=
  {| geojson_data := zip_with kingdom_feature kingdom_gdf color;
     geojson_name := "Kingdoms";
     geojson_style_function := style_function;
     geojson_tooltip :=
       {| tooltip_fields := ["name"; "claimedby"];
          tooltip_aliases := ["Name:"; "Claimed By:"];
          tooltip_labels := true |};
     geojson_popup :=
       {| gjpopup_fields := ["name"; "claimedby"; "summary"];
          gjpopup_aliases := ["Name:"; "Claimed By:"; "Summary:"];
          gjpopup_labels := true; gjpopup_max_width := 300 |} |}.

Definition color_mapping : gmap string string :=
  {[ "Castle" := "red";
     "City" := "blue";
     "Fortress" := "green";
     "Keep" := "orange" ]}.

Definition icon_mapping : gmap string string :=
  {[ "Castle" := "shield-alt";
     "City" := "building";
     "Fortress" := "archway";
     "Keep" := "home" ]}.

(** The icon of a location marker: name and colour both keyed by type. *)
Definition location_icon (location_type : pystr) : Icon :=
  let marker_color := dict_get color_mapping location_type "gray" in
  let icon_name := dict_get icon_mapping location_type "info-circle" in
  {| icon_icon := icon_name; icon_prefix := "fa"; icon_icon_color := "white";
     icon_color := marker_color |}.

(** The icon of the [except ValueError] branch. *)
Definition fallback_icon : Icon :=
  {| icon_icon := "info-circle"; icon_prefix := "fa";
     icon_icon_color := "white"; icon_color := "gray" |}.

(** The marker one row of [location_gdf] is drawn as: the one of the [try]
    block, or the one of the [except ValueError] block when the first
    raised [ValueError]. *)
Definition location_marker (r : GeoRow Location) : result Marker :=
  try_except_ValueError
    (folium_Marker (geom_y (geometry r), geom_x (geometry r))
       {| popup_html := location_popup_content (row r);
          popup_max_width := 300 |}
       (location_icon (loc_type (row r))))
    (folium_Marker (geom_y (geometry r), geom_x (geometry r))
       {| popup_html := location_popup_content (row r);
          popup_max_width := 300 |}
       fallback_icon).

(** The body of [for idx, row in location_gdf.iterrows()], with its
    [try] / [except ValueError]. *)
Definition add_location_marker (marker_cluster : nat) (m : Map)
    (r : GeoRow Location) : result Map :=
  let location_type := loc_type (row r) in
  let popup_content := location_popup_content (row r) in
  let icon := location_icon location_type in
  try_except_ValueError
    (mk ← folium_Marker (geom_y (geometry r), geom_x (geometry r))
           {| popup_html := popup_content; popup_max_width := 300 |} icon;
     mret (update_child (cluster_add mk) marker_cluster m))
    (mk ← folium_Marker (geom_y (geometry r), geom_x (geometry r))
           {| popup_html := popup_content; popup_max_width := 300 |}
           fallback_icon;
     mret (update_child (cluster_add mk) marker_cluster m)).

Definition add_locations_layer (location_gdf : list (GeoRow Location))
    (m : Map) : result Map :=
  let marker_cluster := length (map_children m) in
  let m := add_to (MarkerCluster "Locations" []) m in
  for_each (add_location_marker marker_cluster) location_gdf m.

(** The folium map [m] that [map()] of [sameinad.py] composes, up to its
    last [add_to(m)], run with [input.kingdoms()] = [selected_kingdoms] on
    the database [db], with the global numpy generator in state [rng]. *)
Definition build_map (selected_kingdoms : list string) (db : Database)
    (rng : RandomState) : result Map :=
  let location_df := query_locations db in
  let kingdom_df := query_kingdoms db in
  let houses_df := query_houses db in
  location_gdf ← to_gdf loc_geom_wkt location_df;
  kingdom_gdf ← to_gdf k_geom_wkt kingdom_df;
  houses_gdf ← to_gdf loc_geom_wkt houses_df;
  let population := (synth_population (length houses_gdf) rng).1 in
  let kingdom_gdf := filter_kingdoms selected_kingdoms kingdom_gdf in
  let n := length kingdom_gdf in
  let color := kingdom_colors (F:=float) n in
  center ← map_center kingdom_gdf location_gdf;
  m ← folium_Map (center.2, center.1) 5;
  let m := add_to tile_layer m in
  let m := add_to (GeoJsonLayer (kingdoms_geojson kingdom_gdf color)) m in
  m ← add_locations_layer location_gdf m;
  m ← add_houses_layer houses_gdf population m;
  let m := add_to LayerControl m in
  mret m.

(** The render function [map()] of [sameinad.py]: it returns
    [ui.HTML(m._repr_html_())]. *)
Definition map (selected_kingdoms : list string) (db : Database)
    (rng : RandomState) : result Map :=
  m ← build_map selected_kingdoms db rng;
  _repr_html_ m.

End Script.
End Sameinad.

(* ===================================================================== *)
(** ** Executable instances of the library interfaces *)
(* ===================================================================== *)

(** The theorems below hold for every instance of the three interfaces.  The
    instances of this section make the scripts run inside Rocq, so that the
    theorems can be applied to, and the scripts evaluated on, a concrete
    database. *)

Module Instances.

(** Geometries as finite sets of vertices.  The union collects the vertices,
    the centroid of a non-empty geometry is their mean, and an empty geometry
    has an empty centroid without coordinates, as in shapely.  [wkt_loads]
    reads the handful of WKT strings the example database uses. *)
Definition pt (x y : Z) : float * float := (float_of_Z x, float_of_Z y).

Definition wkt_table : gmap string (list (float * float)) :=
  {[ "POINT (0 0)" := [pt 0 0];
     "POINT (2 4)" := [pt 2 4];
     "POINT (6 2)" := [pt 6 2];
     "POINT (4 2)" := [pt 4 2];
     "POLYGON ((0 0, 4 0, 4 4, 0 4, 0 0))" := [pt 0 0; pt 4 0; pt 4 4; pt 0 4];
     "POLYGON ((10 10, 14 10, 14 14, 10 14, 10 10))" :=
       [pt 10 10; pt 14 10; pt 14 14; pt 10 14] ]}.

Definition mean (l : list float) : float :=
  PrimFloat.div (foldr PrimFloat.add (float_of_Z 0) l)
    (float_of_Z (Z.of_nat (length l))).

Definition vertices_centroid (g : list (float * float))
  : list (float * float) :=
  match g with
  | [] => []
  | _ :: _ => [(mean (fst <$> g), mean (snd <$> g))]
  end.

Definition point_x (g : list (float * float)) : float :=
  match g with
  | [(x, _)] => x
  | _ => PrimFloat.nan
  end.

Definition point_y (g : list (float * float)) : float :=
  match g with
  | [(_, y)] => y
  | _ => PrimFloat.nan
  end.

#[export] Instance vertex_geometry : Shapely := {
  Geometry := list (float * float);
  wkt_loads := fun s => wkt_table !! s;
  unary_union := fun gs => mjoin gs;
  centroid := vertices_centroid;
  coords := fun g => g;
  geom_x := point_x;
  geom_y := point_y;
}.

(** A linear congruential generator; [randint] reduces each draw into
    [[low, high)]. *)
Definition lcg_next (st : Z) : Z := (1103515245 * st + 12345) mod 2147483648.

Fixpoint lcg_randint (low high : Z) (size : nat) (st : Z) : list Z * Z :=
  match size with
  | O => ([], st)
  | S size' =>
      let st' := lcg_next st in
      let rest := lcg_randint low high size' st' in
      ((low + st' mod (high - low)) :: rest.1, rest.2)
  end.

Lemma lcg_randint_length low high size st :
  length (lcg_randint low high size st).1 = size.
Proof.
  revert st. induction size as [|size IH]; intros st; simpl; [reflexivity|].
  now rewrite IH.
Qed.

Lemma lcg_randint_range low high size st x :
  low < high -> In x (lcg_randint low high size st).1 -> low <= x < high.
Proof.
  intros Hlt. revert st. induction size as [|size IH]; intros st; simpl.
  - intros [].
  - intros [<- | Hin].
    + pose proof (Z.mod_pos_bound (lcg_next st) (high - low)). lia.
    + eapply IH, Hin.
Qed.

#[export] Instance lcg_random : NumpyRandom := {
  RandomState := Z;
  seed := fun s => s;
  randint := lcg_randint;
  randint_length := lcg_randint_length;
  randint_range := lcg_randint_range;
}.

(** A palette whose table entries are all different: entry [k] of the table
    of [N] entries of colormap [name] is the triple itself, and its hex
    string spells the triple out.  Two positions share a colour here only if
    they read the same table entry. *)
#[export] Instance indexed_palette : Matplotlib := {
  RGBA := string * Z * Z;
  cmap_lut := fun name N k => (name, N, k);
  rgb2hex := fun c => "#" +:+ c.1.1 +:+ "/" +:+ pretty c.1.2 +:+ "/" +:+ pretty c.2;
}.

(** A small atlas: four locations (two of them settlements) and two
    kingdoms. *)
Definition winterfell : Location :=
  {| loc_gid := 1; loc_name := Some "Winterfell"; loc_type := Some "Castle";
     loc_summary := Some "Seat of House Stark";
     loc_geom_wkt := "POINT (0 0)" |}.

Definition kings_landing : Location :=
  {| loc_gid := 2; loc_name := Some "King's Landing"; loc_type := Some "City";
     loc_summary := None; loc_geom_wkt := "POINT (2 4)" |}.

Definition the_wall : Location :=
  {| loc_gid := 3; loc_name := Some "The Wall"; loc_type := Some "Landmark";
     loc_summary := Some ""; loc_geom_wkt := "POINT (6 2)" |}.

Definition crossroads_inn : Location :=
  {| loc_gid := 4; loc_name := Some "Inn at the Crossroads";
     loc_type := Some "Inn"; loc_summary := None;
     loc_geom_wkt := "POINT (4 2)" |}.

Definition the_north : Kingdom :=
  {| k_gid := 1; k_name := Some "The North"; k_claimedby := Some "Stark";
     k_summary := Some "The largest of the kingdoms";
     k_geom_wkt := "POLYGON ((0 0, 4 0, 4 4, 0 4, 0 0))" |}.

Definition dorne : Kingdom :=
  {| k_gid := 2; k_name := Some "Dorne"; k_claimedby := Some "Martell";
     k_summary := None;
     k_geom_wkt := "POLYGON ((10 10, 14 10, 14 14, 10 14, 10 10))" |}.

Definition atlas : Database :=
  {| atlas_locations := [winterfell; kings_landing; the_wall; crossroads_inn];
     atlas_kingdoms := [the_north; dorne] |}.

(** The same locations, with 22 kingdoms. *)
Definition kingdom_no (i : Z) : Kingdom :=
  {| k_gid := i; k_name := Some ("Kingdom " +:+ pretty i);
     k_claimedby := None; k_summary := None;
     k_geom_wkt := "POLYGON ((0 0, 4 0, 4 4, 0 4, 0 0))" |}.

Definition atlas22 : Database :=
  {| atlas_locations := [winterfell; kings_landing; the_wall; crossroads_inn];
     atlas_kingdoms := kingdom_no <$> seqZ 1 22 |}.

Definition empty_atlas : Database :=
  {| atlas_locations := []; atlas_kingdoms := [] |}.

(** The two geo data frames the atlas loads into. *)
Definition crossroads_inn_row : GeoRow Location :=
  {| row := crossroads_inn; geometry := [pt 4 2] |}.

Definition atlas_location_gdf : list (GeoRow Location) :=
  [ {| row := winterfell; geometry := [pt 0 0] |};
    {| row := kings_landing; geometry := [pt 2 4] |};
    {| row := the_wall; geometry := [pt 6 2] |};
    crossroads_inn_row ].

Definition atlas_kingdom_gdf : list (GeoRow Kingdom) :=
  [ {| row := the_north; geometry := [pt 0 0; pt 4 0; pt 4 4; pt 0 4] |};
    {| row := dorne;
       geometry := [pt 10 10; pt 14 10; pt 14 14; pt 10 14] |} ].

End Instances.

(* ===================================================================== *)
(** ** [sameinad.py]: the tables and charts of the dashboard *)
(* ===================================================================== *)

(** The rows of [got.houses] and [got.characters] the dashboard reads:
    [houses(name, region, id)] and [characters(id, allegiances)], the latter
    an array of house ids (empty for a missing array). *)
Record House := {
  h_id : Z;
  h_name : pystr;
  h_region : pystr;
}.

Record Character := {
  c_id : Z;
  c_allegiances : list Z;
}.

Record GotSchema := {
  got_houses : list House;
  got_characters : list Character;
}.

(** The [CASE ... END] of [fetch_houses_and_kingdoms] and of
    [query_population].  A NULL region satisfies no [WHEN] and takes the
    [ELSE]. *)
Definition kingdom_of_region (region : pystr) : string :=
  match region with
  | None => "Other Regions"
  | Some r =>
      if bool_decide (r ∈ ["The North"; "The Neck"; "Beyond the Wall"])
      then "The North"
      else if decide (r = "The Vale") then "The Vale"
      else if decide (r = "Iron Islands") then "Iron Islands"
      else if decide (r = "The Riverlands") then "The Riverlands"
      else if decide (r = "The Westerlands") then "The Westerlands"
      else if decide (r = "The Stormlands") then "The Stormlands"
      else if decide (r = "The Crownlands") then "The Crownlands"
      else if decide (r = "The Reach") then "The Reach"
      else if decide (r = "Dorne") then "Dorne"
      else "Other Regions"
  end.

(** [s] without its prefix [p], when it has it. *)
Fixpoint strip_prefix (p s : string) : option string :=
  match p, s with
  | EmptyString, _ => Some s
  | String a p', String b s' =>
      if decide (a = b) then strip_prefix p' s' else None
  | String _ _, EmptyString => None
  end.

(** [re.sub("^House ", "", s)]: the pattern can only match at the start of
    the string, once. *)
Definition remove_House (s : string) : string :=
  default s (strip_prefix "House " s).

(** [fetch_houses_and_kingdoms()]: one row per house, the columns
    ["House Name"] (after [str.replace], which leaves a missing name
    missing) and ["Kingdom Name"]. *)
Definition fetch_houses_and_kingdoms (g : GotSchema) : list (pystr * string) :=
  (fun h => (remove_House <$> h_name h, kingdom_of_region (h_region h)))
  <$> got_houses g.

(** [groupby(key).size()] on a column without missing values: one row per
    distinct key, in sorted key order, with the number of rows of the
    group. *)
Definition groupby_size (keys : list string) : list (string * nat) :=
  (fun k => (k, length (filter (fun x => x = k) keys)))
  <$> merge_sort String.le (remove_dups keys).

(** The number of rows of a column that hold the key [k]. *)
Definition count_key (k : string) (keys : list string) : nat :=
  length (filter (fun x => x = k) keys).

(** [house_counts]. *)
Definition house_counts (g : GotSchema) : list (string * nat) :=
  groupby_size (snd <$> fetch_houses_and_kingdoms g).

(** The rows [query_population] joins: a character with every house whose
    id is among the character's allegiances. *)
Definition population_join (g : GotSchema) : list (Character * House) :=
  c ← got_characters g;
  h ← got_houses g;
  if decide (h_id h ∈ c_allegiances c) then [(c, h)] else [].

(** The groups of [query_population]: [COUNT(c.id)] per kingdom. *)
Definition population_groups (g : GotSchema) : list (string * nat) :=
  groupby_size
    ((fun ch => kingdom_of_region (h_region ch.2)) <$> population_join g).

(** [df_population] is the result of [query_population]: the groups, in
    whatever order the database returns them (the query has no
    [ORDER BY]). *)
Definition is_query_population (g : GotSchema) (df : list (string * nat))
  : Prop :=
  df ≡ₚ population_groups g.

(** [sorted(set(a).union(set(b)))]. *)
Definition sorted_union (a b : list string) : list string :=
  merge_sort String.le (remove_dups (a ++ b)).

(** [kingdom_list], the choices of the kingdom selector. *)
Definition kingdom_list (df_population : list (string * nat)) (g : GotSchema)
  : list string :=
  sorted_union (fst <$> df_population) (snd <$> fetch_houses_and_kingdoms g).



(** [total_population()]. *)
Definition total_population (df_population : list (string * nat)) : string :=
  let total := sum_list (snd <$> df_population) in
  "Total Population: " +:+ pretty total.

Definition kingdom_color_mapping : gmap string string :=
  {[ "The North" := "#1f77b4"; "The Reach" := "#ff7f0e"; "Dorne" := "#2ca02c";
     "The Westerlands" := "#d62728"; "The Riverlands" := "#9467bd";
     "The Vale" := "#8c564b"; "Iron Islands" := "#e377c2";
     "The Stormlands" := "#7f7f7f"; "The Crownlands" := "#ffff00";
     "Gift" := "#17becf"; "Other Regions" := "#b5b5b5" ]}.

(** [df[df[col].isin(selected_kingdoms)] if selected_kingdoms else df]. *)
Definition select_rows {Row} (col : Row -> string)
    (selected_kingdoms : list string) (df : list Row) : list Row :=
  match selected_kingdoms with
  | [] => df
  | _ :: _ => filter (fun r => col r ∈ selected_kingdoms) df
  end.

(** A plotly express figure: what [px.bar] or [px.pie] was called with, and
    the height set by [update_layout]. *)
Inductive Chart : Type := BarChart | PieChart.

Record Figure := {
  fig_chart : Chart;
  fig_data : list (string * nat);
  fig_label_column : string;
  fig_value_column : string;
  fig_title : string;
  fig_color_discrete_map : gmap string string;
  fig_height : Z;
}.

(** [px.bar(...) if input.plot_type() == "Bar Plot" else px.pie(...)], then
    [fig.update_layout(height=400)]. *)
Definition px_figure (plot_type : string) (data : list (string * nat))
    (label_column value_column title : string) : Figure :=
  {| fig_chart := if decide (plot_type = "Bar Plot") then BarChart else PieChart;
     fig_data := data;
     fig_label_column := label_column;
     fig_value_column := value_column;
     fig_title := title;
     fig_color_discrete_map := kingdom_color_mapping;
     fig_height := 400 |}.

(** The colour a figure draws a label in: its entry in the colour map, or,
    without one ([None]), a colour of plotly's default sequence. *)
Definition figure_color (fig : Figure) (label : string) : option string :=
  fig_color_discrete_map fig !! label.

(** [house_count_plot()]. *)
Definition house_count_plot (g : GotSchema) (selected_kingdoms : list string)
    (plot_type : string) : Figure :=
  let filtered_data := select_rows fst selected_kingdoms (house_counts g) in
  px_figure plot_type filtered_data "Kingdom Name" "Number of Houses"
    "Number of Houses per Kingdom".

(** [population_plot()]. *)
Definition population_plot (df_population : list (string * nat))
    (selected_kingdoms : list string) (plot_type : string) : Figure :=
  let filtered_data := select_rows fst selected_kingdoms df_population in
  px_figure plot_type filtered_data "kingdom" "total_population"
    "Total Population by Kingdom".

(** A small [got] schema for the examples. *)
Module Realm.

Definition stark : House :=
  {| h_id := 1; h_name := Some "House Stark"; h_region := Some "The North" |}.
Definition reed : House :=
  {| h_id := 2; h_name := Some "House Reed"; h_region := Some "The Neck" |}.
Definition martell : House :=
  {| h_id := 3; h_name := Some "House Martell"; h_region := Some "Dorne" |}.
Definition frey : House :=
  {| h_id := 4; h_name := Some "Frey"; h_region := Some "The Riverlands" |}.
Definition targaryen : House :=
  {| h_id := 5; h_name := Some "House Targaryen"; h_region := Some "Valyria" |}.
Definition nameless : House :=
  {| h_id := 6; h_name := None; h_region := None |}.

Definition jon : Character := {| c_id := 10; c_allegiances := [1; 5] |}.
Definition arya : Character := {| c_id := 11; c_allegiances := [1] |}.
Definition oberyn : Character := {| c_id := 12; c_allegiances := [3] |}.
Definition varys : Character := {| c_id := 13; c_allegiances := [] |}.

Definition got : GotSchema :=
  {| got_houses := [stark; reed; martell; frey; targaryen; nameless];
     got_characters := [jon; arya; oberyn; varys] |}.

End Realm.

(* ===================================================================== *)
(** ** General lemmas *)
(* ===================================================================== *)

Lemma bind_Ok {A B} (f : A -> result B) (a : A) : (Ok a ≫= f) = f a.
Proof. reflexivity. Qed.

Lemma bind_Ok_inv {A B} (f : A -> result B) (r : result A) (b : B) :
  (r ≫= f) = Ok b -> exists a, r = Ok a /\ f a = Ok b.
Proof. destruct r as [a|e]; simpl; [eauto | discriminate]. Qed.

Lemma mapM_result_cons {A B} (f : A -> result B) (x : A) (l : list A) :
  mapM f (x :: l) = (y ← f x; k ← mapM f l; mret (y :: k)).
Proof. reflexivity. Qed.

Lemma mapM_result_length {A B} (f : A -> result B) (l : list A) (k : list B) :
  mapM f l = Ok k -> length k = length l.
Proof.
  revert k. induction l as [|x l IH]; intros k; simpl.
  - intros [= <-]. reflexivity.
  - destruct (f x) as [y|e]; simpl; [|discriminate].
    destruct (mapM f l) as [k'|e]; simpl; [|discriminate].
    intros [= <-]. simpl. f_equal. now apply IH.
Qed.

Lemma mapM_result_lookup {A B} (f : A -> result B) (l : list A) (k : list B)
    (i : nat) (x : A) :
  mapM f l = Ok k -> l !! i = Some x -> exists y, k !! i = Some y /\ f x = Ok y.
Proof.
  revert k i. induction l as [|a l IH]; intros k i; simpl; [discriminate|].
  destruct (f a) as [b|e] eqn:Hfa; simpl; [|discriminate].
  destruct (mapM f l) as [k'|e]; simpl; [|discriminate].
  intros [= <-]. destruct i as [|i]; simpl.
  - intros [= <-]. eauto.
  - intros Hx. now apply IH.
Qed.

Lemma mapM_result_ext {A B} (f g : A -> result B) (l : list A) :
  (forall x, f x = g x) -> mapM f l = mapM g l.
Proof.
  intros Hfg. induction l as [|x l IH]; simpl; [reflexivity|].
  now rewrite Hfg, IH.
Qed.

Lemma for_each_ext {A S} (f g : S -> A -> result S) (rows : list A) (s : S) :
  (forall s r, f s r = g s r) -> for_each f rows s = for_each g rows s.
Proof.
  intros Hfg. revert s. induction rows as [|r rows IH]; intros s; simpl.
  - reflexivity.
  - rewrite Hfg. destruct (g s r); simpl; [apply IH | reflexivity].
Qed.

(** An exception handler that repeats a call which raised [ValueError] with
    the very same arguments raises it again. *)
Lemma try_except_same {A} (body : result A) :
  try_except_ValueError body body = body.
Proof. destruct body as [a|[]]; reflexivity. Qed.

Lemma try_except_bind {A B} (body handler : result A) (k : A -> B) :
  try_except_ValueError (x ← body; mret (k x)) (x ← handler; mret (k x))
  = (x ← try_except_ValueError body handler; mret (k x)).
Proof. destruct body as [a|[]]; reflexivity. Qed.

Lemma append_assoc (a b c : string) : (a +:+ b) +:+ c = a +:+ (b +:+ c).
Proof.
  induction a as [|x a IH]; [reflexivity|].
  change (String x ((a +:+ b) +:+ c) = String x (a +:+ b +:+ c)).
  now rewrite IH.
Qed.

Lemma prefix_app (s t : string) : String.prefix s (s +:+ t) = true.
Proof.
  induction s as [|c s IH]; simpl.
  - now destruct t.
  - destruct (Ascii.ascii_dec c c); [exact IH | congruence].
Qed.

Lemma contains_prefix (s t : string) : contains s (s +:+ t) = true.
Proof.
  assert (Hp : forall h, String.prefix s h = true -> contains s h = true)
    by (intros h Hp; destruct h; cbn [contains]; rewrite Hp; reflexivity).
  apply Hp, prefix_app.
Qed.

Lemma contains_app_r (s a t : string) :
  contains s t = true -> contains s (a +:+ t) = true.
Proof.
  intros Hs. induction a as [|c a IH]; simpl; [exact Hs|].
  rewrite IH. apply orb_true_r.
Qed.

(** A text that has [s] somewhere in the middle contains [s]. *)
Lemma contains_middle (s a b : string) : contains s (a +:+ s +:+ b) = true.
Proof. apply contains_app_r, contains_prefix. Qed.

Lemma series_min_spec (l : list Z) (mn : Z) :
  series_min l = Some mn -> In mn l /\ forall p, In p l -> mn <= p.
Proof.
  destruct l as [|x l]; simpl; [discriminate|]. intros [= <-].
  induction l as [|y l [IHin IHle]]; simpl.
  - split; [now left | intros p [<- | []]; lia].
  - split.
    + destruct (Z.min_spec y (foldr Z.min x l)) as [[_ ->] | [_ ->]].
      * right. now left.
      * destruct IHin as [<- | Hin]; [now left | right; now right].
    + intros p [<- | [<- | Hin]].
      * specialize (IHle x (or_introl eq_refl)). lia.
      * lia.
      * specialize (IHle p (or_intror Hin)). lia.
Qed.

Lemma series_max_spec (l : list Z) (mx : Z) :
  series_max l = Some mx -> In mx l /\ forall p, In p l -> p <= mx.
Proof.
  destruct l as [|x l]; simpl; [discriminate|]. intros [= <-].
  induction l as [|y l [IHin IHle]]; simpl.
  - split; [now left | intros p [<- | []]; lia].
  - split.
    + destruct (Z.max_spec y (foldr Z.max x l)) as [[_ ->] | [_ ->]].
      * destruct IHin as [<- | Hin]; [now left | right; now right].
      * right. now left.
    + intros p [<- | [<- | Hin]].
      * specialize (IHle x (or_introl eq_refl)). lia.
      * lia.
      * specialize (IHle p (or_intror Hin)). lia.
Qed.

(* ===================================================================== *)
(** ** The loops, and the two builds in closed form *)
(* ===================================================================== *)

Section Builds.
Context {geo : Shapely} {rnd : NumpyRandom} {mpl : Matplotlib}.

(** A loop that appends one item per row to the container that is the last
    child of the map leaves every other child alone, and fills the container
    with the items in row order; it raises as soon as an item does. *)
Lemma for_each_container {R X} (item : R -> result X)
    (add : X -> Layer -> Layer) (mk : list X -> Layer)
    (body : Map -> R -> result Map) (pre : list Layer) :
  (forall x xs, add x (mk xs) = mk (xs ++ [x])) ->
  (forall m r,
      body m r = (x ← item r; mret (update_child (add x) (length pre) m))) ->
  forall rows loc z xs0,
    for_each body rows
      {| map_location := loc; map_zoom_start := z;
         map_children := pre ++ [mk xs0] |}
    = (xs ← mapM item rows;
       mret {| map_location := loc; map_zoom_start := z;
               map_children := pre ++ [mk (xs0 ++ xs)] |}).
Proof.
  intros Hadd Hbody rows loc z.
  induction rows as [|r rows IH]; intros xs0; simpl.
  - now rewrite app_nil_r.
  - rewrite Hbody. destruct (item r) as [x|e]; simpl; [|reflexivity].
    unfold update_child; simpl.
    replace (length pre) with (length pre + 0)%nat by lia.
    rewrite alter_app_r. simpl. rewrite Hadd, IH.
    destruct (mapM item rows) as [xs|e]; simpl; [|reflexivity].
    now rewrite <- app_assoc.
Qed.

Lemma add_houses_layer_eq (houses_gdf : list (GeoRow Location))
    (population : list Z) (m : Map) :
  add_houses_layer houses_gdf population m
  = (circles ← mapM (house_circle (series_min population)
                       (series_max population))
                 (zip houses_gdf population);
     mret (add_to (FeatureGroup "Houses" circles) m)).
Proof.
  unfold add_houses_layer, add_to. destruct m as [loc z children]; simpl.
  erewrite (for_each_container
              (house_circle (series_min population) (series_max population))
              group_add (FeatureGroup "Houses")); try reflexivity.
Qed.

Lemma mappy_locations_layer_eq (location_gdf : list (GeoRow Location))
    (m : Map) :
  MapPy.add_locations_layer location_gdf m
  = (markers ← mapM MapPy.location_marker location_gdf;
     mret (add_to (MarkerCluster "Locations" markers) m)).
Proof.
  unfold MapPy.add_locations_layer, add_to.
  destruct m as [loc z children]; simpl.
  erewrite (for_each_container MapPy.location_marker cluster_add
              (MarkerCluster "Locations")); try reflexivity.
Qed.

Lemma sameinad_locations_layer_eq (location_gdf : list (GeoRow Location))
    (m : Map) :
  Sameinad.add_locations_layer location_gdf m
  = (markers ← mapM Sameinad.location_marker location_gdf;
     mret (add_to (MarkerCluster "Locations" markers) m)).
Proof.
  unfold Sameinad.add_locations_layer, add_to.
  destruct m as [loc z children]; simpl.
  erewrite (for_each_container Sameinad.location_marker cluster_add
              (MarkerCluster "Locations")); try reflexivity.
  intros m r. unfold Sameinad.add_location_marker, Sameinad.location_marker.
  apply try_except_bind.
Qed.

Lemma validate_location_Ok (loc loc' : float * float) :
  validate_location loc = Ok loc' -> loc' = loc.
Proof.
  unfold validate_location.
  destruct (PrimFloat.is_nan loc.1 || PrimFloat.is_nan loc.2); congruence.
Qed.

Lemma validate_location_raises (loc : float * float) (e : exn) :
  validate_location loc = Raise e -> e = ValueError.
Proof.
  unfold validate_location.
  destruct (PrimFloat.is_nan loc.1 || PrimFloat.is_nan loc.2); congruence.
Qed.

(** The map [sameinad.py] composes, with its two loops read as the lists
    they build. *)
Lemma sameinad_build_eq (selected_kingdoms : list string) (db : Database)
    (rng : RandomState) :
  Sameinad.build_map selected_kingdoms db rng
  = (location_gdf ← to_gdf loc_geom_wkt (query_locations db);
     kingdom_gdf ← to_gdf k_geom_wkt (query_kingdoms db);
     houses_gdf ← to_gdf loc_geom_wkt (query_houses db);
     let population := (synth_population (length houses_gdf) rng).1 in
     let kingdom_gdf := Sameinad.filter_kingdoms selected_kingdoms kingdom_gdf in
     center ← Sameinad.map_center kingdom_gdf location_gdf;
     loc ← validate_location (center.2, center.1);
     markers ← mapM Sameinad.location_marker location_gdf;
     circles ← mapM (house_circle (series_min population)
                        (series_max population))
                  (zip houses_gdf population);
     mret {| map_location := loc; map_zoom_start := 5;
             map_children :=
               [ tile_layer;
                 GeoJsonLayer
                   (Sameinad.kingdoms_geojson kingdom_gdf
                      (Sameinad.kingdom_colors (F:=float) (length kingdom_gdf)));
                 MarkerCluster "Locations" markers;
                 FeatureGroup "Houses" circles;
                 LayerControl ] |}).
Proof.
  unfold Sameinad.build_map.
  destruct (to_gdf loc_geom_wkt (query_locations db)) as [location_gdf|e];
    simpl; [|reflexivity].
  destruct (to_gdf k_geom_wkt (query_kingdoms db)) as [kingdom_gdf|e];
    simpl; [|reflexivity].
  destruct (to_gdf loc_geom_wkt (query_houses db)) as [houses_gdf|e];
    simpl; [|reflexivity].
  destruct (Sameinad.map_center _ location_gdf) as [center|e];
    simpl; [|reflexivity].
  unfold folium_Map.
  destruct (validate_location (center.2, center.1)) as [loc|e];
    simpl; [|reflexivity].
  rewrite sameinad_locations_layer_eq.
  destruct (mapM Sameinad.location_marker location_gdf) as [markers|e];
    simpl; [|reflexivity].
  rewrite add_houses_layer_eq.
  destruct (mapM _ (zip houses_gdf _)) as [circles|e]; reflexivity.
Qed.

(** The map [map.py] composes, with its two loops read as the lists they
    build. *)
Lemma mappy_build_eq (db : Database) (rng : RandomState) :
  MapPy.build_map db rng
  = (location_gdf ← to_gdf loc_geom_wkt (query_locations db);
     kingdom_gdf ← to_gdf k_geom_wkt (query_kingdoms db);
     houses_gdf ← to_gdf loc_geom_wkt (query_houses db);
     let population := (synth_population (length houses_gdf) rng).1 in
     loc ← validate_location (MapPy.map_center location_gdf);
     markers ← mapM MapPy.location_marker location_gdf;
     circles ← mapM (house_circle (series_min population)
                        (series_max population))
                  (zip houses_gdf population);
     mret {| map_location := loc; map_zoom_start := 5;
             map_children :=
               [ tile_layer;
                 MarkerCluster "Locations" markers;
                 GeoJsonLayer
                   (MapPy.kingdoms_geojson kingdom_gdf
                      (MapPy.kingdom_colors (F:=float) (length kingdom_gdf)));
                 FeatureGroup "Houses" circles;
                 LayerControl ] |}).
Proof.
  unfold MapPy.build_map.
  destruct (to_gdf loc_geom_wkt (query_locations db)) as [location_gdf|e];
    simpl; [|reflexivity].
  destruct (to_gdf k_geom_wkt (query_kingdoms db)) as [kingdom_gdf|e];
    simpl; [|reflexivity].
  destruct (to_gdf loc_geom_wkt (query_houses db)) as [houses_gdf|e];
    simpl; [|reflexivity].
  unfold folium_Map.
  destruct (validate_location (MapPy.map_center location_gdf)) as [loc|e];
    simpl; [|reflexivity].
  rewrite mappy_locations_layer_eq.
  destruct (mapM MapPy.location_marker location_gdf) as [markers|e];
    simpl; [|reflexivity].
  rewrite add_houses_layer_eq.
  destruct (mapM _ (zip houses_gdf _)) as [circles|e]; reflexivity.
Qed.

(** What [sameinad.py] went through when it has composed a map. *)
Lemma sameinad_build_inv (selected_kingdoms : list string) (db : Database)
    (rng : RandomState) (m : Map) :
  Sameinad.build_map selected_kingdoms db rng = Ok m ->
  exists location_gdf all_kingdoms houses_gdf center markers circles,
    to_gdf loc_geom_wkt (query_locations db) = Ok location_gdf /\
    to_gdf k_geom_wkt (query_kingdoms db) = Ok all_kingdoms /\
    to_gdf loc_geom_wkt (query_houses db) = Ok houses_gdf /\
    let population := (synth_population (length houses_gdf) rng).1 in
    let kingdom_gdf := Sameinad.filter_kingdoms selected_kingdoms all_kingdoms in
    Sameinad.map_center kingdom_gdf location_gdf = Ok center /\
    mapM Sameinad.location_marker location_gdf = Ok markers /\
    mapM (house_circle (series_min population) (series_max population))
      (zip houses_gdf population) = Ok circles /\
    m = {| map_location := (center.2, center.1); map_zoom_start := 5;
           map_children :=
             [ tile_layer;
               GeoJsonLayer
                 (Sameinad.kingdoms_geojson kingdom_gdf
                    (Sameinad.kingdom_colors (F:=float) (length kingdom_gdf)));
               MarkerCluster "Locations" markers;
               FeatureGroup "Houses" circles;
               LayerControl ] |}.
Proof.
  rewrite sameinad_build_eq. intros Hm.
  apply bind_Ok_inv in Hm as (location_gdf & Hloc & Hm).
  apply bind_Ok_inv in Hm as (all_kingdoms & Hk & Hm).
  apply bind_Ok_inv in Hm as (houses_gdf & Hh & Hm).
  cbv zeta in Hm.
  apply bind_Ok_inv in Hm as (center & Hc & Hm).
  apply bind_Ok_inv in Hm as (loc & Hv & Hm).
  apply bind_Ok_inv in Hm as (markers & Hmk & Hm).
  apply bind_Ok_inv in Hm as (circles & Hci & Hm).
  apply validate_location_Ok in Hv as ->.
  exists location_gdf, all_kingdoms, houses_gdf, center, markers, circles.
  cbv zeta. repeat split; try assumption. now inversion Hm.
Qed.

(** What [map.py] went through when it has composed a map. *)
Lemma mappy_build_inv (db : Database) (rng : RandomState) (m : Map) :
  MapPy.build_map db rng = Ok m ->
  exists location_gdf kingdom_gdf houses_gdf markers circles,
    to_gdf loc_geom_wkt (query_locations db) = Ok location_gdf /\
    to_gdf k_geom_wkt (query_kingdoms db) = Ok kingdom_gdf /\
    to_gdf loc_geom_wkt (query_houses db) = Ok houses_gdf /\
    let population := (synth_population (length houses_gdf) rng).1 in
    mapM MapPy.location_marker location_gdf = Ok markers /\
    mapM (house_circle (series_min population) (series_max population))
      (zip houses_gdf population) = Ok circles /\
    m = {| map_location := MapPy.map_center location_gdf;
           map_zoom_start := 5;
           map_children :=
             [ tile_layer;
               MarkerCluster "Locations" markers;
               GeoJsonLayer
                 (MapPy.kingdoms_geojson kingdom_gdf
                    (MapPy.kingdom_colors (F:=float) (length kingdom_gdf)));
               FeatureGroup "Houses" circles;
               LayerControl ] |}.
Proof.
  rewrite mappy_build_eq. intros Hm.
  apply bind_Ok_inv in Hm as (location_gdf & Hloc & Hm).
  apply bind_Ok_inv in Hm as (kingdom_gdf & Hk & Hm).
  apply bind_Ok_inv in Hm as (houses_gdf & Hh & Hm).
  cbv zeta in Hm.
  apply bind_Ok_inv in Hm as (loc & Hv & Hm).
  apply bind_Ok_inv in Hm as (markers & Hmk & Hm).
  apply bind_Ok_inv in Hm as (circles & Hci & Hm).
  apply validate_location_Ok in Hv as ->.
  exists location_gdf, kingdom_gdf, houses_gdf, markers, circles.
  cbv zeta. repeat split; try assumption. now inversion Hm.
Qed.

(** The settlements are rows of [atlas.locations]: when every location's
    WKT loads, so does every settlement's. *)
Lemma to_gdf_houses (db : Database) (location_gdf : list (GeoRow Location)) :
  to_gdf loc_geom_wkt (query_locations db) = Ok location_gdf ->
  exists houses_gdf, to_gdf loc_geom_wkt (query_houses db) = Ok houses_gdf.
Proof.
  unfold query_locations, query_houses, to_gdf.
  generalize (atlas_locations db). intros l. revert location_gdf.
  induction l as [|x l IH]; intros location_gdf; simpl; [eauto|].
  destruct (load_wkt (loc_geom_wkt x)) as [g|e] eqn:Hg; simpl; [|discriminate].
  destruct (mapM _ l) as [k|e]; simpl; [|discriminate]. intros _.
  destruct (IH k eq_refl) as [hs Hhs].
  rewrite filter_cons. destruct (decide (is_house x)); [|eauto].
  simpl. rewrite Hg. simpl. rewrite Hhs. simpl. eauto.
Qed.

Lemma to_gdf_length {R} (geom_wkt : R -> string) (df : list R)
    (gdf : list (GeoRow R)) :
  to_gdf geom_wkt df = Ok gdf -> length gdf = length df.
Proof. apply mapM_result_length. Qed.

Lemma to_gdf_rows {R} (geom_wkt : R -> string) (df : list R)
    (gdf : list (GeoRow R)) :
  to_gdf geom_wkt df = Ok gdf -> row <$> gdf = df.
Proof.
  unfold to_gdf. revert gdf. induction df as [|x df IH]; intros gdf; simpl.
  - now intros [= <-].
  - destruct (load_wkt (geom_wkt x)) as [g|e]; simpl; [|discriminate].
    destruct (mapM _ df) as [k|e]; simpl; [|discriminate].
    intros [= <-]. simpl. f_equal. now apply IH.
Qed.

Lemma mapM_result_raises {A B} (f : A -> result B) (l : list A) (e : exn) :
  mapM f l = Raise e -> exists x, In x l /\ f x = Raise e.
Proof.
  induction l as [|x l IH]; simpl; [discriminate|].
  destruct (f x) as [y|e'] eqn:Hfx; simpl.
  - destruct (mapM f l) as [k|e']; simpl; [discriminate|].
    intros [= <-]. destruct (IH eq_refl) as (x' & Hin & Hx'). eauto.
  - intros [= <-]. eauto.
Qed.

Lemma folium_Marker_raises loc popup icon (e : exn) :
  folium_Marker loc popup icon = Raise e -> e = ValueError.
Proof.
  unfold folium_Marker. destruct (validate_location loc) eqn:Hv; simpl;
    [discriminate|]. intros [= <-]. now apply validate_location_raises in Hv.
Qed.

Lemma sameinad_location_marker_raises (r : GeoRow Location) (e : exn) :
  Sameinad.location_marker r = Raise e -> e = ValueError.
Proof.
  unfold Sameinad.location_marker, try_except_ValueError.
  destruct (folium_Marker _ _ (Sameinad.location_icon _)) as [mk|e'] eqn:Htry;
    [discriminate|].
  apply folium_Marker_raises in Htry as ->.
  apply folium_Marker_raises.
Qed.

Lemma house_circle_raises pop_min pop_max (r : GeoRow Location * Z) (e : exn) :
  house_circle pop_min pop_max r = Raise e -> e = ValueError.
Proof.
  unfold house_circle, folium_CircleMarker.
  destruct (validate_location _) eqn:Hv; simpl; [discriminate|].
  intros [= <-]. now apply validate_location_raises in Hv.
Qed.

(** *** Rendering *)

Lemma GeoJsonDetail_render_nil (fields : list string) :
  GeoJsonDetail_render [] fields = Raise IndexError.
Proof. reflexivity. Qed.

Lemma GeoJsonDetail_render_raises (data : list Feature) (fields : list string)
    (e : exn) :
  GeoJsonDetail_render data fields = Raise e ->
  (e = IndexError /\ data = []) \/ e = AssertionError.
Proof.
  unfold GeoJsonDetail_render. destruct data as [|f data]; simpl.
  - intros [= <-]. now left.
  - destruct (forallb _ fields); [discriminate|]. intros [= <-]. now right.
Qed.

Lemma layer_render_raises (l : Layer) (e : exn) :
  layer_render l = Raise e -> e = IndexError \/ e = AssertionError.
Proof.
  destruct l as [| g | | |]; simpl; try discriminate.
  destruct (GeoJsonDetail_render _ (tooltip_fields _)) as [[]|e'] eqn:Ht; simpl.
  - intros Hp. apply GeoJsonDetail_render_raises in Hp. tauto.
  - intros [= <-]. apply GeoJsonDetail_render_raises in Ht. tauto.
Qed.

(** Rendering returns the document of the map it was called on. *)
Lemma repr_html_Ok (m m' : Map) : _repr_html_ m = Ok m' -> m' = m.
Proof.
  unfold _repr_html_.
  destruct (mapM layer_render (map_children m)); simpl;
    [intros Hm; now inversion Hm | discriminate].
Qed.

(** Rendering raises nothing but the [IndexError] and the [AssertionError]
    of a tooltip or popup. *)
Lemma repr_html_raises (m : Map) (e : exn) :
  _repr_html_ m = Raise e -> e = IndexError \/ e = AssertionError.
Proof.
  unfold _repr_html_.
  destruct (mapM layer_render (map_children m)) as [u|e'] eqn:Hr; simpl;
    [discriminate|].
  intros [= <-]. apply mapM_result_raises in Hr as (l & _ & Hl).
  now apply layer_render_raises in Hl.
Qed.

(** The polygon layer of [sameinad.py] renders when it has a feature; the
    fields of its tooltip and popup are columns of the frame. *)
Lemma sameinad_geojson_render (kingdom_gdf : list (GeoRow Kingdom))
    (color : list string) :
  length color = length kingdom_gdf ->
  layer_render (GeoJsonLayer (Sameinad.kingdoms_geojson kingdom_gdf color))
  = match kingdom_gdf with
    | [] => Raise IndexError
    | _ :: _ => Ok tt
    end.
Proof.
  destruct kingdom_gdf as [|r gdf], color as [|c color]; try discriminate.
  - reflexivity.
  - intros _. reflexivity.
Qed.

(** So does the polygon layer of [map.py]. *)
Lemma mappy_geojson_render (kingdom_gdf : list (GeoRow Kingdom))
    (color : list string) :
  length color = length kingdom_gdf ->
  layer_render (GeoJsonLayer (MapPy.kingdoms_geojson kingdom_gdf color))
  = match kingdom_gdf with
    | [] => Raise IndexError
    | _ :: _ => Ok tt
    end.
Proof.
  destruct kingdom_gdf as [|r gdf], color as [|c color]; try discriminate.
  - reflexivity.
  - intros _. reflexivity.
Qed.

Lemma kingdom_colors_length (n : nat) :
  length (Sameinad.kingdom_colors (F:=float) n) = n.
Proof.
  unfold Sameinad.kingdom_colors, rainbow_colors.
  destruct n; [reflexivity|]. cbn [Nat.ltb Nat.leb].
  now rewrite length_fmap, length_seq.
Qed.

Lemma kingdom_colors_lookup (n i : nat) :
  (i < n)%nat ->
  Sameinad.kingdom_colors (F:=float) n !! i
  = Some (rgb2hex
            (colormap_call (F:=float) (get_cmap "rainbow" (Z.of_nat n))
               (fdiv (of_int (Z.of_nat i)) (of_int (Z.of_nat n))))).
Proof.
  intros Hlt. unfold Sameinad.kingdom_colors, rainbow_colors.
  destruct n; [lia|]. cbn [Nat.ltb Nat.leb].
  rewrite list_lookup_fmap, lookup_seq_lt by lia.
  cbn [fmap option_fmap option_map Nat.add]. reflexivity.
Qed.

(** The unguarded comprehension of [map.py] and the guarded one of
    [sameinad.py] give the same column. *)
Lemma mappy_kingdom_colors_eq (n : nat) :
  MapPy.kingdom_colors (F:=float) n = Sameinad.kingdom_colors (F:=float) n.
Proof. destruct n; reflexivity. Qed.

(** A build of [sameinad.py]: once the map is composed, rendering it
    returns it when the polygon layer has a feature, and raises the
    [IndexError] of [features[0]] when it has none. *)
Lemma sameinad_map_of_build (selected_kingdoms : list string) (db : Database)
    (rng : RandomState) (m : Map) (all_kingdoms : list (GeoRow Kingdom)) :
  to_gdf k_geom_wkt (query_kingdoms db) = Ok all_kingdoms ->
  Sameinad.build_map selected_kingdoms db rng = Ok m ->
  Sameinad.map selected_kingdoms db rng
  = match Sameinad.filter_kingdoms selected_kingdoms all_kingdoms with
    | [] => Raise IndexError
    | _ :: _ => Ok m
    end.
Proof.
  intros Hk Hm. unfold Sameinad.map. rewrite Hm. cbn [mbind result_bind].
  apply sameinad_build_inv in Hm
    as (location_gdf & all_kingdoms' & houses_gdf & center & markers & circles
        & _ & Hk' & _ & _ & _ & _ & ->).
  rewrite Hk in Hk'. injection Hk' as <-. cbv zeta.
  unfold _repr_html_. cbn [map_children]. rewrite !mapM_result_cons.
  rewrite sameinad_geojson_render by apply kingdom_colors_length.
  destruct (Sameinad.filter_kingdoms selected_kingdoms all_kingdoms);
    reflexivity.
Qed.

(** A build of [map.py], likewise. *)
Lemma mappy_map_of_build (db : Database) (rng : RandomState) (m : Map)
    (kingdom_gdf : list (GeoRow Kingdom)) :
  to_gdf k_geom_wkt (query_kingdoms db) = Ok kingdom_gdf ->
  MapPy.build_map db rng = Ok m ->
  MapPy.map db rng
  = match kingdom_gdf with
    | [] => Raise IndexError
    | _ :: _ => Ok m
    end.
Proof.
  intros Hk Hm. unfold MapPy.map. rewrite Hm. cbn [mbind result_bind].
  apply mappy_build_inv in Hm
    as (location_gdf & kingdom_gdf' & houses_gdf & markers & circles
        & _ & Hk' & _ & _ & _ & ->).
  rewrite Hk in Hk'. injection Hk' as <-.
  unfold _repr_html_. cbn [map_children]. rewrite !mapM_result_cons.
  rewrite mappy_geojson_render
    by (rewrite mappy_kingdom_colors_eq; apply kingdom_colors_length).
  destruct kingdom_gdf; reflexivity.
Qed.

(** The map a build returns the rendering of is the one it composed. *)
Lemma sameinad_map_build (selected_kingdoms : list string) (db : Database)
    (rng : RandomState) (m : Map) :
  Sameinad.map selected_kingdoms db rng = Ok m ->
  Sameinad.build_map selected_kingdoms db rng = Ok m.
Proof.
  unfold Sameinad.map. intros Hm.
  apply bind_Ok_inv in Hm as (m0 & Hb & Hr).
  now apply repr_html_Ok in Hr as ->.
Qed.

Lemma mappy_map_build (db : Database) (rng : RandomState) (m : Map) :
  MapPy.map db rng = Ok m -> MapPy.build_map db rng = Ok m.
Proof.
  unfold MapPy.map. intros Hm.
  apply bind_Ok_inv in Hm as (m0 & Hb & Hr).
  now apply repr_html_Ok in Hr as ->.
Qed.

(** What a build of [sameinad.py] that returned a map went through. *)
Lemma sameinad_map_inv (selected_kingdoms : list string) (db : Database)
    (rng : RandomState) (m : Map) :
  Sameinad.map selected_kingdoms db rng = Ok m ->
  exists location_gdf all_kingdoms houses_gdf center markers circles,
    to_gdf loc_geom_wkt (query_locations db) = Ok location_gdf /\
    to_gdf k_geom_wkt (query_kingdoms db) = Ok all_kingdoms /\
    to_gdf loc_geom_wkt (query_houses db) = Ok houses_gdf /\
    let population := (synth_population (length houses_gdf) rng).1 in
    let kingdom_gdf := Sameinad.filter_kingdoms selected_kingdoms all_kingdoms in
    Sameinad.map_center kingdom_gdf location_gdf = Ok center /\
    mapM Sameinad.location_marker location_gdf = Ok markers /\
    mapM (house_circle (series_min population) (series_max population))
      (zip houses_gdf population) = Ok circles /\
    m = {| map_location := (center.2, center.1); map_zoom_start := 5;
           map_children :=
             [ tile_layer;
               GeoJsonLayer
                 (Sameinad.kingdoms_geojson kingdom_gdf
                    (Sameinad.kingdom_colors (F:=float) (length kingdom_gdf)));
               MarkerCluster "Locations" markers;
               FeatureGroup "Houses" circles;
               LayerControl ] |}.
Proof. intros Hm. now apply sameinad_build_inv, sameinad_map_build. Qed.

(** What a build of [map.py] that returned a map went through. *)
Lemma mappy_map_inv (db : Database) (rng : RandomState) (m : Map) :
  MapPy.map db rng = Ok m ->
  exists location_gdf kingdom_gdf houses_gdf markers circles,
    to_gdf loc_geom_wkt (query_locations db) = Ok location_gdf /\
    to_gdf k_geom_wkt (query_kingdoms db) = Ok kingdom_gdf /\
    to_gdf loc_geom_wkt (query_houses db) = Ok houses_gdf /\
    let population := (synth_population (length houses_gdf) rng).1 in
    mapM MapPy.location_marker location_gdf = Ok markers /\
    mapM (house_circle (series_min population) (series_max population))
      (zip houses_gdf population) = Ok circles /\
    m = {| map_location := MapPy.map_center location_gdf;
           map_zoom_start := 5;
           map_children :=
             [ tile_layer;
               MarkerCluster "Locations" markers;
               GeoJsonLayer
                 (MapPy.kingdoms_geojson kingdom_gdf
                    (MapPy.kingdom_colors (F:=float) (length kingdom_gdf)));
               FeatureGroup "Houses" circles;
               LayerControl ] |}.
Proof. intros Hm. now apply mappy_build_inv, mappy_map_build. Qed.

(** A build that returned a map has drawn at least one kingdom. *)
Lemma sameinad_map_rendered (selected_kingdoms : list string) (db : Database)
    (rng : RandomState) (m : Map) (all_kingdoms : list (GeoRow Kingdom)) :
  to_gdf k_geom_wkt (query_kingdoms db) = Ok all_kingdoms ->
  Sameinad.map selected_kingdoms db rng = Ok m ->
  Sameinad.filter_kingdoms selected_kingdoms all_kingdoms <> [].
Proof.
  intros Hk Hm Hnil.
  rewrite (sameinad_map_of_build _ _ _ m _ Hk (sameinad_map_build _ _ _ _ Hm)),
    Hnil in Hm.
  discriminate.
Qed.

(** What raises while the map is composed raises from the build. *)
Lemma sameinad_build_raises (selected_kingdoms : list string) (db : Database)
    (rng : RandomState) (e : exn) :
  Sameinad.build_map selected_kingdoms db rng = Raise e ->
  Sameinad.map selected_kingdoms db rng = Raise e.
Proof. unfold Sameinad.map. now intros ->. Qed.

Lemma mappy_build_raises (db : Database) (rng : RandomState) (e : exn) :
  MapPy.build_map db rng = Raise e -> MapPy.map db rng = Raise e.
Proof. unfold MapPy.map. now intros ->. Qed.

End Builds.
(* ===================================================================== *)
(** ** The radius in binary64 *)
(* ===================================================================== *)

Lemma digits2_pos_size (p : positive) : digits2_pos p = Pos.size p.
Proof. induction p; simpl; congruence. Qed.

Lemma Zdigits2_53 (M : Z) : 2 ^ 52 <= M < 2 ^ 53 -> Zdigits2 M = 53.
Proof.
  intros [Hlo Hhi]. destruct M as [|p|p]; try lia.
  simpl. rewrite digits2_pos_size. f_equal.
  pose proof (Pos.size_gt p) as Hgt. pose proof (Pos.size_le p) as Hle.
  apply Pos2Z.pos_lt_pos in Hgt. apply Pos2Z.pos_le_pos in Hle.
  rewrite Pos2Z.inj_pow in Hgt, Hle. rewrite (Pos2Z.inj_xO p) in Hle.
  destruct (Z.lt_trichotomy (Z.pos (Pos.size p)) 53) as [Hlt | [Heq | Hgt']].
  - assert (2 ^ Z.pos (Pos.size p) <= 2 ^ 52)
      by (apply Z.pow_le_mono_r; lia).
    lia.
  - now injection Heq.
  - assert (2 ^ 54 <= 2 ^ Z.pos (Pos.size p))
      by (apply Z.pow_le_mono_r; lia).
    lia.
Qed.

(** [Prim2SF] of a normal number, read off the kernel's decomposition. *)
Lemma Prim2SF_normal (x f : float) (e : int) :
  PrimFloat.is_nan x = false -> PrimFloat.is_zero x = false ->
  PrimFloat.is_infinity x = false ->
  PrimFloat.frshiftexp x = (f, e) ->
  2 ^ 52 <= Uint63.to_Z (PrimFloat.normfr_mantissa f) < 2 ^ 53 ->
  -1074 <= Uint63.to_Z e - FloatOps.shift - 53 ->
  Prim2SF x
  = S754_finite (PrimFloat.get_sign x)
      (Z.to_pos (Uint63.to_Z (PrimFloat.normfr_mantissa f)))
      (Uint63.to_Z e - FloatOps.shift - 53).
Proof.
  intros Hnan Hzero Hinf Hfr Hm He.
  unfold Prim2SF. rewrite Hnan, Hzero, Hinf. unfold Z.frexp. rewrite Hfr.
  unfold shr_fexp. rewrite (Zdigits2_53 _ Hm).
  change FloatOps.prec with 53.
  set (E := Uint63.to_Z e - FloatOps.shift) in *.
  assert (Hf : SpecFloat.fexp 53 FloatOps.emax (53 + (E - 53)) - (E - 53) = 0).
  { unfold SpecFloat.fexp, SpecFloat.emin. change FloatOps.emax with 1024. lia. }
  rewrite Hf. simpl.
  destruct (Uint63.to_Z (PrimFloat.normfr_mantissa f)) as [|p|p] eqn:Hp;
    try lia.
  reflexivity.
Qed.

Lemma wB_value : wB = 9223372036854775808.
Proof. reflexivity. Qed.

Lemma to_Z_of_Z_small (z : Z) :
  0 <= z < 9223372036854775808 -> Uint63.to_Z (Uint63.of_Z z) = z.
Proof. intros Hz. rewrite Uint63.of_Z_spec, wB_value. now apply Z.mod_small. Qed.

Lemma near_spec (a b : int) :
  Uint63.to_Z a < 2 ^ 62 -> Uint63.to_Z b < 2 ^ 62 ->
  near a b = true -> Z.abs (Uint63.to_Z a - Uint63.to_Z b) <= 1.
Proof.
  intros Ha Hb. unfold near. rewrite andb_true_iff, !Uint63.leb_spec.
  rewrite !Uint63.add_spec, wB_value.
  change (Uint63.to_Z 1) with 1.
  pose proof (Uint63.to_Z_bounded a). pose proof (Uint63.to_Z_bounded b).
  rewrite !Z.mod_small by lia. lia.
Qed.

(** What a passed check says about the radius. *)
Lemma radius_check_sound (k d : Z) :
  1 <= k <= 4899 -> 0 <= d <= k ->
  radius_check (Uint63.of_Z k) (Uint63.of_Z d) = true ->
  exists (M E : Z),
    Prim2SF (radius_at (Uint63.of_Z k) (Uint63.of_Z d))
    = S754_finite false (Z.to_pos M) E
    /\ 2 ^ 52 <= M < 2 ^ 53
    /\ (E = -50 \/ E = -49)
    /\ Z.abs (M * 2 ^ (E + 50) * k - (5 * k + 10 * d) * 2 ^ 50) < 64 * k.
Proof.
  intros Hk Hd. unfold radius_check.
  set (r := radius_at (Uint63.of_Z k) (Uint63.of_Z d)).
  destruct (PrimFloat.frshiftexp r) as [f e] eqn:Hfr.
  set (m := PrimFloat.normfr_mantissa f).
  rewrite !andb_true_iff, !negb_true_iff, orb_true_iff, !andb_true_iff.
  rewrite Uint63.leb_spec, Uint63.ltb_spec, !Uint63.eqb_spec.
  change (Uint63.to_Z 4503599627370496) with (2 ^ 52).
  change (Uint63.to_Z 9007199254740992) with (2 ^ 53).
  intros [[[[[[Hnan Hzero] Hinf] Hsign] Hlo] Hhi] Hcase].
  assert (Hki : Uint63.to_Z (Uint63.of_Z k) = k) by (apply to_Z_of_Z_small; lia).
  assert (Hdi : Uint63.to_Z (Uint63.of_Z d) = d) by (apply to_Z_of_Z_small; lia).
  set (N := Uint63.add (Uint63.mul 5 (Uint63.of_Z k))
              (Uint63.mul 10 (Uint63.of_Z d))) in *.
  assert (HN : Uint63.to_Z N = 5 * k + 10 * d).
  { unfold N. rewrite Uint63.add_spec, !Uint63.mul_spec, Hki, Hdi, wB_value.
    change (Uint63.to_Z 5) with 5. change (Uint63.to_Z 10) with 10.
    rewrite (Z.mod_small (5 * k)), (Z.mod_small (10 * d)), Z.mod_small by lia.
    reflexivity. }
  set (T := Uint63.div (Uint63.lsl N 45) (Uint63.of_Z k)) in *.
  assert (HT : Uint63.to_Z T = (5 * k + 10 * d) * 2 ^ 45 / k).
  { unfold T. rewrite Uint63.div_spec, Uint63.lsl_spec, HN, Hki, wB_value.
    change (Uint63.to_Z 45) with 45.
    rewrite Z.mod_small; [reflexivity|]. lia. }
  assert (HTlt : Uint63.to_Z T < 2 ^ 62).
  { rewrite HT. apply Z.div_lt_upper_bound; lia. }
  pose proof (Z.div_mod ((5 * k + 10 * d) * 2 ^ 45) k ltac:(lia)) as Hdm.
  pose proof (Z.mod_pos_bound ((5 * k + 10 * d) * 2 ^ 45) k ltac:(lia)) as Hmb.
  rewrite <- HT in Hdm.
  set (M := Uint63.to_Z m) in *.
  destruct Hcase as [[-> Hnear] | [-> Hnear]].
  - exists M, (-50). split; [|split; [lia|split; [now left|]]].
    + rewrite (Prim2SF_normal r f 2104 Hnan Hzero Hinf Hfr); [|fold m M; lia|].
      * now rewrite Hsign.
      * change (Uint63.to_Z 2104) with 2104. change FloatOps.shift with 2101. lia.
    + apply near_spec in Hnear; [| |exact HTlt].
      2:{ rewrite Uint63.lsr_spec. fold m M. change (Uint63.to_Z 5) with 5.
          apply Z.div_lt_upper_bound; lia. }
      rewrite Uint63.lsr_spec in Hnear. fold m M in Hnear.
      change (Uint63.to_Z 5) with 5 in Hnear.
      pose proof (Z.div_mod M (2 ^ 5) ltac:(lia)) as HdmM.
      pose proof (Z.mod_pos_bound M (2 ^ 5) ltac:(lia)) as HmbM.
      change (-50 + 50) with 0. change (2 ^ 0) with 1.
      change (2 ^ 5) with 32 in *. change (2 ^ 45) with 35184372088832 in *.
      change (2 ^ 50) with 1125899906842624.
      nia.
  - exists M, (-49). split; [|split; [lia|split; [now right|]]].
    + rewrite (Prim2SF_normal r f 2105 Hnan Hzero Hinf Hfr); [|fold m M; lia|].
      * now rewrite Hsign.
      * change (Uint63.to_Z 2105) with 2105. change FloatOps.shift with 2101. lia.
    + apply near_spec in Hnear; [| |exact HTlt].
      2:{ rewrite Uint63.lsr_spec. fold m M. change (Uint63.to_Z 4) with 4.
          apply Z.div_lt_upper_bound; lia. }
      rewrite Uint63.lsr_spec in Hnear. fold m M in Hnear.
      change (Uint63.to_Z 4) with 4 in Hnear.
      pose proof (Z.div_mod M (2 ^ 4) ltac:(lia)) as HdmM.
      pose proof (Z.mod_pos_bound M (2 ^ 4) ltac:(lia)) as HmbM.
      change (-49 + 50) with 1. change (2 ^ 1) with 2.
      change (2 ^ 4) with 16 in *. change (2 ^ 45) with 35184372088832 in *.
      change (2 ^ 50) with 1125899906842624.
      nia.
Qed.

Lemma of_Z_succ (z : Z) :
  0 <= z < 2 ^ 62 -> Uint63.add (Uint63.of_Z z) 1 = Uint63.of_Z (z + 1).
Proof.
  intros Hz. apply Uint63.to_Z_inj.
  rewrite Uint63.add_spec, !to_Z_of_Z_small, wB_value by lia.
  change (Uint63.to_Z 1) with 1. apply Z.mod_small. lia.
Qed.

Lemma radius_check_row_sound (n : nat) (k d0 : Z) :
  0 <= d0 -> d0 + Z.of_nat n < 2 ^ 62 ->
  radius_check_row n (Uint63.of_Z k) (Uint63.of_Z d0) = true ->
  forall d, d0 <= d < d0 + Z.of_nat n ->
            radius_check (Uint63.of_Z k) (Uint63.of_Z d) = true.
Proof.
  revert d0. induction n as [|n IH]; intros d0 Hd0 Hn; simpl; [lia|].
  rewrite andb_true_iff, of_Z_succ by lia. intros [Hhere Hrest] d Hd.
  destruct (Z.eq_dec d d0) as [->|Hne]; [exact Hhere|].
  apply (IH (d0 + 1)); [lia | lia | exact Hrest | lia].
Qed.

Lemma radius_check_rows_sound (n : nat) (k0 : Z) (len : nat) :
  0 <= k0 -> k0 + Z.of_nat n < 2 ^ 61 -> Z.of_nat len = k0 + 1 ->
  radius_check_rows n (Uint63.of_Z k0) len = true ->
  forall k d, k0 <= k < k0 + Z.of_nat n -> 0 <= d <= k ->
              radius_check (Uint63.of_Z k) (Uint63.of_Z d) = true.
Proof.
  revert k0 len. induction n as [|n IH]; intros k0 len Hk0 Hn Hlen; simpl;
    [lia|].
  rewrite andb_true_iff, of_Z_succ by lia. intros [Hrow Hrest] k d Hk Hd.
  destruct (Z.eq_dec k k0) as [->|Hne].
  - apply (radius_check_row_sound len k0 0); [lia | lia | exact Hrow | lia].
  - apply (IH (k0 + 1) (S len)); [lia | lia | lia | exact Hrest | lia | lia].
Qed.

Lemma radius_checked : radius_check_rows 4899 1 2 = true.
Proof. vm_compute. reflexivity. Qed.


Lemma get_radius_spread (pop_min pop_max p : Z) :
  pop_min < pop_max -> pop_min <= p ->
  get_radius (F:=float) (Some pop_min) (Some pop_max) p
  = radius_at (Uint63.of_Z (pop_max - pop_min)) (Uint63.of_Z (p - pop_min)).
Proof.
  intros Hlt Hp. unfold get_radius, radius_at.
  destruct (Z.ltb_spec pop_min pop_max) as [_|]; [|lia].
  cbn [of_int fadd fmul fdiv binary64]. unfold float_of_Z.
  destruct (Z.ltb_spec (p - pop_min) 0) as [|_]; [lia|].
  destruct (Z.ltb_spec (pop_max - pop_min) 0) as [|_]; [lia|].
  reflexivity.
Qed.

Lemma binary64_value_finite (x : float) (M E : Z) :
  Prim2SF x = S754_finite false (Z.to_pos M) E -> 0 < M -> E < 0 ->
  binary64_value x = M # (2 ^ Z.to_pos (- E)).
Proof.
  intros Hx HM HE. unfold binary64_value. rewrite Hx.
  destruct (Z.leb_spec 0 E) as [|_]; [lia|].
  now rewrite Z2Pos.id.
Qed.

(** The radius of binary64 against the exact value of the formula, for a
    column whose spread is that of populations drawn from [[100, 5000)]. *)
Lemma binary64_radius_close (pop_min pop_max p : Z) :
  pop_min < pop_max -> pop_max - pop_min <= 4899 -> pop_min <= p <= pop_max ->
  (Qabs (binary64_value (get_radius (F:=float) (Some pop_min) (Some pop_max) p)
         - (5 + 10 * (inject_Z (p - pop_min) / inject_Z (pop_max - pop_min))))
   <= 1 # 2 ^ 44)%Q.
Proof.
  intros Hlt Hspread Hp.
  rewrite get_radius_spread by lia.
  set (k := pop_max - pop_min) in *. set (d := p - pop_min) in *.
  assert (Hk : 1 <= k <= 4899) by lia. assert (Hd : 0 <= d <= k) by lia.
  clearbody k d. clear Hlt Hspread Hp.
  destruct (radius_check_sound k d Hk Hd) as (M & E & HSF & HM & HE & Hclose).
  { apply (radius_check_rows_sound 4899 1 2); try lia.
    - exact radius_checked. }
  rewrite (binary64_value_finite _ M E HSF) by lia.
  assert (Hexact : (5 + 10 * (inject_Z d / inject_Z k)
                    == (5 * k + 10 * d) # Z.to_pos k)%Q).
  { destruct k as [|kp|kp]; try lia.
    cbv [Qeq Qplus Qmult Qdiv Qinv inject_Z Qnum Qden Z.to_pos].
    rewrite ?Pos2Z.inj_mul. lia. }
  rewrite Hexact. apply Qabs_Qle_condition.
  unfold Qle, Qminus, Qplus, Qopp. cbn [Qnum Qden].
  rewrite !Pos2Z.inj_mul, !Z2Pos.id by lia.
  rewrite !Pos2Z.inj_pow.
  destruct HE as [-> | ->].
  - change (- -50) with 50 in *. change (Z.pos (Z.to_pos 50)) with 50.
    change (-50 + 50) with 0 in Hclose. change (2 ^ 0) with 1 in Hclose.
    change (Z.pos 2 ^ 50) with 1125899906842624.
    change (Z.pos 2 ^ Z.pos 44) with 17592186044416.
    change (2 ^ 50) with 1125899906842624 in Hclose.
    split; nia.
  - change (- -49) with 49 in *. change (Z.pos (Z.to_pos 49)) with 49.
    change (-49 + 50) with 1 in Hclose. change (2 ^ 1) with 2 in Hclose.
    change (Z.pos 2 ^ 49) with 562949953421312.
    change (Z.pos 2 ^ Z.pos 44) with 17592186044416.
    change (2 ^ 50) with 1125899906842624 in Hclose.
    split; nia.
Qed.

Lemma SF_is_spec (x : float) (m : positive) (e : Z) :
  SF_is x m e = true -> Prim2SF x = S754_finite false m e.
Proof.
  unfold SF_is. destruct (Prim2SF x) as [| | |[] m' e']; try discriminate.
  rewrite andb_true_iff, Pos.eqb_eq, Z.eqb_eq. now intros [-> ->].
Qed.

Lemma radius_ends_checked : forallb radius_ends_check (seqZ 1 4899) = true.
Proof. vm_compute. reflexivity. Qed.

(** In binary64 the least population of a column is drawn with radius
    exactly 5 and the greatest with radius exactly 15. *)
Lemma binary64_radius_ends (pop_min pop_max : Z) :
  pop_min < pop_max -> pop_max - pop_min <= 4899 ->
  (binary64_value (get_radius (F:=float) (Some pop_min) (Some pop_max) pop_min)
   == 5)%Q
  /\ (binary64_value (get_radius (F:=float) (Some pop_min) (Some pop_max) pop_max)
      == 15)%Q.
Proof.
  intros Hlt Hspread.
  pose proof radius_ends_checked as Hall.
  rewrite forallb_forall in Hall.
  specialize (Hall (pop_max - pop_min)).
  assert (Hin : In (pop_max - pop_min) (seqZ 1 4899))
    by (apply list_elem_of_In, elem_of_seqZ; lia).
  specialize (Hall Hin). unfold radius_ends_check in Hall.
  apply andb_true_iff in Hall as [H5 H15].
  rewrite (get_radius_spread 0 (pop_max - pop_min) 0) in H5 by lia.
  rewrite (get_radius_spread 0 (pop_max - pop_min) (pop_max - pop_min))
    in H15 by lia.
  rewrite Z.sub_0_r in H5, H15. change (0 - 0) with 0 in H5.
  apply SF_is_spec in H5. apply SF_is_spec in H15.
  rewrite !get_radius_spread by lia. rewrite Z.sub_diag.
  unfold binary64_value. rewrite H5, H15. split; reflexivity.
Qed.

(** The constant radius of a column whose populations are all equal. *)
Lemma binary64_value_10 : (binary64_value (of_int 10) == 10)%Q.
Proof. reflexivity. Qed.

Lemma lut_index_checked :
  forallb lut_index_check (seq 0 22) = true.
Proof. vm_compute. reflexivity. Qed.

(** Up to 21 kingdoms, binary64 reads for position [i] the table entry
    [i], as exact arithmetic does. *)
Lemma binary64_lut_index_small (n i : nat) :
  (i < n)%nat -> (n <= 21)%nat ->
  lut_index (F:=float) (Z.of_nat n)
    (fdiv (of_int (Z.of_nat i)) (of_int (Z.of_nat n))) = Z.of_nat i.
Proof.
  intros Hi Hn.
  pose proof lut_index_checked as Hall. rewrite forallb_forall in Hall.
  specialize (Hall n). unfold lut_index_check in Hall.
  rewrite forallb_forall in Hall.
  apply Z.eqb_eq, Hall.
  - apply in_seq. lia.
  - apply in_seq. lia.
Qed.
(* ===================================================================== *)
(** ** The properties of the specification *)
(* ===================================================================== *)

Section Claims.
Context {geo : Shapely} {rnd : NumpyRandom} {mpl : Matplotlib}.

(** C1 (amended).  The folium map [sameinad.py] composes is centred on the
    first coordinate pair of the centroid of the union of the (possibly
    filtered) kingdom geometries, and exactly when that collection is empty
    on that of the union of all location geometries; [location] is that pair
    as [[lat, lon]], and a build that returns has rendered that map.  Given
    that the WKT strings load, the build raises [IndexError] whenever the
    centroid it frames on has no coordinates, which is the case of both
    collections empty whenever the centroid of an empty union is empty.  In
    [map.py] the centre is always the centroid of the union of the
    locations. *)
Theorem C1_map_center (selected_kingdoms : list string) (db : Database)
    (rng : RandomState) (location_gdf : list (GeoRow Location))
    (all_kingdoms : list (GeoRow Kingdom)) :
  to_gdf loc_geom_wkt (query_locations db) = Ok location_gdf ->
  to_gdf k_geom_wkt (query_kingdoms db) = Ok all_kingdoms ->
  let kingdom_gdf := Sameinad.filter_kingdoms selected_kingdoms all_kingdoms in
  let framed :=
    match kingdom_gdf with
    | _ :: _ => union_centroid kingdom_gdf
    | [] => union_centroid location_gdf
    end in
  (forall m, Sameinad.build_map selected_kingdoms db rng = Ok m ->
     exists lon lat rest,
       coords framed = (lon, lat) :: rest /\ map_location m = (lat, lon))
  /\ (forall m, Sameinad.map selected_kingdoms db rng = Ok m ->
     Sameinad.build_map selected_kingdoms db rng = Ok m
     /\ exists lon lat rest,
          coords framed = (lon, lat) :: rest /\ map_location m = (lat, lon))
  /\ (coords framed = [] ->
      Sameinad.build_map selected_kingdoms db rng = Raise IndexError
      /\ Sameinad.map selected_kingdoms db rng = Raise IndexError)
  /\ (kingdom_gdf = [] -> location_gdf = [] ->
      coords (centroid (unary_union [])) = [] ->
      Sameinad.map selected_kingdoms db rng = Raise IndexError)
  /\ (forall m, MapPy.build_map db rng = Ok m \/ MapPy.map db rng = Ok m ->
      map_location m = (geom_y (centroid (unary_union (geometry <$> location_gdf))),
                        geom_x (centroid (unary_union (geometry <$> location_gdf))))).
Proof.
  intros Hloc Hk kingdom_gdf framed.
  destruct (to_gdf_houses db _ Hloc) as [houses_gdf Hh].
  assert (Hc : Sameinad.map_center kingdom_gdf location_gdf
               = first_item (coords framed))
    by (unfold framed, Sameinad.map_center; destruct kingdom_gdf; reflexivity).
  pose proof (sameinad_build_eq selected_kingdoms db rng) as Heq.
  rewrite Hloc, Hk, Hh in Heq. cbn [mbind result_bind] in Heq.
  cbv zeta in Heq. fold kingdom_gdf in Heq. rewrite Hc in Heq.
  assert (Hcentre : forall m,
             Sameinad.build_map selected_kingdoms db rng = Ok m ->
             exists lon lat rest,
               coords framed = (lon, lat) :: rest
               /\ map_location m = (lat, lon)).
  { intros m Hm. rewrite Heq in Hm.
    destruct (coords framed) as [|[lon lat] rest]; [discriminate|].
    exists lon, lat, rest. split; [reflexivity|].
    simpl in Hm.
    apply bind_Ok_inv in Hm as (loc & Hv & Hm).
    apply bind_Ok_inv in Hm as (markers & _ & Hm).
    apply bind_Ok_inv in Hm as (circles & _ & Hm).
    apply validate_location_Ok in Hv as ->. now inversion Hm. }
  assert (Hidx : coords framed = [] ->
                 Sameinad.build_map selected_kingdoms db rng = Raise IndexError
                 /\ Sameinad.map selected_kingdoms db rng = Raise IndexError).
  { intros Hnil.
    assert (Hb : Sameinad.build_map selected_kingdoms db rng = Raise IndexError)
      by (rewrite Heq, Hnil; reflexivity).
    split; [exact Hb | now apply sameinad_build_raises]. }
  split; [exact Hcentre|]. split; [|split; [exact Hidx|split]].
  - intros m Hm. apply sameinad_map_build in Hm. split; [exact Hm | auto].
  - intros Hks Hls Hempty. apply Hidx. unfold framed.
    rewrite Hks, Hls. exact Hempty.
  - intros m Hm.
    assert (Hb : MapPy.build_map db rng = Ok m)
      by (destruct Hm as [Hm|Hm]; [exact Hm | now apply mappy_map_build]).
    apply mappy_build_inv in Hb
      as (l' & k' & h' & mks & cs & Hl' & _ & _ & _ & _ & ->).
    rewrite Hloc in Hl'. injection Hl' as <-. reflexivity.
Qed.


(** In exact arithmetic [(i / n) * n] is [i]: position [i] of [n] reads
    table entry [i]. *)
Lemma exact_lut_index (n i : nat) :
  (i < n)%nat ->
  lut_index (F:=Q) (Z.of_nat n)
    (fdiv (of_int (Z.of_nat i)) (of_int (Z.of_nat n))) = Z.of_nat i.
Proof.
  intros Hlt. unfold lut_index. cbn [of_int fdiv fmul fisnan fltb feqb ftrunc exact].
  set (xa := (inject_Z (Z.of_nat i) / inject_Z (Z.of_nat n)
              * inject_Z (Z.of_nat n))%Q).
  assert (Hn : ~ (inject_Z (Z.of_nat n) == 0)%Q).
  { intros Hq. unfold Qeq, inject_Z in Hq. simpl in Hq. lia. }
  assert (Hxa : (xa == inject_Z (Z.of_nat i))%Q) by (unfold xa; now field).
  clearbody xa.
  assert (H0 : Qle_bool (inject_Z 0) xa = true).
  { apply Qle_bool_iff. rewrite Hxa. rewrite <- Zle_Qle. lia. }
  assert (Hne : Qeq_bool xa (inject_Z (Z.of_nat n)) = false).
  { destruct (Qeq_bool xa (inject_Z (Z.of_nat n))) eqn:E; [|reflexivity].
    apply Qeq_bool_iff in E. rewrite Hxa in E.
    unfold Qeq, inject_Z in E. simpl in E. lia. }
  assert (Hle : Qle_bool xa (inject_Z (Z.of_nat n)) = true).
  { apply Qle_bool_iff. rewrite Hxa. rewrite <- Zle_Qle. lia. }
  rewrite H0, Hne, Hle. simpl.
  unfold Qeq, inject_Z in Hxa. simpl in Hxa.
  assert (Hq : Qnum xa = Z.of_nat i * Z.pos (Qden xa)) by lia.
  rewrite Hq. apply Z.quot_mul. discriminate.
Qed.

(** [map.py] and [sameinad.py] compute the colours of [n >= 1] kingdoms
    alike: position [i] is given [rgb2hex(colormap(i / n))]. *)
Lemma rainbow_colors_lookup (n i : nat) :
  (i < n)%nat ->
  rainbow_colors (F:=float) n !! i
  = Some (rgb2hex
            (cmap_lut "rainbow" (Z.of_nat n)
               (lut_index (F:=float) (Z.of_nat n)
                  (fdiv (of_int (Z.of_nat i)) (of_int (Z.of_nat n)))))).
Proof.
  intros Hlt. unfold rainbow_colors.
  rewrite list_lookup_fmap, lookup_seq_lt by lia. reflexivity.
Qed.

(** Up to 21 kingdoms the colour of position [i] is entry [i] of the table
    of [n] entries, in both scripts: the colours are as distinct as the
    entries of the table are. *)
Lemma rainbow_colors_small (n i : nat) :
  (i < n)%nat -> (n <= 21)%nat ->
  Sameinad.kingdom_colors (F:=float) n !! i
  = Some (rgb2hex (cmap_lut "rainbow" (Z.of_nat n) (Z.of_nat i)))
  /\ MapPy.kingdom_colors (F:=float) n !! i
     = Some (rgb2hex (cmap_lut "rainbow" (Z.of_nat n) (Z.of_nat i))).
Proof.
  intros Hi Hn. rewrite mappy_kingdom_colors_eq.
  assert (H : Sameinad.kingdom_colors (F:=float) n !! i
              = Some (rgb2hex (cmap_lut "rainbow" (Z.of_nat n) (Z.of_nat i)))).
  { unfold Sameinad.kingdom_colors. destruct n; [lia|]. cbn [Nat.ltb Nat.leb].
    rewrite rainbow_colors_lookup by lia.
    now rewrite binary64_lut_index_small by lia. }
  now split.
Qed.

(** In binary64 [(15 / 22) * 22] falls just below 15: of 22 kingdoms, the
    one at position 15 reads table entry 14, the entry of position 14,
    whatever the table holds. *)
Lemma rainbow_22_collision :
  Sameinad.kingdom_colors (F:=float) 22 !! 14%nat
  = Some (rgb2hex (cmap_lut "rainbow" 22 14))
  /\ Sameinad.kingdom_colors (F:=float) 22 !! 15%nat
     = Some (rgb2hex (cmap_lut "rainbow" 22 14))
  /\ MapPy.kingdom_colors (F:=float) 22 !! 14%nat
     = Some (rgb2hex (cmap_lut "rainbow" 22 14))
  /\ MapPy.kingdom_colors (F:=float) 22 !! 15%nat
     = Some (rgb2hex (cmap_lut "rainbow" 22 14)).
Proof.
  rewrite !mappy_kingdom_colors_eq.
  assert (H14 : Sameinad.kingdom_colors (F:=float) 22 !! 14%nat
                = Some (rgb2hex (cmap_lut "rainbow" 22 14))).
  { unfold Sameinad.kingdom_colors. cbn [Nat.ltb Nat.leb].
    rewrite rainbow_colors_lookup by lia. f_equal. }
  assert (H15 : Sameinad.kingdom_colors (F:=float) 22 !! 15%nat
                = Some (rgb2hex (cmap_lut "rainbow" 22 14))).
  { unfold Sameinad.kingdom_colors. cbn [Nat.ltb Nat.leb].
    rewrite rainbow_colors_lookup by lia. f_equal. }
  auto.
Qed.

(** C3 (amended).  For a non-empty column of populations of the synthetic
    range, [pop_min] and [pop_max] are its least and greatest value.  When
    [max > min] the radius of a settlement of population [p] is the binary64
    value of [5 + (p - min) / (max - min) * 10], which is within [2^-44] of
    [5 + 10 * (p - min) / (max - min)]; the minimum is drawn with radius
    exactly 5 and the maximum with radius exactly 15.  When all populations
    are equal the radius is the constant 10. *)
Theorem C3_get_radius (population : list Z) :
  population <> [] ->
  Forall (fun p => 100 <= p < 5000) population ->
  exists pop_min pop_max,
    series_min population = Some pop_min
    /\ series_max population = Some pop_max
    /\ In pop_min population /\ In pop_max population
    /\ (forall p, In p population -> pop_min <= p <= pop_max)
    /\ (pop_min < pop_max ->
        (forall p, In p population ->
           (Qabs (binary64_value
                    (get_radius (F:=float) (Some pop_min) (Some pop_max) p)
                  - (5 + 10 * (inject_Z (p - pop_min)
                               / inject_Z (pop_max - pop_min))))
            <= 1 # 2 ^ 44)%Q)
        /\ (binary64_value
              (get_radius (F:=float) (Some pop_min) (Some pop_max) pop_min)
            == 5)%Q
        /\ (binary64_value
              (get_radius (F:=float) (Some pop_min) (Some pop_max) pop_max)
            == 15)%Q)
    /\ ((forall p, In p population -> p = pop_min) ->
        forall p,
          get_radius (F:=float) (Some pop_min) (Some pop_max) p
          = float_of_Z 10
          /\ (binary64_value
                (get_radius (F:=float) (Some pop_min) (Some pop_max) p)
              == 10)%Q).
Proof.
  intros Hne Hrange. rewrite Forall_forall in Hrange.
  destruct (series_min population) as [mn|] eqn:Hmin;
    [|destruct population; [congruence | discriminate]].
  destruct (series_max population) as [mx|] eqn:Hmax;
    [|destruct population; [congruence | discriminate]].
  destruct (series_min_spec _ _ Hmin) as [Hmin_in Hmin_le].
  destruct (series_max_spec _ _ Hmax) as [Hmax_in Hmax_le].
  pose proof (Hrange mn (proj2 (list_elem_of_In _ _) Hmin_in)) as Hmn.
  pose proof (Hrange mx (proj2 (list_elem_of_In _ _) Hmax_in)) as Hmx.
  cbv beta in Hmn, Hmx.
  exists mn, mx. repeat (split; [first [reflexivity | assumption]|]).
  split; [intros p Hp; split; auto|].
  split.
  - intros Hlt. split; [|apply binary64_radius_ends; lia].
    intros p Hp. apply binary64_radius_close; [lia | lia |].
    split; auto.
  - intros Hall p.
    assert (Heq : mx = mn) by (apply Hall, Hmax_in). subst mx.
    assert (Hr : get_radius (F:=float) (Some mn) (Some mn) p = float_of_Z 10).
    { unfold get_radius. now rewrite Z.ltb_irrefl. }
    split; [exact Hr|]. rewrite Hr. apply binary64_value_10.
Qed.


Lemma name_isin_spec (selected_kingdoms : list string) (name : pystr) :
  Sameinad.name_isin selected_kingdoms name
  <-> exists s, name = Some s /\ s ∈ selected_kingdoms.
Proof.
  destruct name as [s|]; simpl.
  - split; [eauto | intros (s' & [= <-] & Hin); exact Hin].
  - split; [intros [] | intros (s & [=] & _)].
Qed.

(** The filtered kingdom frame keeps, in their order, the rows whose name is
    selected; an empty selection keeps every row. *)
Lemma filter_kingdoms_spec (selected_kingdoms : list string)
    (all_kingdoms : list (GeoRow Kingdom)) :
  let kingdom_gdf := Sameinad.filter_kingdoms selected_kingdoms all_kingdoms in
  kingdom_gdf `sublist_of` all_kingdoms
  /\ (selected_kingdoms <> [] ->
      forall r, r ∈ kingdom_gdf
                <-> r ∈ all_kingdoms
                    /\ exists s, k_name (row r) = Some s
                                 /\ s ∈ selected_kingdoms)
  /\ (selected_kingdoms = [] -> kingdom_gdf = all_kingdoms).
Proof.
  unfold Sameinad.filter_kingdoms.
  destruct selected_kingdoms as [|s0 sel].
  - split; [reflexivity|]. split; [congruence | reflexivity].
  - split; [apply sublist_filter|]. split; [|discriminate].
    intros _ r. rewrite list_elem_of_filter, name_isin_spec. tauto.
Qed.

(** The fill colours of the polygon layer of [sameinad.py] are the values of
    the ['color'] column, in row order. *)
Lemma sameinad_fill_colors (kingdom_gdf : list (GeoRow Kingdom))
    (color : list string) :
  length color = length kingdom_gdf ->
  layer_fill_colors (GeoJsonLayer (Sameinad.kingdoms_geojson kingdom_gdf color))
  = PyStr <$> color.
Proof.
  unfold layer_fill_colors, Sameinad.kingdoms_geojson.
  cbn [geojson_data geojson_style_function].
  revert color. induction kingdom_gdf as [|r gdf IH]; intros [|c color];
    try discriminate; [reflexivity|].
  intros [= Hlen]. cbn [zip_with]. rewrite !fmap_cons, IH by exact Hlen.
  reflexivity.
Qed.

(** So are those of the polygon layer of [map.py]. *)
Lemma mappy_fill_colors (kingdom_gdf : list (GeoRow Kingdom))
    (color : list string) :
  length color = length kingdom_gdf ->
  layer_fill_colors (GeoJsonLayer (MapPy.kingdoms_geojson kingdom_gdf color))
  = PyStr <$> color.
Proof.
  unfold layer_fill_colors, MapPy.kingdoms_geojson.
  cbn [geojson_data geojson_style_function].
  revert color. induction kingdom_gdf as [|r gdf IH]; intros [|c color];
    try discriminate; [reflexivity|].
  intros [= Hlen]. cbn [zip_with]. rewrite !fmap_cons, IH by exact Hlen.
  reflexivity.
Qed.

(** C4.  In a build of [sameinad.py] with selection [selected_kingdoms], the
    kingdom frame that is coloured, drawn and centred on is the queried one
    restricted to the selected names (all of it when nothing is selected).
    The polygon layer holds one feature per kept kingdom, in order, with
    the kingdom's geometry and name; the polygon at position [i] of the [n]
    kept ones is filled with [rgb2hex(colormap(i / n))], [colormap] the
    rainbow scale resampled to [n] entries; and the map is centred on the
    first coordinate pair of the centroid of the union of the kept
    kingdoms' geometries (of the locations' when none is kept).  With an
    empty selection the polygons are filled as those of the unfiltered
    build of [map.py] are. *)
Theorem C4_kingdom_filter (selected_kingdoms : list string) (db : Database)
    (rng : RandomState) (m : Map) :
  Sameinad.map selected_kingdoms db rng = Ok m ->
  exists location_gdf all_kingdoms kingdom_gdf g,
    to_gdf loc_geom_wkt (query_locations db) = Ok location_gdf
    /\ to_gdf k_geom_wkt (query_kingdoms db) = Ok all_kingdoms
    /\ kingdom_gdf `sublist_of` all_kingdoms
    /\ (selected_kingdoms <> [] ->
        forall r, r ∈ kingdom_gdf
                  <-> r ∈ all_kingdoms
                      /\ exists s, k_name (row r) = Some s
                                   /\ s ∈ selected_kingdoms)
    /\ (selected_kingdoms = [] -> kingdom_gdf = all_kingdoms)
    /\ map_children m !! 1%nat = Some (GeoJsonLayer g)
    /\ length (geojson_data g) = length kingdom_gdf
    /\ (forall i r, kingdom_gdf !! i = Some r ->
        exists f,
          geojson_data g !! i = Some f
          /\ feature_geometry f = geometry r
          /\ feature_properties f !! "name"
             = Some (pyval_of_pystr (k_name (row r)))
          /\ style_fillColor (geojson_style_function g f)
             = PyStr
                 (rgb2hex
                    (colormap_call (F:=float)
                       (get_cmap "rainbow" (Z.of_nat (length kingdom_gdf)))
                       (fdiv (of_int (Z.of_nat i))
                          (of_int (Z.of_nat (length kingdom_gdf)))))))
    /\ (let framed :=
          match kingdom_gdf with
          | _ :: _ => centroid (unary_union (geometry <$> kingdom_gdf))
          | [] => centroid (unary_union (geometry <$> location_gdf))
          end in
        exists lon lat rest,
          coords framed = (lon, lat) :: rest /\ map_location m = (lat, lon))
    /\ (selected_kingdoms = [] ->
        forall m', MapPy.map db rng = Ok m' ->
                   map_children m' ≫= layer_fill_colors
                   = map_children m ≫= layer_fill_colors).
Proof.
  intros Hm.
  apply sameinad_map_inv in Hm
    as (location_gdf & all_kingdoms & houses_gdf & center & markers & circles
        & Hloc & Hk & _ & Hc & _ & _ & ->).
  cbv zeta in Hc.
  destruct (filter_kingdoms_spec selected_kingdoms all_kingdoms)
    as (Hsub & Hmem & Hall).
  set (kingdom_gdf := Sameinad.filter_kingdoms selected_kingdoms all_kingdoms)
    in *.
  pose proof (kingdom_colors_length (length kingdom_gdf)) as Hlen.
  exists location_gdf, all_kingdoms, kingdom_gdf,
    (Sameinad.kingdoms_geojson kingdom_gdf
       (Sameinad.kingdom_colors (F:=float) (length kingdom_gdf))).
  split; [exact Hloc|]. split; [exact Hk|].
  split; [exact Hsub|]. split; [exact Hmem|]. split; [exact Hall|].
  split; [reflexivity|]. split; [|split; [|split]].
  - unfold Sameinad.kingdoms_geojson. cbn [geojson_data].
    rewrite length_zip_with, Hlen. lia.
  - intros i r Hr.
    assert (Hi : (i < length kingdom_gdf)%nat) by now apply lookup_lt_Some in Hr.
    pose proof (kingdom_colors_lookup (length kingdom_gdf) i Hi) as Hcol.
    eexists. split.
    { unfold Sameinad.kingdoms_geojson. cbn [geojson_data].
      rewrite lookup_zip_with, Hr. cbn [mbind option_bind].
      rewrite Hcol. reflexivity. }
    split; [reflexivity|]. split; reflexivity.
  - cbv zeta. destruct center as [lon lat].
    unfold Sameinad.map_center, union_centroid in Hc.
    destruct kingdom_gdf as [|r0 gdf].
    + destruct (coords _) as [|p rest] eqn:Hco; [discriminate|].
      injection Hc as ->. exists lon, lat, rest. now split.
    + destruct (coords _) as [|p rest] eqn:Hco; [discriminate|].
      injection Hc as ->. exists lon, lat, rest. now split.
  - intros Hsel m' Hm'.
    apply mappy_map_inv in Hm'
      as (l' & k' & h' & mks' & cs' & _ & Hk' & _ & _ & _ & ->).
    rewrite Hk in Hk'. injection Hk' as <-.
    cbn [map_children mbind list_bind]. cbn [layer_fill_colors tile_layer app].
    rewrite !app_nil_r.
    pose proof (mappy_fill_colors all_kingdoms
                  (MapPy.kingdom_colors (F:=float) (length all_kingdoms))) as Hp.
    pose proof (sameinad_fill_colors kingdom_gdf
                  (Sameinad.kingdom_colors (F:=float) (length kingdom_gdf))) as Hs.
    unfold layer_fill_colors in Hp, Hs.
    rewrite Hp by (rewrite mappy_kingdom_colors_eq; apply kingdom_colors_length).
    rewrite Hs by exact Hlen.
    now rewrite mappy_kingdom_colors_eq, (Hall Hsel).
Qed.

(** Whatever state the global generator is in, the population column is the
    draw made right after [np.random.seed(42)]. *)
Lemma synth_population_seeded (size : nat) (rng : RandomState) :
  synth_population size rng = randint 100 5000 size (seed 42).
Proof. reflexivity. Qed.

(** C5.  Two runs over settlement frames of the same length draw the same
    population column, element by element, whatever the state of the global
    generator each run starts from; one value is drawn per settlement.  The
    whole build does not depend on that state either. *)
Theorem C5_population_deterministic
    (houses_gdf1 houses_gdf2 : list (GeoRow Location))
    (rng1 rng2 : RandomState) :
  length houses_gdf1 = length houses_gdf2 ->
  let population1 := (synth_population (length houses_gdf1) rng1).1 in
  let population2 := (synth_population (length houses_gdf2) rng2).1 in
  population1 = population2
  /\ length population1 = length houses_gdf1
  /\ (forall i, population1 !! i = population2 !! i)
  /\ (forall selected_kingdoms db,
         Sameinad.map selected_kingdoms db rng1
         = Sameinad.map selected_kingdoms db rng2)
  /\ (forall db, MapPy.map db rng1 = MapPy.map db rng2).
Proof.
  intros Hlen population1 population2.
  assert (Heq : population1 = population2).
  { unfold population1, population2.
    now rewrite !synth_population_seeded, Hlen. }
  split; [exact Heq|]. split; [|split; [|split]].
  - unfold population1. apply randint_length.
  - intros i. now rewrite Heq.
  - intros selected_kingdoms db. unfold Sameinad.map, Sameinad.build_map.
    destruct (to_gdf loc_geom_wkt (query_locations db)); [|reflexivity].
    destruct (to_gdf k_geom_wkt (query_kingdoms db)); [|reflexivity].
    destruct (to_gdf loc_geom_wkt (query_houses db)) as [houses_gdf|];
      [|reflexivity].
    cbn [mbind result_bind].
    now rewrite (synth_population_seeded _ rng1),
                (synth_population_seeded _ rng2).
  - intros db. unfold MapPy.map, MapPy.build_map.
    destruct (to_gdf loc_geom_wkt (query_locations db)); [|reflexivity].
    destruct (to_gdf k_geom_wkt (query_kingdoms db)); [|reflexivity].
    destruct (to_gdf loc_geom_wkt (query_houses db)) as [houses_gdf|];
      [|reflexivity].
    cbn [mbind result_bind].
    now rewrite (synth_population_seeded _ rng1),
                (synth_population_seeded _ rng2).
Qed.

Lemma synth_population_range (size : nat) (rng : RandomState) (p : Z) :
  In p (synth_population size rng).1 -> 100 <= p < 5000.
Proof.
  rewrite synth_population_seeded. apply randint_range. lia.
Qed.

(** C6 (amended).  One population is synthesized per settlement; the column
    is what [np.random.randint(100, 5000, size)] returns on the generator
    seeded with 42, and every value of it lies in the half-open interval
    [[100, 5000)], that is between 100 and 4999: the upper bound given to
    [randint] is exclusive. *)
Theorem C6_population_range (size : nat) (rng : RandomState) :
  (synth_population size rng).1 = (randint 100 5000 size (seed 42)).1
  /\ length (synth_population size rng).1 = size
  /\ Forall (fun p => 100 <= p <= 4999) (synth_population size rng).1.
Proof.
  split; [now rewrite synth_population_seeded|]. split.
  - rewrite synth_population_seeded. apply randint_length.
  - apply Forall_forall. intros p Hp.
    apply list_elem_of_In, synth_population_range in Hp. lia.
Qed.

(** The two tables of [sameinad.py] have the same keys. *)
Lemma sameinad_tables_same_keys (s : string) :
  Sameinad.icon_mapping !! s = None <-> Sameinad.color_mapping !! s = None.
Proof.
  unfold Sameinad.icon_mapping, Sameinad.color_mapping.
  rewrite !lookup_insert, !lookup_singleton.
  repeat case_decide; split; congruence.
Qed.

Lemma sameinad_known_type (s name : string) :
  Sameinad.icon_mapping !! s = Some name ->
  exists color,
    Sameinad.color_mapping !! s = Some color
    /\ Sameinad.location_icon (Some s)
       = {| icon_icon := name; icon_prefix := "fa";
            icon_icon_color := "white"; icon_color := color |}.
Proof.
  intros Hs. destruct (Sameinad.color_mapping !! s) as [color|] eqn:Hc.
  - exists color. split; [reflexivity|].
    unfold Sameinad.location_icon, dict_get. now rewrite Hs, Hc.
  - apply sameinad_tables_same_keys in Hc. congruence.
Qed.

Lemma validate_location_valid (loc : float * float) :
  PrimFloat.is_nan loc.1 = false -> PrimFloat.is_nan loc.2 = false ->
  validate_location loc = Ok loc.
Proof. unfold validate_location. now intros -> ->. Qed.

(** C7 (amended).  In [sameinad.py] a location whose type is no key of the
    tables (or is missing) gets the icon ['info-circle'] in ['gray']: the
    lookups raise nothing, the marker is the one folium builds with that
    icon, and it is built whenever folium accepts the coordinates.  For a
    type that is a key, icon and colour are the table's.  In [map.py] only
    the icon name is looked up, with default ['fa-info-circle']; the marker
    colour is ['blue'] for every type. *)
Theorem C7_unknown_type_defaults (r : GeoRow Location) :
  (forall s, loc_type (row r) = Some s -> Sameinad.icon_mapping !! s = None) ->
  let default_icon :=
    {| icon_icon := "info-circle"; icon_prefix := "fa";
       icon_icon_color := "white"; icon_color := "gray" |} in
  let location := (geom_y (geometry r), geom_x (geometry r)) in
  let popup :=
    {| popup_html := location_popup_content (row r);
       popup_max_width := 300 |} in
  Sameinad.location_icon (loc_type (row r)) = default_icon
  /\ Sameinad.location_marker r = folium_Marker location popup default_icon
  /\ (PrimFloat.is_nan location.1 = false ->
      PrimFloat.is_nan location.2 = false ->
      Sameinad.location_marker r
      = Ok {| marker_location := location; marker_popup := popup;
              marker_icon := default_icon |})
  /\ (forall s name,
         Sameinad.icon_mapping !! s = Some name ->
         exists color,
           Sameinad.color_mapping !! s = Some color
           /\ Sameinad.location_icon (Some s)
              = {| icon_icon := name; icon_prefix := "fa";
                   icon_icon_color := "white"; icon_color := color |})
  /\ (forall location_type,
         icon_color (MapPy.location_icon location_type) = "blue")
  /\ ((forall s, loc_type (row r) = Some s ->
                 MapPy.type_icon_mapping !! s = None) ->
      MapPy.location_icon (loc_type (row r))
      = {| icon_icon := "fa-info-circle"; icon_prefix := "fa";
           icon_icon_color := "white"; icon_color := "blue" |}).
Proof.
  intros Hunknown default_icon location popup.
  assert (Hicon : Sameinad.location_icon (loc_type (row r)) = default_icon).
  { unfold Sameinad.location_icon, dict_get.
    destruct (loc_type (row r)) as [s|]; [|reflexivity].
    pose proof (Hunknown s eq_refl) as Hi.
    pose proof (proj1 (sameinad_tables_same_keys s) Hi) as Hc.
    now rewrite Hi, Hc. }
  assert (Hmk : Sameinad.location_marker r
                = folium_Marker location popup default_icon).
  { unfold Sameinad.location_marker. rewrite Hicon. apply try_except_same. }
  split; [exact Hicon|]. split; [exact Hmk|].
  split; [|split; [|split; [|]]].
  - intros Hy Hx. rewrite Hmk. unfold folium_Marker.
    now rewrite validate_location_valid.
  - apply sameinad_known_type.
  - reflexivity.
  - intros Hunk. unfold MapPy.location_icon, dict_get.
    destruct (loc_type (row r)) as [s|]; [|reflexivity].
    now rewrite (Hunk s eq_refl).
Qed.

(** The popup of a location marker shows the placeholder for a missing or
    empty summary, and the summary itself otherwise, after the name. *)
Lemma location_popup_summary (l : Location) :
  contains ("<b>Name:</b> " +:+ py_format (loc_name l))
    (location_popup_content l) = true
  /\ (loc_summary l = None \/ loc_summary l = Some "" ->
      contains ("<b>Summary:</b> " +:+ placeholder)
        (location_popup_content l) = true)
  /\ (forall s, loc_summary l = Some s -> s <> "" ->
      contains ("<b>Summary:</b> " +:+ s) (location_popup_content l) = true).
Proof.
  unfold location_popup_content. split; [|split].
  - rewrite <- (append_assoc "<b>Name:</b> ").
    apply contains_middle.
  - intros Hs.
    assert (Hor : py_or (loc_summary l) placeholder = placeholder)
      by (destruct Hs as [-> | ->]; reflexivity).
    rewrite Hor. do 9 apply contains_app_r.
    rewrite <- (append_assoc "<b>Summary:</b> ").
    apply contains_prefix.
  - intros s Hs Hne.
    assert (Hor : py_or (loc_summary l) placeholder = s).
    { rewrite Hs. unfold py_or. now destruct (decide (s = "")). }
    rewrite Hor. do 9 apply contains_app_r.
    rewrite <- (append_assoc "<b>Summary:</b> ").
    apply contains_prefix.
Qed.

(** The same for the popup of a settlement circle. *)
Lemma house_popup_summary (l : Location) (pop : Z) :
  (loc_summary l = None \/ loc_summary l = Some "" ->
   contains ("<b>Summary:</b> " +:+ placeholder)
     (house_popup_content l pop) = true)
  /\ (forall s, loc_summary l = Some s -> s <> "" ->
      contains ("<b>Summary:</b> " +:+ s) (house_popup_content l pop) = true).
Proof.
  unfold house_popup_content. split.
  - intros Hs.
    assert (Hor : py_or (loc_summary l) placeholder = placeholder)
      by (destruct Hs as [-> | ->]; reflexivity).
    rewrite Hor. do 13 apply contains_app_r.
    rewrite <- (append_assoc "<b>Summary:</b> ").
    apply contains_prefix.
  - intros s Hs Hne.
    assert (Hor : py_or (loc_summary l) placeholder = s).
    { rewrite Hs. unfold py_or. now destruct (decide (s = "")). }
    rewrite Hor. do 13 apply contains_app_r.
    rewrite <- (append_assoc "<b>Summary:</b> ").
    apply contains_prefix.
Qed.

(** The polygon popup of [map.py] is the ['popup'] column, which shows the
    placeholder for a missing or empty summary. *)
Lemma mappy_kingdom_popup_summary (r : GeoRow Kingdom) (color : string) :
  popup_cells (MapPy.kingdoms_geojson [r] [color])
    (MapPy.kingdom_feature r color)
  = [("popup", PyStr (MapPy.kingdom_popup (row r)))]
  /\ (k_summary (row r) = None \/ k_summary (row r) = Some "" ->
      contains ("<b>Summary:</b> " +:+ placeholder)
        (MapPy.kingdom_popup (row r)) = true).
Proof.
  split; [reflexivity|].
  intros Hs. unfold MapPy.kingdom_popup.
  assert (Hor : py_or (k_summary (row r)) placeholder = placeholder)
    by (destruct Hs as [-> | ->]; reflexivity).
  rewrite Hor. do 9 apply contains_app_r.
  rewrite <- (append_assoc "<b>Summary:</b> ").
  apply contains_prefix.
Qed.

(** The polygon popup of [sameinad.py] is built by folium from the fields
    ['name'], ['claimedby'] and ['summary'] of the feature: its summary cell
    is the raw column value, [None] included; no placeholder is put in. *)
Lemma sameinad_kingdom_popup_cells (kingdom_gdf : list (GeoRow Kingdom))
    (color : list string) (r : GeoRow Kingdom) (c : string) :
  popup_cells (Sameinad.kingdoms_geojson kingdom_gdf color)
    (Sameinad.kingdom_feature r c)
  = [ ("Name:", pyval_of_pystr (k_name (row r)));
      ("Claimed By:", pyval_of_pystr (k_claimedby (row r)));
      ("Summary:", pyval_of_pystr (k_summary (row r))) ].
Proof. reflexivity. Qed.

(** C9 (amended).  A build of [sameinad.py] adds its layers in the order
    base tiles, kingdom polygons, clustered location markers, settlement
    circles, layer control.  A build of [map.py] adds the clustered location
    markers before the kingdom polygons: base tiles, location markers,
    kingdom polygons, settlement circles, layer control. *)
Theorem C9_layer_order (selected_kingdoms : list string) (db : Database)
    (rng : RandomState) :
  (forall m, Sameinad.map selected_kingdoms db rng = Ok m ->
     layer_kind <$> map_children m
     = [BaseTiles; KingdomPolygons; LocationMarkers; SettlementCircles;
        LayerVisibilityControl])
  /\ (forall m, MapPy.map db rng = Ok m ->
     layer_kind <$> map_children m
     = [BaseTiles; LocationMarkers; KingdomPolygons; SettlementCircles;
        LayerVisibilityControl]).
Proof.
  split; intros m Hm.
  - apply sameinad_map_inv in Hm
      as (l & k & h & c & mks & cs & _ & _ & _ & _ & _ & _ & ->).
    reflexivity.
  - apply mappy_map_inv in Hm
      as (l & k & h & mks & cs & _ & _ & _ & _ & _ & ->).
    reflexivity.
Qed.

(** C10.  Two builds of [sameinad.py] on the same database with different
    selections have the same location-marker layer and the same settlement
    layer (and the same tile layer and layer control): the markers are
    drawn from every queried location and the circles from every queried
    settlement, one each.  Only the polygon layer and the centre depend on
    the selection. *)
Theorem C10_filter_frame (selected1 selected2 : list string) (db : Database)
    (rng1 rng2 : RandomState) (m1 m2 : Map) :
  Sameinad.map selected1 db rng1 = Ok m1 ->
  Sameinad.map selected2 db rng2 = Ok m2 ->
  exists location_gdf houses_gdf markers circles,
    to_gdf loc_geom_wkt (query_locations db) = Ok location_gdf
    /\ to_gdf loc_geom_wkt (query_houses db) = Ok houses_gdf
    /\ mapM Sameinad.location_marker location_gdf = Ok markers
    /\ length markers = length (query_locations db)
    /\ length circles = length (query_houses db)
    /\ map_children m1 !! 2%nat = Some (MarkerCluster "Locations" markers)
    /\ map_children m2 !! 2%nat = Some (MarkerCluster "Locations" markers)
    /\ map_children m1 !! 3%nat = Some (FeatureGroup "Houses" circles)
    /\ map_children m2 !! 3%nat = Some (FeatureGroup "Houses" circles)
    /\ map_children m1 !! 0%nat = map_children m2 !! 0%nat
    /\ map_children m1 !! 4%nat = map_children m2 !! 4%nat
    /\ length (map_children m1) = 5%nat
    /\ length (map_children m2) = 5%nat.
Proof.
  intros Hm1 Hm2.
  apply sameinad_map_inv in Hm1
    as (l1 & k1 & h1 & c1 & mks1 & cs1 & Hl1 & _ & Hh1 & _ & Hmk1 & Hcs1 & ->).
  apply sameinad_map_inv in Hm2
    as (l2 & k2 & h2 & c2 & mks2 & cs2 & Hl2 & _ & Hh2 & _ & Hmk2 & Hcs2 & ->).
  rewrite Hl1 in Hl2. injection Hl2 as <-.
  rewrite Hh1 in Hh2. injection Hh2 as <-.
  rewrite Hmk1 in Hmk2. injection Hmk2 as <-.
  rewrite !synth_population_seeded in Hcs1, Hcs2.
  rewrite Hcs1 in Hcs2. injection Hcs2 as <-.
  exists l1, h1, mks1, cs1.
  split; [exact Hl1|]. split; [exact Hh1|]. split; [exact Hmk1|].
  split.
  { apply mapM_result_length in Hmk1. apply to_gdf_length in Hl1. congruence. }
  split.
  { apply mapM_result_length in Hcs1. apply to_gdf_length in Hh1.
    rewrite Hcs1, length_zip, randint_length. lia. }
  repeat split; reflexivity.
Qed.

(** *** When a build returns a map *)

Lemma mapM_result_Ok {A B} (f : A -> result B) (l : list A) :
  (forall x, In x l -> exists y, f x = Ok y) -> exists k, mapM f l = Ok k.
Proof.
  induction l as [|x l IH]; intros Hall; simpl; [eauto|].
  destruct (Hall x (or_introl eq_refl)) as [y ->].
  destruct IH as [k ->]; [intros x' Hx'; apply Hall; now right|].
  simpl. eauto.
Qed.

(** The settlement frame is the location frame restricted to the castles and
    cities. *)
Lemma to_gdf_query_houses (db : Database)
    (location_gdf : list (GeoRow Location)) :
  to_gdf loc_geom_wkt (query_locations db) = Ok location_gdf ->
  to_gdf loc_geom_wkt (query_houses db)
  = Ok (filter (fun r => is_house (row r)) location_gdf).
Proof.
  unfold query_locations, query_houses, to_gdf.
  generalize (atlas_locations db). intros l. revert location_gdf.
  induction l as [|x l IH]; intros location_gdf; simpl.
  - now intros [= <-].
  - destruct (load_wkt (loc_geom_wkt x)) as [g|e] eqn:Hg; simpl;
      [|discriminate].
    destruct (mapM _ l) as [k|e]; simpl; [|discriminate]. intros [= <-].
    specialize (IH k eq_refl). rewrite !filter_cons. simpl.
    destruct (decide (is_house x)); [|exact IH].
    simpl. rewrite Hg. simpl. now rewrite IH.
Qed.

Lemma circles_built (location_gdf : list (GeoRow Location))
    (population : list Z) pop_min pop_max :
  (forall r, In r location_gdf -> valid_point r) ->
  exists circles,
    mapM (house_circle pop_min pop_max)
      (zip (filter (fun r => is_house (row r)) location_gdf) population)
    = Ok circles.
Proof.
  intros Hvalid. apply mapM_result_Ok. intros [r p] Hin.
  apply list_elem_of_In, elem_of_zip_l, list_elem_of_filter in Hin as [_ Hin].
  apply list_elem_of_In, Hvalid in Hin as [Hy Hx]. simpl in *.
  unfold house_circle, folium_CircleMarker. simpl.
  rewrite validate_location_valid by assumption. simpl. eauto.
Qed.

(** [sameinad.py] composes its map as soon as every WKT string loads, the
    centroid framed on has a first coordinate pair without NaN, and no
    location has a NaN coordinate. *)
Lemma sameinad_build_succeeds (selected_kingdoms : list string) (db : Database)
    (rng : RandomState) (location_gdf : list (GeoRow Location))
    (all_kingdoms : list (GeoRow Kingdom)) (lon lat : float) :
  to_gdf loc_geom_wkt (query_locations db) = Ok location_gdf ->
  to_gdf k_geom_wkt (query_kingdoms db) = Ok all_kingdoms ->
  Sameinad.map_center
    (Sameinad.filter_kingdoms selected_kingdoms all_kingdoms) location_gdf
  = Ok (lon, lat) ->
  PrimFloat.is_nan lat = false -> PrimFloat.is_nan lon = false ->
  (forall r, In r location_gdf -> valid_point r) ->
  exists m, Sameinad.build_map selected_kingdoms db rng = Ok m.
Proof.
  intros Hloc Hk Hc Hlat Hlon Hvalid.
  rewrite sameinad_build_eq, Hloc, Hk, (to_gdf_query_houses _ _ Hloc).
  cbn [mbind result_bind]. cbv zeta. rewrite Hc. cbn [mbind result_bind].
  rewrite validate_location_valid by assumption. cbn [mbind result_bind].
  destruct (mapM_result_Ok Sameinad.location_marker location_gdf) as [mks ->].
  { intros r Hr. destruct (Hvalid r Hr) as [Hy Hx].
    unfold Sameinad.location_marker, folium_Marker.
    rewrite !validate_location_valid by assumption. simpl. eauto. }
  cbn [mbind result_bind].
  destruct (circles_built location_gdf
              (synth_population
                 (length (filter (fun r => is_house (row r)) location_gdf))
                 rng).1
              (series_min (synth_population
                 (length (filter (fun r => is_house (row r)) location_gdf))
                 rng).1)
              (series_max (synth_population
                 (length (filter (fun r => is_house (row r)) location_gdf))
                 rng).1) Hvalid) as [cs ->].
  simpl. eauto.
Qed.

(** A build of [sameinad.py] returns a map as soon as, moreover, a kingdom
    is left to draw. *)
Lemma sameinad_map_succeeds (selected_kingdoms : list string) (db : Database)
    (rng : RandomState) (location_gdf : list (GeoRow Location))
    (all_kingdoms : list (GeoRow Kingdom)) (lon lat : float) :
  to_gdf loc_geom_wkt (query_locations db) = Ok location_gdf ->
  to_gdf k_geom_wkt (query_kingdoms db) = Ok all_kingdoms ->
  Sameinad.filter_kingdoms selected_kingdoms all_kingdoms <> [] ->
  Sameinad.map_center
    (Sameinad.filter_kingdoms selected_kingdoms all_kingdoms) location_gdf
  = Ok (lon, lat) ->
  PrimFloat.is_nan lat = false -> PrimFloat.is_nan lon = false ->
  (forall r, In r location_gdf -> valid_point r) ->
  exists m, Sameinad.map selected_kingdoms db rng = Ok m.
Proof.
  intros Hloc Hk Hne Hc Hlat Hlon Hvalid.
  destruct (sameinad_build_succeeds selected_kingdoms db rng _ _ _ _
              Hloc Hk Hc Hlat Hlon Hvalid) as [m Hm].
  exists m. rewrite (sameinad_map_of_build _ _ _ m _ Hk Hm).
  destruct (Sameinad.filter_kingdoms selected_kingdoms all_kingdoms);
    [congruence | reflexivity].
Qed.

(** [map.py] composes its map as soon as every WKT string loads and neither
    the centroid of the locations nor any location has a NaN coordinate. *)
Lemma mappy_build_succeeds (db : Database) (rng : RandomState)
    (location_gdf : list (GeoRow Location))
    (kingdom_gdf : list (GeoRow Kingdom)) :
  to_gdf loc_geom_wkt (query_locations db) = Ok location_gdf ->
  to_gdf k_geom_wkt (query_kingdoms db) = Ok kingdom_gdf ->
  PrimFloat.is_nan (geom_y (union_centroid location_gdf)) = false ->
  PrimFloat.is_nan (geom_x (union_centroid location_gdf)) = false ->
  (forall r, In r location_gdf -> valid_point r) ->
  exists m, MapPy.build_map db rng = Ok m.
Proof.
  intros Hloc Hk Hy Hx Hvalid.
  rewrite mappy_build_eq, Hloc, Hk, (to_gdf_query_houses _ _ Hloc).
  cbn [mbind result_bind]. cbv zeta.
  rewrite validate_location_valid by assumption. cbn [mbind result_bind].
  destruct (mapM_result_Ok MapPy.location_marker location_gdf) as [mks ->].
  { intros r Hr. destruct (Hvalid r Hr) as [Hry Hrx].
    unfold MapPy.location_marker, folium_Marker.
    rewrite validate_location_valid by assumption. simpl. eauto. }
  cbn [mbind result_bind].
  destruct (circles_built location_gdf
              (synth_population
                 (length (filter (fun r => is_house (row r)) location_gdf))
                 rng).1
              (series_min (synth_population
                 (length (filter (fun r => is_house (row r)) location_gdf))
                 rng).1)
              (series_max (synth_population
                 (length (filter (fun r => is_house (row r)) location_gdf))
                 rng).1) Hvalid) as [cs ->].
  simpl. eauto.
Qed.

(** A build of [map.py] returns a map as soon as, moreover, the atlas has a
    kingdom. *)
Lemma mappy_map_succeeds (db : Database) (rng : RandomState)
    (location_gdf : list (GeoRow Location))
    (kingdom_gdf : list (GeoRow Kingdom)) :
  to_gdf loc_geom_wkt (query_locations db) = Ok location_gdf ->
  to_gdf k_geom_wkt (query_kingdoms db) = Ok kingdom_gdf ->
  kingdom_gdf <> [] ->
  PrimFloat.is_nan (geom_y (union_centroid location_gdf)) = false ->
  PrimFloat.is_nan (geom_x (union_centroid location_gdf)) = false ->
  (forall r, In r location_gdf -> valid_point r) ->
  exists m, MapPy.map db rng = Ok m.
Proof.
  intros Hloc Hk Hne Hy Hx Hvalid.
  destruct (mappy_build_succeeds db rng _ _ Hloc Hk Hy Hx Hvalid) as [m Hm].
  exists m. rewrite (mappy_map_of_build _ _ m _ Hk Hm).
  destruct kingdom_gdf; [congruence | reflexivity].
Qed.


(* ===================================================================== *)
(** ** More on the two map builds *)
(* ===================================================================== *)

Lemma mapM_result_Ok_inv {A B} (f : A -> result B) (l : list A)
    (k : list B) (x : A) :
  mapM f l = Ok k -> x ∈ l -> exists y, f x = Ok y.
Proof.
  intros Hk Hx. apply list_elem_of_lookup in Hx as [i Hi].
  destruct (mapM_result_lookup f l k i x Hk Hi) as (y & _ & Hy). eauto.
Qed.

Lemma filter_ext_in {A} (P1 P2 : A -> Prop) `{forall x, Decision (P1 x)}
    `{forall x, Decision (P2 x)} (l : list A) :
  (forall x, x ∈ l -> (P1 x <-> P2 x)) -> filter P1 l = filter P2 l.
Proof.
  induction l as [|a l IH]; intros Hiff; [reflexivity|].
  rewrite !filter_cons.
  assert (Ha : P1 a <-> P2 a) by (apply Hiff; now left).
  rewrite IH by (intros x Hx; apply Hiff; now right).
  destruct (decide (P1 a)), (decide (P2 a)); tauto.
Qed.

(** Loading a frame either gives a row per record, every WKT string having
    loaded, or stops on a string that does not load. *)
Lemma to_gdf_cases {R} (geom_wkt : R -> string) (df : list R) :
  (exists gdf, to_gdf geom_wkt df = Ok gdf
               /\ forall r, r ∈ df -> is_Some (wkt_loads (geom_wkt r)))
  \/ (to_gdf geom_wkt df = Raise WKTReadingError
      /\ exists r, r ∈ df /\ wkt_loads (geom_wkt r) = None).
Proof.
  destruct (to_gdf geom_wkt df) as [gdf|e] eqn:Hdf.
  - left. exists gdf. split; [reflexivity|]. intros r Hr.
    destruct (mapM_result_Ok_inv _ _ _ r Hdf Hr) as [y Hy].
    unfold load_wkt in Hy.
    destruct (wkt_loads (geom_wkt r)); [eauto | discriminate].
  - right. apply mapM_result_raises in Hdf as (r & Hr & Hraise).
    unfold load_wkt in Hraise.
    destruct (wkt_loads (geom_wkt r)) eqn:Hw; [discriminate|].
    injection Hraise as <-. split; [reflexivity|].
    exists r. split; [now apply list_elem_of_In | exact Hw].
Qed.

(** Once the frames are loaded, [sameinad.py] can only stop, while it
    composes the map, on the [IndexError] of the centre or on a
    [ValueError] of folium. *)
Lemma sameinad_build_raises_after_loading (selected_kingdoms : list string)
    (db : Database) (rng : RandomState) (location_gdf : list (GeoRow Location))
    (all_kingdoms : list (GeoRow Kingdom)) (e : exn) :
  to_gdf loc_geom_wkt (query_locations db) = Ok location_gdf ->
  to_gdf k_geom_wkt (query_kingdoms db) = Ok all_kingdoms ->
  Sameinad.build_map selected_kingdoms db rng = Raise e ->
  e = IndexError \/ e = ValueError.
Proof.
  intros Hloc Hk.
  rewrite sameinad_build_eq, Hloc, Hk, (to_gdf_query_houses _ _ Hloc).
  cbn [mbind result_bind]. cbv zeta.
  destruct (Sameinad.map_center _ location_gdf) as [center|e'] eqn:Hc.
  2:{ intros [= <-]. left. unfold Sameinad.map_center in Hc.
      destruct (Sameinad.filter_kingdoms _ _);
        [destruct (coords _) | destruct (coords _)]; simpl in Hc; congruence. }
  cbn [mbind result_bind]. intros Hr. right.
  destruct (validate_location _) as [loc|e'] eqn:Hv; simpl in Hr.
  2:{ injection Hr as <-. now apply validate_location_raises in Hv. }
  destruct (mapM Sameinad.location_marker location_gdf) as [mks|e'] eqn:Hm;
    simpl in Hr.
  2:{ injection Hr as <-. apply mapM_result_raises in Hm as (r & _ & Hm).
      now apply sameinad_location_marker_raises in Hm. }
  destruct (mapM _ (zip _ _)) as [cs|e'] eqn:Hcs; simpl in Hr; [discriminate|].
  injection Hr as <-. apply mapM_result_raises in Hcs as (r & _ & Hcs).
  now apply house_circle_raises in Hcs.
Qed.

(** Once the frames are loaded, [map.py] can only stop, while it composes
    the map, on a [ValueError] of folium. *)
Lemma mappy_build_raises_after_loading (db : Database) (rng : RandomState)
    (location_gdf : list (GeoRow Location))
    (kingdom_gdf : list (GeoRow Kingdom)) (e : exn) :
  to_gdf loc_geom_wkt (query_locations db) = Ok location_gdf ->
  to_gdf k_geom_wkt (query_kingdoms db) = Ok kingdom_gdf ->
  MapPy.build_map db rng = Raise e -> e = ValueError.
Proof.
  intros Hloc Hk.
  rewrite mappy_build_eq, Hloc, Hk, (to_gdf_query_houses _ _ Hloc).
  cbn [mbind result_bind]. cbv zeta. intros Hr.
  destruct (validate_location _) as [loc|e'] eqn:Hv; simpl in Hr.
  2:{ injection Hr as <-. now apply validate_location_raises in Hv. }
  destruct (mapM MapPy.location_marker location_gdf) as [mks|e'] eqn:Hm;
    simpl in Hr.
  2:{ injection Hr as <-. apply mapM_result_raises in Hm as (r & _ & Hm).
      unfold MapPy.location_marker in Hm.
      now apply folium_Marker_raises in Hm. }
  destruct (mapM _ (zip _ _)) as [cs|e'] eqn:Hcs; simpl in Hr; [discriminate|].
  injection Hr as <-. apply mapM_result_raises in Hcs as (r & _ & Hcs).
  now apply house_circle_raises in Hcs.
Qed.

(** Once the frames are loaded, no build stops on the WKT reading error:
    neither composing the map nor rendering it raises one. *)
Lemma sameinad_map_raises_after_loading (selected_kingdoms : list string)
    (db : Database) (rng : RandomState) (location_gdf : list (GeoRow Location))
    (all_kingdoms : list (GeoRow Kingdom)) (e : exn) :
  to_gdf loc_geom_wkt (query_locations db) = Ok location_gdf ->
  to_gdf k_geom_wkt (query_kingdoms db) = Ok all_kingdoms ->
  Sameinad.map selected_kingdoms db rng = Raise e ->
  e = IndexError \/ e = ValueError \/ e = AssertionError.
Proof.
  intros Hloc Hk. unfold Sameinad.map.
  destruct (Sameinad.build_map selected_kingdoms db rng) as [m|e'] eqn:Hb;
    cbn [mbind result_bind].
  - intros Hr. apply repr_html_raises in Hr. tauto.
  - intros [= <-].
    destruct (sameinad_build_raises_after_loading _ _ _ _ _ _ Hloc Hk Hb);
      tauto.
Qed.

Lemma mappy_map_raises_after_loading (db : Database) (rng : RandomState)
    (location_gdf : list (GeoRow Location))
    (kingdom_gdf : list (GeoRow Kingdom)) (e : exn) :
  to_gdf loc_geom_wkt (query_locations db) = Ok location_gdf ->
  to_gdf k_geom_wkt (query_kingdoms db) = Ok kingdom_gdf ->
  MapPy.map db rng = Raise e ->
  e = IndexError \/ e = ValueError \/ e = AssertionError.
Proof.
  intros Hloc Hk. unfold MapPy.map.
  destruct (MapPy.build_map db rng) as [m|e'] eqn:Hb;
    cbn [mbind result_bind].
  - intros Hr. apply repr_html_raises in Hr. tauto.
  - intros [= <-].
    pose proof (mappy_build_raises_after_loading _ _ _ _ _ Hloc Hk Hb). tauto.
Qed.

(** X7.  A build, of either script, stops on the WKT reading error exactly
    when the WKT string of some location or of some kingdom does not load.
    In [sameinad.py] this holds whatever is selected: the kingdoms are all
    loaded before they are filtered, so a kingdom that is not selected
    stops the build all the same. *)
Theorem X7_wkt_failure_aborts (selected_kingdoms : list string)
    (db : Database) (rng : RandomState) :
  let unreadable :=
    (exists l, l ∈ atlas_locations db /\ wkt_loads (loc_geom_wkt l) = None)
    \/ (exists k, k ∈ atlas_kingdoms db /\ wkt_loads (k_geom_wkt k) = None) in
  (Sameinad.map selected_kingdoms db rng = Raise WKTReadingError <-> unreadable)
  /\ (MapPy.map db rng = Raise WKTReadingError <-> unreadable).
Proof.
  cbv zeta.
  destruct (to_gdf_cases loc_geom_wkt (query_locations db))
    as [(location_gdf & Hloc & Hlall) | (Hloc & l & Hl & Hnone)].
  2:{ split; (split; [intros _; left; eauto|intros _]).
      - unfold Sameinad.map, Sameinad.build_map. now rewrite Hloc.
      - unfold MapPy.map, MapPy.build_map. now rewrite Hloc. }
  destruct (to_gdf_cases k_geom_wkt (query_kingdoms db))
    as [(kingdom_gdf & Hk & Hkall) | (Hk & k & Hkin & Hnone)].
  2:{ split; (split; [intros _; right; eauto|intros _]).
      - unfold Sameinad.map, Sameinad.build_map. now rewrite Hloc, Hk.
      - unfold MapPy.map, MapPy.build_map. now rewrite Hloc, Hk. }
  assert (Hgood : ~ ((exists l, l ∈ atlas_locations db
                                /\ wkt_loads (loc_geom_wkt l) = None)
                     \/ (exists k, k ∈ atlas_kingdoms db
                                   /\ wkt_loads (k_geom_wkt k) = None))).
  { intros [(l & Hl & Hnone) | (k & Hkin & Hnone)].
    - destruct (Hlall l Hl) as [g Hg]. congruence.
    - destruct (Hkall k Hkin) as [g Hg]. congruence. }
  split; (split; [intros Hr; exfalso | intros Hbad; now destruct Hgood]).
  - destruct (sameinad_map_raises_after_loading _ _ _ _ _ _ Hloc Hk Hr)
      as [|[|]]; discriminate.
  - destruct (mappy_map_raises_after_loading _ _ _ _ _ Hloc Hk Hr)
      as [|[|]]; discriminate.
Qed.

(** A build of [sameinad.py] uses the selection through the filtered frame
    only. *)
Lemma sameinad_map_filter_ext (selected1 selected2 : list string)
    (db : Database) (rng : RandomState) :
  (forall kingdom_gdf,
      to_gdf k_geom_wkt (query_kingdoms db) = Ok kingdom_gdf ->
      Sameinad.filter_kingdoms selected1 kingdom_gdf
      = Sameinad.filter_kingdoms selected2 kingdom_gdf) ->
  Sameinad.map selected1 db rng = Sameinad.map selected2 db rng.
Proof.
  intros Hfilter. unfold Sameinad.map, Sameinad.build_map.
  destruct (to_gdf loc_geom_wkt (query_locations db)); [|reflexivity].
  destruct (to_gdf k_geom_wkt (query_kingdoms db)) as [kingdom_gdf|];
    [|reflexivity].
  destruct (to_gdf loc_geom_wkt (query_houses db)); [|reflexivity].
  cbn [mbind result_bind]. cbv zeta. now rewrite (Hfilter kingdom_gdf eq_refl).
Qed.

(** X8.  A build of [sameinad.py] depends on a non-empty selection only
    through the set of names it holds: the order of the names, repeated
    names, and names that match no kingdom change nothing. *)
Theorem X8_selection_is_a_set (selected1 selected2 : list string)
    (db : Database) (rng : RandomState) :
  selected1 <> [] -> selected2 <> [] ->
  (forall s, (s ∈ selected1 /\ exists k, k ∈ atlas_kingdoms db
                                         /\ k_name k = Some s)
             <-> (s ∈ selected2 /\ exists k, k ∈ atlas_kingdoms db
                                             /\ k_name k = Some s)) ->
  Sameinad.map selected1 db rng = Sameinad.map selected2 db rng.
Proof.
  intros H1 H2 Hsame. apply sameinad_map_filter_ext.
  intros kingdom_gdf Hk. apply to_gdf_rows in Hk.
  unfold Sameinad.filter_kingdoms.
  destruct selected1 as [|a1 s1]; [congruence|].
  destruct selected2 as [|a2 s2]; [congruence|].
  apply filter_ext_in. intros r Hr.
  assert (Hrow : row r ∈ atlas_kingdoms db).
  { unfold query_kingdoms in Hk. rewrite <- Hk.
    now apply list_elem_of_fmap_2. }
  rewrite !name_isin_spec.
  split; intros (s & Hs & Hin); exists s; (split; [exact Hs|]).
  - apply (proj1 (Hsame s)). split; [exact Hin | eauto].
  - apply (proj2 (Hsame s)). split; [exact Hin | eauto].
Qed.

Lemma filter_all {A} (P : A -> Prop) `{forall x, Decision (P x)}
    (l : list A) :
  (forall x, x ∈ l -> P x) -> filter P l = l.
Proof.
  induction l as [|a l IH]; intros Hall; [reflexivity|].
  rewrite filter_cons. destruct (decide (P a)) as [_|Hn].
  - f_equal. apply IH. intros x Hx. apply Hall. now right.
  - exfalso. apply Hn, Hall. now left.
Qed.

Lemma filter_none {A} (P : A -> Prop) `{forall x, Decision (P x)}
    (l : list A) :
  (forall x, x ∈ l -> ~ P x) -> filter P l = [].
Proof.
  induction l as [|a l IH]; intros Hall; [reflexivity|].
  rewrite filter_cons. destruct (decide (P a)) as [Hp|_].
  - exfalso. apply (Hall a); [now left | exact Hp].
  - apply IH. intros x Hx. apply Hall. now right.
Qed.

(** X9.  Selecting a set of names that holds the name of every kingdom of
    the atlas gives the same build of [sameinad.py] as selecting nothing. *)
Theorem X9_selecting_every_kingdom (selected_kingdoms : list string)
    (db : Database) (rng : RandomState) :
  (forall k, k ∈ atlas_kingdoms db ->
             exists s, k_name k = Some s /\ s ∈ selected_kingdoms) ->
  Sameinad.map selected_kingdoms db rng = Sameinad.map [] db rng.
Proof.
  intros Hall. apply sameinad_map_filter_ext.
  intros kingdom_gdf Hk. apply to_gdf_rows in Hk.
  unfold Sameinad.filter_kingdoms.
  destruct selected_kingdoms as [|s0 sel]; [reflexivity|].
  apply filter_all. intros r Hr. apply name_isin_spec, Hall.
  unfold query_kingdoms in Hk. rewrite <- Hk. now apply list_elem_of_fmap_2.
Qed.

(** X10.  When names are selected and none of them is the name of a
    kingdom, [sameinad.py] composes a map without polygon, centred on the
    locations, and returns no map: rendering the tooltip of the empty
    polygon layer raises [IndexError]. *)
Theorem X10_selection_without_match (selected_kingdoms : list string)
    (db : Database) (rng : RandomState) :
  selected_kingdoms <> [] ->
  (forall k s, k ∈ atlas_kingdoms db -> k_name k = Some s ->
               s ∉ selected_kingdoms) ->
  (forall m, Sameinad.map selected_kingdoms db rng = Ok m -> False)
  /\ (forall m, Sameinad.build_map selected_kingdoms db rng = Ok m ->
      Sameinad.map selected_kingdoms db rng = Raise IndexError
      /\ exists location_gdf lon lat rest g,
           to_gdf loc_geom_wkt (query_locations db) = Ok location_gdf
           /\ coords (centroid (unary_union (geometry <$> location_gdf)))
              = (lon, lat) :: rest
           /\ map_location m = (lat, lon)
           /\ map_children m !! 1%nat = Some (GeoJsonLayer g)
           /\ geojson_data g = []).
Proof.
  intros Hsel Hnone.
  assert (Hempty : forall all_kingdoms,
             to_gdf k_geom_wkt (query_kingdoms db) = Ok all_kingdoms ->
             Sameinad.filter_kingdoms selected_kingdoms all_kingdoms = []).
  { intros all_kingdoms Hk. apply to_gdf_rows in Hk.
    unfold Sameinad.filter_kingdoms.
    destruct selected_kingdoms as [|s0 sel]; [congruence|].
    apply filter_none. intros r Hr Hin.
    apply name_isin_spec in Hin as (s & Hs & Hin).
    apply (Hnone (row r) s); [|exact Hs|exact Hin].
    unfold query_kingdoms in Hk. rewrite <- Hk. now apply list_elem_of_fmap_2. }
  assert (Hbuild : forall m,
             Sameinad.build_map selected_kingdoms db rng = Ok m ->
             Sameinad.map selected_kingdoms db rng = Raise IndexError
             /\ exists location_gdf lon lat rest g,
                  to_gdf loc_geom_wkt (query_locations db) = Ok location_gdf
                  /\ coords (centroid (unary_union (geometry <$> location_gdf)))
                     = (lon, lat) :: rest
                  /\ map_location m = (lat, lon)
                  /\ map_children m !! 1%nat = Some (GeoJsonLayer g)
                  /\ geojson_data g = []).
  { intros m Hm. pose proof Hm as Hinv.
    apply sameinad_build_inv in Hinv
      as (location_gdf & all_kingdoms & houses_gdf & [lon lat] & markers
          & circles & Hloc & Hk & _ & Hc & _ & _ & Hmeq).
    split.
    - rewrite (sameinad_map_of_build _ _ _ m _ Hk Hm).
      now rewrite (Hempty _ Hk).
    - cbv zeta in Hc, Hmeq. rewrite (Hempty _ Hk) in Hc, Hmeq.
      unfold Sameinad.map_center, union_centroid in Hc.
      destruct (coords _) as [|p rest] eqn:Hco; [discriminate|].
      injection Hc as ->. subst m.
      exists location_gdf, lon, lat, rest, (Sameinad.kingdoms_geojson [] []).
      repeat split; assumption || reflexivity. }
  split; [|exact Hbuild].
  intros m Hm. destruct (Hbuild m (sameinad_map_build _ _ _ _ Hm)) as [Hr _].
  congruence.
Qed.

Lemma mapM_result_agree {A B C} (f g : A -> result B) (P : B -> C)
    (l : list A) (k1 k2 : list B) :
  (forall x y1 y2, f x = Ok y1 -> g x = Ok y2 -> P y1 = P y2) ->
  mapM f l = Ok k1 -> mapM g l = Ok k2 -> P <$> k1 = P <$> k2.
Proof.
  intros Hagree. revert k1 k2.
  induction l as [|x l IH]; intros k1 k2; simpl.
  - now intros [= <-] [= <-].
  - destruct (f x) as [y1|] eqn:Hf; simpl; [|discriminate].
    destruct (mapM f l) as [k1'|]; simpl; [|discriminate].
    destruct (g x) as [y2|] eqn:Hg; simpl; [|discriminate].
    destruct (mapM g l) as [k2'|]; simpl; [|discriminate].
    intros [= <-] [= <-]. rewrite !fmap_cons.
    f_equal; [eapply Hagree; eauto | now apply IH].
Qed.

Lemma folium_Marker_Ok loc popup icon (mk : Marker) :
  folium_Marker loc popup icon = Ok mk ->
  mk = {| marker_location := loc; marker_popup := popup;
          marker_icon := icon |}.
Proof.
  unfold folium_Marker.
  destruct (validate_location loc) as [loc'|] eqn:Hv; simpl; [|discriminate].
  apply validate_location_Ok in Hv as ->. now intros [= <-].
Qed.

Lemma sameinad_location_marker_Ok (r : GeoRow Location) (mk : Marker) :
  Sameinad.location_marker r = Ok mk ->
  marker_location mk = (geom_y (geometry r), geom_x (geometry r))
  /\ marker_popup mk = {| popup_html := location_popup_content (row r);
                          popup_max_width := 300 |}.
Proof.
  unfold Sameinad.location_marker, try_except_ValueError.
  destruct (folium_Marker _ _ (Sameinad.location_icon _)) as [mk'|[]] eqn:Htry;
    intros Hmk; try discriminate.
  - injection Hmk as <-. apply folium_Marker_Ok in Htry as ->. auto.
  - apply folium_Marker_Ok in Hmk as ->. auto.
Qed.

(** X11.  On the same database, a build of [sameinad.py] (whatever is
    selected) and a build of [map.py] draw the same settlement layer and the
    same tile layer, and their location markers stand at the same places
    with the same popups, in the same order; the markers differ in their
    icons only. *)
Theorem X11_scripts_share_layers (selected_kingdoms : list string)
    (db : Database) (rng1 rng2 : RandomState) (m1 m2 : Map) :
  Sameinad.map selected_kingdoms db rng1 = Ok m1 ->
  MapPy.map db rng2 = Ok m2 ->
  map_children m1 !! 3%nat = map_children m2 !! 3%nat
  /\ map_children m1 !! 0%nat = map_children m2 !! 0%nat
  /\ exists markers1 markers2,
       map_children m1 !! 2%nat = Some (MarkerCluster "Locations" markers1)
       /\ map_children m2 !! 1%nat = Some (MarkerCluster "Locations" markers2)
       /\ marker_location <$> markers1 = marker_location <$> markers2
       /\ marker_popup <$> markers1 = marker_popup <$> markers2.
Proof.
  intros Hm1 Hm2.
  apply sameinad_map_inv in Hm1
    as (l1 & k1 & h1 & c1 & mks1 & cs1 & Hl1 & _ & Hh1 & _ & Hmk1 & Hcs1 & ->).
  apply mappy_map_inv in Hm2
    as (l2 & k2 & h2 & mks2 & cs2 & Hl2 & _ & Hh2 & Hmk2 & Hcs2 & ->).
  rewrite Hl1 in Hl2. injection Hl2 as <-.
  rewrite Hh1 in Hh2. injection Hh2 as <-.
  rewrite !synth_population_seeded in Hcs1, Hcs2.
  rewrite Hcs1 in Hcs2. injection Hcs2 as <-.
  split; [reflexivity|]. split; [reflexivity|].
  exists mks1, mks2. split; [reflexivity|]. split; [reflexivity|].
  split.
  - apply (mapM_result_agree _ _ _ _ _ _ (fun x y1 y2 Hy1 Hy2 =>
      eq_trans (proj1 (sameinad_location_marker_Ok x y1 Hy1))
        (eq_sym (f_equal marker_location (folium_Marker_Ok _ _ _ y2 Hy2))))
      Hmk1 Hmk2).
  - apply (mapM_result_agree _ _ _ _ _ _ (fun x y1 y2 Hy1 Hy2 =>
      eq_trans (proj2 (sameinad_location_marker_Ok x y1 Hy1))
        (eq_sym (f_equal marker_popup (folium_Marker_Ok _ _ _ y2 Hy2))))
      Hmk1 Hmk2).
Qed.

Lemma house_circle_Ok pop_min pop_max (r : GeoRow Location) (p : Z)
    (c : CircleMarker) :
  house_circle pop_min pop_max (r, p) = Ok c ->
  circle_location c = (geom_y (geometry r), geom_x (geometry r))
  /\ circle_radius c = get_radius pop_min pop_max p
  /\ popup_html (circle_popup c) = house_popup_content (row r) p.
Proof.
  unfold house_circle, folium_CircleMarker. simpl.
  destruct (validate_location _) as [loc|] eqn:Hv; simpl; [|discriminate].
  apply validate_location_Ok in Hv as ->. intros [= <-]. auto.
Qed.

(** X12.  In a build of [sameinad.py] that returns a map, the settlement
    layer holds one circle per location of type Castle or City, in table
    order.  The circle of the [i]-th settlement stands on the point of that
    settlement, where a location marker of the same map stands too; its
    popup shows the [i]-th drawn population, a number from 100 to 4999, and
    its radius is [get_radius] of that population. *)
Theorem X12_settlement_circles (selected_kingdoms : list string)
    (db : Database) (rng : RandomState) (m : Map) :
  Sameinad.map selected_kingdoms db rng = Ok m ->
  exists location_gdf markers circles,
    to_gdf loc_geom_wkt (query_locations db) = Ok location_gdf
    /\ map_children m !! 2%nat = Some (MarkerCluster "Locations" markers)
    /\ map_children m !! 3%nat = Some (FeatureGroup "Houses" circles)
    /\ let houses_gdf := filter (fun r => is_house (row r)) location_gdf in
       let population := (synth_population (length houses_gdf) rng).1 in
       length circles = length houses_gdf
       /\ forall i c,
           circles !! i = Some c ->
           exists r p,
             houses_gdf !! i = Some r
             /\ population !! i = Some p
             /\ 100 <= p <= 4999
             /\ circle_location c = (geom_y (geometry r), geom_x (geometry r))
             /\ circle_location c ∈ marker_location <$> markers
             /\ circle_radius c
                = get_radius (series_min population) (series_max population) p
             /\ popup_html (circle_popup c) = house_popup_content (row r) p.
Proof.
  intros Hm.
  apply sameinad_map_inv in Hm
    as (location_gdf & all_kingdoms & houses_gdf & center & markers & circles
        & Hloc & _ & Hh & _ & Hmk & Hcs & ->).
  rewrite (to_gdf_query_houses _ _ Hloc) in Hh. injection Hh as <-.
  exists location_gdf, markers, circles.
  split; [exact Hloc|]. split; [reflexivity|]. split; [reflexivity|].
  cbv zeta in *.
  set (houses_gdf := filter (fun r => is_house (row r)) location_gdf) in *.
  set (population := (synth_population (length houses_gdf) rng).1) in *.
  assert (Hlen : length population = length houses_gdf)
    by apply randint_length.
  assert (Hclen : length circles = length houses_gdf).
  { apply mapM_result_length in Hcs. rewrite Hcs, length_zip. lia. }
  split; [exact Hclen|].
  intros i c Hc.
  assert (Hi : (i < length houses_gdf)%nat)
    by (rewrite <- Hclen; now apply lookup_lt_Some in Hc).
  destruct (lookup_lt_is_Some_2 houses_gdf i Hi) as [r Hr].
  destruct (lookup_lt_is_Some_2 population i) as [p Hp]; [lia|].
  assert (Hz : zip houses_gdf population !! i = Some (r, p)).
  { apply lookup_zip_with_Some. eauto. }
  destruct (mapM_result_lookup _ _ _ i (r, p) Hcs Hz) as (c' & Hc' & Hcircle).
  rewrite Hc in Hc'. injection Hc' as <-.
  apply house_circle_Ok in Hcircle as (Hcl & Hcr & Hcp).
  exists r, p. split; [exact Hr|]. split; [exact Hp|].
  split.
  { apply list_elem_of_lookup_2, list_elem_of_In in Hp.
    apply synth_population_range in Hp. lia. }
  split; [exact Hcl|]. split; [|split; assumption].
  assert (Hrin : r ∈ location_gdf).
  { apply list_elem_of_lookup_2 in Hr.
    now apply list_elem_of_filter in Hr as [_ Hr]. }
  apply list_elem_of_lookup in Hrin as [j Hj].
  destruct (mapM_result_lookup _ _ _ j r Hmk Hj) as (mk & Hmkj & Hmkr).
  apply sameinad_location_marker_Ok in Hmkr as [Hml _].
  rewrite Hcl, <- Hml. apply list_elem_of_fmap_2.
  now apply list_elem_of_lookup_2 in Hmkj.
Qed.

(** X13.  In binary64 the radius grows with the population and stays within
    the scale: for a column of the synthetic range (a spread of at most
    4899) and populations [p <= q] between its least and its greatest, the
    numbers [get_radius] returns satisfy
    [5 <= get_radius(p) <= get_radius(q) <= 15]. *)
Theorem X13_radius_monotone (pop_min pop_max p q : Z) :
  pop_min < pop_max -> pop_max - pop_min <= 4899 ->
  pop_min <= p -> p <= q -> q <= pop_max ->
  (5 <= binary64_value (get_radius (F:=float) (Some pop_min) (Some pop_max) p))%Q
  /\ (binary64_value (get_radius (F:=float) (Some pop_min) (Some pop_max) p)
      <= binary64_value (get_radius (F:=float) (Some pop_min) (Some pop_max) q))%Q
  /\ (binary64_value (get_radius (F:=float) (Some pop_min) (Some pop_max) q)
      <= 15)%Q.
Proof.
  intros Hlt Hspread Hp Hpq Hq.
  destruct (binary64_radius_ends pop_min pop_max Hlt Hspread) as [H5 H15].
  assert (Hstep : forall a b, pop_min <= a -> a < b -> b <= pop_max ->
            (binary64_value (get_radius (F:=float) (Some pop_min) (Some pop_max) a)
             <= binary64_value
                  (get_radius (F:=float) (Some pop_min) (Some pop_max) b))%Q).
  { intros a b Ha Hab Hb.
    pose proof (binary64_radius_close pop_min pop_max a Hlt Hspread
                  ltac:(lia)) as Ca.
    pose proof (binary64_radius_close pop_min pop_max b Hlt Hspread
                  ltac:(lia)) as Cb.
    apply Qabs_Qle_condition in Ca as [_ Ca].
    apply Qabs_Qle_condition in Cb as [Cb _].
    assert (Hgap : (5 + 10 * (inject_Z (a - pop_min)
                              / inject_Z (pop_max - pop_min))
                    + (2 # 2 ^ 44)
                    <= 5 + 10 * (inject_Z (b - pop_min)
                                 / inject_Z (pop_max - pop_min)))%Q).
    { set (k := pop_max - pop_min) in *.
      set (da := a - pop_min). set (db := b - pop_min).
      assert (Hk : 1 <= k <= 4899) by lia.
      assert (Hd : da + 1 <= db) by lia.
      clearbody k da db. destruct k as [|kp|kp]; try lia.
      cbv [Qle Qplus Qmult Qdiv Qinv inject_Z Qnum Qden].
      rewrite ?Pos2Z.inj_mul, ?Pos2Z.inj_pow.
      change (Z.pos 2 ^ Z.pos 44) with 17592186044416. nia. }
    revert Ca Cb Hgap.
    generalize (binary64_value
                  (get_radius (F:=float) (Some pop_min) (Some pop_max) a)).
    generalize (binary64_value
                  (get_radius (F:=float) (Some pop_min) (Some pop_max) b)).
    generalize (5 + 10 * (inject_Z (a - pop_min)
                          / inject_Z (pop_max - pop_min)))%Q.
    generalize (5 + 10 * (inject_Z (b - pop_min)
                          / inject_Z (pop_max - pop_min)))%Q.
    intros xb xa vb va Ca Cb Hgap.
    assert (He : (2 # 2 ^ 44 == (1 # 2 ^ 44) + (1 # 2 ^ 44))%Q) by reflexivity.
    rewrite He in Hgap. revert Ca Cb Hgap.
    generalize (1 # 2 ^ 44)%Q. intros eps Ca Cb Hgap. lra. }
  assert (Hmono : forall a b, pop_min <= a -> a <= b -> b <= pop_max ->
            (binary64_value (get_radius (F:=float) (Some pop_min) (Some pop_max) a)
             <= binary64_value
                  (get_radius (F:=float) (Some pop_min) (Some pop_max) b))%Q).
  { intros a b Ha Hab Hb. destruct (Z.eq_dec a b) as [->|Hne].
    - apply Qle_refl.
    - apply Hstep; lia. }
  split; [|split].
  - rewrite <- H5. apply Hmono; lia.
  - apply Hmono; lia.
  - rewrite <- H15. apply Hmono; lia.
Qed.


(* ===================================================================== *)
(** ** The tables and charts of the dashboard *)
(* ===================================================================== *)

Lemma strip_prefix_spec (p s t : string) :
  strip_prefix p s = Some t <-> s = p +:+ t.
Proof.
  revert s. induction p as [|a p IH]; intros s; simpl.
  - split; [intros [= ->]; reflexivity | intros ->; reflexivity].
  - destruct s as [|b s]; simpl.
    + split; [discriminate|]. intros Habs. discriminate Habs.
    + change (String a p +:+ t) with (String a (p +:+ t)).
      destruct (decide (a = b)) as [->|Hne].
      * rewrite IH. split; [intros ->; reflexivity | intros [= ->]; reflexivity].
      * split; [discriminate | intros [= <- _]; congruence].
Qed.

Lemma length_append (a b : string) :
  String.length (a +:+ b) = (String.length a + String.length b)%nat.
Proof.
  induction a as [|x a IH]; [reflexivity|].
  change (S (String.length (a +:+ b))
          = S (String.length a + String.length b)).
  now rewrite IH.
Qed.

(** X1.  [str.replace("^House ", "", regex=True)] takes one leading
    ["House "] off a name and nothing else: a name built by putting
    ["House "] in front of [t] comes back as [t], even when [t] itself begins
    with ["House "]; a name that does not begin with ["House "] is left as it
    is; in every case the name is the result, or ["House "] followed by the
    result. *)
Theorem X1_remove_House_round_trip :
  (forall t, remove_House ("House " +:+ t) = t)
  /\ (forall s, strip_prefix "House " s = None -> remove_House s = s)
  /\ (forall s, s = remove_House s \/ s = "House " +:+ remove_House s)
  /\ (forall s, (String.length (remove_House s) <= String.length s)%nat).
Proof.
  split; [|split; [|split]].
  - intros t. unfold remove_House.
    now rewrite (proj2 (strip_prefix_spec "House " _ t) eq_refl).
  - intros s Hs. unfold remove_House. now rewrite Hs.
  - intros s. unfold remove_House.
    destruct (strip_prefix "House " s) as [t|] eqn:Hs; [|now left].
    right. now apply strip_prefix_spec in Hs.
  - intros s. unfold remove_House.
    destruct (strip_prefix "House " s) as [t|] eqn:Hs; [|reflexivity].
    apply strip_prefix_spec in Hs as ->. rewrite length_append. simpl. lia.
Qed.

(** *** Group sizes *)

Lemma groupby_size_keys (keys : list string) :
  (groupby_size keys).*1 = merge_sort String.le (remove_dups keys).
Proof.
  unfold groupby_size.
  induction (merge_sort String.le (remove_dups keys)) as [|k l IH];
    [reflexivity|].
  rewrite !fmap_cons. simpl. now rewrite IH.
Qed.

Lemma groupby_size_elem_of (keys : list string) (k : string) (n : nat) :
  (k, n) ∈ groupby_size keys <-> k ∈ keys /\ n = count_key k keys.
Proof.
  unfold groupby_size. rewrite list_elem_of_fmap. split.
  - intros (k' & [= -> ->] & Hin).
    rewrite merge_sort_Permutation, elem_of_remove_dups in Hin. auto.
  - intros [Hin ->]. exists k. split; [reflexivity|].
    now rewrite merge_sort_Permutation, elem_of_remove_dups.
Qed.

Lemma sum_list_cons (x : nat) (l : list nat) :
  sum_list (x :: l) = (x + sum_list l)%nat.
Proof. reflexivity. Qed.

Lemma sum_indicator_absent (x : string) (L : list string) :
  x ∉ L ->
  sum_list ((fun k => if decide (x = k) then 1%nat else 0%nat) <$> L) = 0%nat.
Proof.
  induction L as [|y L IH]; intros Hx; [reflexivity|].
  rewrite fmap_cons, sum_list_cons, IH.
  - destruct (decide (x = y)) as [->|_]; [|reflexivity].
    exfalso. apply Hx. now left.
  - intros Hin. apply Hx. now right.
Qed.

Lemma sum_indicator (x : string) (L : list string) :
  NoDup L -> x ∈ L ->
  sum_list ((fun k => if decide (x = k) then 1%nat else 0%nat) <$> L) = 1%nat.
Proof.
  induction 1 as [|k L Hk HL IH]; intros Hx; [now apply elem_of_nil in Hx|].
  rewrite fmap_cons, sum_list_cons.
  destruct (decide (x = k)) as [->|Hne].
  - now rewrite sum_indicator_absent.
  - apply elem_of_cons in Hx as [->|Hx]; [congruence|]. now rewrite IH.
Qed.

(** Over any duplicate-free list of keys that holds every key of the
    column, the group sizes add up to the number of rows. *)
Lemma sum_count_key (L keys : list string) :
  NoDup L -> (forall x, x ∈ keys -> x ∈ L) ->
  sum_list ((fun k => count_key k keys) <$> L) = length keys.
Proof.
  intros HL. induction keys as [|x keys IH]; intros Hall.
  - clear. induction L as [|k L IHL]; [reflexivity|].
    now rewrite fmap_cons, sum_list_cons, IHL.
  - assert (Hsplit : forall L',
      sum_list ((fun k => count_key k (x :: keys)) <$> L')
      = (sum_list ((fun k => if decide (x = k) then 1%nat else 0%nat) <$> L')
         + sum_list ((fun k => count_key k keys) <$> L'))%nat).
    { induction L' as [|k L' IHL']; [reflexivity|].
      rewrite !fmap_cons, !sum_list_cons, IHL'.
      unfold count_key. rewrite filter_cons.
      destruct (decide (x = k)); simpl; lia. }
    rewrite Hsplit, sum_indicator, IH; simpl; auto.
    + intros y Hy. apply Hall. now right.
    + apply Hall. now left.
Qed.

Lemma groupby_size_sum (keys : list string) :
  sum_list (groupby_size keys).*2 = length keys.
Proof.
  assert (Hsnd : (groupby_size keys).*2
                 = (fun k => count_key k keys)
                   <$> merge_sort String.le (remove_dups keys)).
  { unfold groupby_size.
    induction (merge_sort String.le (remove_dups keys)) as [|k l IH];
      [reflexivity|].
    rewrite !fmap_cons. simpl. now rewrite IH. }
  rewrite Hsnd.
  rewrite (fmap_Permutation _ _ _ (merge_sort_Permutation _ _)).
  apply sum_count_key; [apply NoDup_remove_dups|].
  intros x. now rewrite elem_of_remove_dups.
Qed.

Lemma groupby_size_sorted (keys : list string) :
  StronglySorted String.le (groupby_size keys).*1
  /\ NoDup (groupby_size keys).*1.
Proof.
  rewrite groupby_size_keys. split.
  - apply StronglySorted_merge_sort; apply _.
  - rewrite merge_sort_Permutation. apply NoDup_remove_dups.
Qed.

Lemma count_key_pos (k : string) (keys : list string) :
  k ∈ keys <-> (0 < count_key k keys)%nat.
Proof.
  unfold count_key. induction keys as [|x keys IH].
  - split; [intros Hin; now apply elem_of_nil in Hin | simpl; lia].
  - rewrite filter_cons, elem_of_cons.
    destruct (decide (x = k)) as [->|Hne]; simpl.
    + split; [lia | now left].
    + rewrite <- IH. split; [intros [->|Hin]; [congruence|exact Hin] | now right].
Qed.

Lemma count_key_fmap {A} (f : A -> string) (k : string) (l : list A) :
  count_key k (f <$> l) = length (filter (fun a => f a = k) l).
Proof.
  unfold count_key. induction l as [|a l IH]; [reflexivity|].
  rewrite fmap_cons, !filter_cons.
  destruct (decide (f a = k)); simpl; now rewrite IH.
Qed.

Lemma house_kingdom_column (g : GotSchema) :
  (fetch_houses_and_kingdoms g).*2
  = (fun h => kingdom_of_region (h_region h)) <$> got_houses g.
Proof.
  unfold fetch_houses_and_kingdoms.
  induction (got_houses g) as [|h l IH]; [reflexivity|].
  rewrite !fmap_cons. simpl. now rewrite IH.
Qed.

(** X2.  [house_counts] has one row per kingdom that has a house, in sorted
    kingdom order and without repetition; the count of a kingdom is the
    number of houses the [CASE] puts in it, at least one; and the counts add
    up to the number of rows of [got.houses]: no house is lost or counted
    twice. *)
Theorem X2_house_counts (g : GotSchema) :
  sum_list (house_counts g).*2 = length (got_houses g)
  /\ StronglySorted String.le (house_counts g).*1
  /\ NoDup (house_counts g).*1
  /\ (forall k n,
         (k, n) ∈ house_counts g
         <-> (0 < n)%nat
             /\ n = length (filter
                             (fun h => kingdom_of_region (h_region h) = k)
                             (got_houses g))).
Proof.
  unfold house_counts. split; [|split; [|split]].
  - now rewrite groupby_size_sum, house_kingdom_column, length_fmap.
  - apply groupby_size_sorted.
  - apply groupby_size_sorted.
  - intros k n.
    rewrite groupby_size_elem_of, count_key_pos, house_kingdom_column,
      count_key_fmap.
    split; [intros [Hpos ->]; auto | intros [Hpos ->]; auto].
Qed.

Lemma StronglySorted_filter {A} (R : relation A) (P : A -> Prop)
    `{forall x, Decision (P x)} (l : list A) :
  StronglySorted R l -> StronglySorted R (filter P l).
Proof.
  induction 1 as [|x l Hl IH Hx]; [constructor|].
  rewrite filter_cons. destruct (decide (P x)); [|exact IH].
  constructor; [exact IH|].
  apply Forall_forall. intros y Hy.
  apply list_elem_of_filter in Hy as [_ Hy].
  rewrite Forall_forall in Hx. now apply Hx.
Qed.

(** Selecting rows of the grouped frame gives the groups of the selected
    rows: filtering and counting commute. *)
Lemma select_rows_groupby_size (selected_kingdoms keys : list string) :
  selected_kingdoms <> [] ->
  select_rows fst selected_kingdoms (groupby_size keys)
  = groupby_size (filter (fun k => k ∈ selected_kingdoms) keys).
Proof.
  intros Hsel. unfold select_rows.
  destruct selected_kingdoms as [|s0 sel0]; [congruence|].
  set (sel := s0 :: sel0). clearbody sel. clear Hsel s0 sel0.
  set (keys' := filter (fun k => k ∈ sel) keys).
  assert (Hkeys : filter (fun k => k ∈ sel)
                    (merge_sort String.le (remove_dups keys))
                  = merge_sort String.le (remove_dups keys')).
  { apply (Sorted_unique String.le).
    - apply StronglySorted_Sorted, StronglySorted_filter,
        StronglySorted_merge_sort; apply _.
    - apply Sorted_merge_sort; apply _.
    - apply NoDup_Permutation.
      + apply NoDup_filter. rewrite merge_sort_Permutation.
        apply NoDup_remove_dups.
      + rewrite merge_sort_Permutation. apply NoDup_remove_dups.
      + intros x. rewrite list_elem_of_filter, !merge_sort_Permutation,
          !elem_of_remove_dups. unfold keys'.
        rewrite list_elem_of_filter. reflexivity. }
  unfold groupby_size. fold keys'. rewrite <- Hkeys.
  generalize (merge_sort String.le (remove_dups keys)). intros S.
  induction S as [|k S IH]; [reflexivity|].
  rewrite fmap_cons, !filter_cons. simpl.
  destruct (decide (k ∈ sel)) as [Hk|Hk]; [|exact IH].
  rewrite fmap_cons, IH. f_equal. f_equal. unfold keys'.
  rewrite list_filter_filter. f_equal.
  apply list_filter_iff. intros x.
  split; [intros ->; auto | intros [Hx _]; exact Hx].
Qed.

(** X3.  The house chart with a non-empty selection shows the groups of
    the houses whose kingdom is selected, so the values shown add up to the
    number of those houses; with nothing selected they add up to the number
    of all houses.  The rows shown are rows of [house_counts], in its
    order. *)
Theorem X3_house_count_plot (g : GotSchema) (selected_kingdoms : list string)
    (plot_type : string) :
  let fig := house_count_plot g selected_kingdoms plot_type in
  fig_data fig `sublist_of` house_counts g
  /\ (selected_kingdoms <> [] ->
      fig_data fig
      = groupby_size
          (filter (fun k => k ∈ selected_kingdoms)
             (fetch_houses_and_kingdoms g).*2)
      /\ sum_list (fig_data fig).*2
         = length (filter
                     (fun h => kingdom_of_region (h_region h)
                               ∈ selected_kingdoms)
                     (got_houses g)))
  /\ (selected_kingdoms = [] ->
      fig_data fig = house_counts g
      /\ sum_list (fig_data fig).*2 = length (got_houses g)).
Proof.
  cbv zeta. unfold house_count_plot, px_figure. simpl.
  split; [|split].
  - unfold select_rows. destruct selected_kingdoms; [reflexivity|].
    apply sublist_filter.
  - intros Hsel. unfold house_counts.
    rewrite select_rows_groupby_size by assumption.
    split; [reflexivity|].
    rewrite groupby_size_sum, house_kingdom_column.
    induction (got_houses g) as [|h l IH]; [reflexivity|].
    rewrite fmap_cons, !filter_cons.
    destruct (decide (kingdom_of_region (h_region h) ∈ selected_kingdoms));
      simpl; now rewrite IH.
  - intros ->. split; [reflexivity|]. simpl. unfold house_counts.
    now rewrite groupby_size_sum, house_kingdom_column, length_fmap.
Qed.

(** *** The kingdoms of the selector and their colours *)

(** The ten names the [CASE] can return. *)
Lemma kingdom_of_region_range (region : pystr) :
  kingdom_of_region region
  ∈ ["The North"; "The Vale"; "Iron Islands"; "The Riverlands";
     "The Westerlands"; "The Stormlands"; "The Crownlands"; "The Reach";
     "Dorne"; "Other Regions"].
Proof.
  unfold kingdom_of_region.
  destruct region as [r|]; repeat case_bool_decide; repeat case_decide;
    apply (bool_decide_unpack _); vm_compute; exact I.
Qed.

Lemma kingdom_color_mapping_covers (k : string) :
  k ∈ ["The North"; "The Vale"; "Iron Islands"; "The Riverlands";
       "The Westerlands"; "The Stormlands"; "The Crownlands"; "The Reach";
       "Dorne"; "Other Regions"] ->
  is_Some (kingdom_color_mapping !! k).
Proof.
  intros Hk. repeat (apply elem_of_cons in Hk as [->|Hk]; [now eexists|]).
  now apply elem_of_nil in Hk.
Qed.

Lemma kingdom_color_mapping_inj (k1 k2 c : string) :
  kingdom_color_mapping !! k1 = Some c ->
  kingdom_color_mapping !! k2 = Some c -> k1 = k2.
Proof.
  intros H1 H2.
  apply elem_of_map_to_list in H1, H2.
  assert (Hl : map_to_list kingdom_color_mapping
               ≡ₚ [ ("The North", "#1f77b4"); ("The Reach", "#ff7f0e");
                    ("Dorne", "#2ca02c"); ("The Westerlands", "#d62728");
                    ("The Riverlands", "#9467bd"); ("The Vale", "#8c564b");
                    ("Iron Islands", "#e377c2"); ("The Stormlands", "#7f7f7f");
                    ("The Crownlands", "#ffff00"); ("Gift", "#17becf");
                    ("Other Regions", "#b5b5b5") ]).
  { unfold kingdom_color_mapping.
    repeat (rewrite map_to_list_insert by reflexivity; apply Permutation_skip).
    now rewrite map_to_list_singleton. }
  rewrite Hl in H1, H2.
  repeat (apply elem_of_cons in H1 as [H1|H1]; [injection H1 as -> ->|]);
    try (now apply elem_of_nil in H1);
    repeat (apply elem_of_cons in H2 as [H2|H2]; [congruence|]);
    now apply elem_of_nil in H2.
Qed.

Lemma population_kingdom_is_house_kingdom (g : GotSchema) (k : string) :
  k ∈ (fun ch : Character * House => kingdom_of_region (h_region ch.2))
      <$> population_join g ->
  k ∈ (fetch_houses_and_kingdoms g).*2.
Proof.
  rewrite house_kingdom_column, !list_elem_of_fmap.
  intros ([c h] & -> & Hin). exists h. split; [reflexivity|].
  unfold population_join in Hin.
  apply list_elem_of_bind in Hin as (c' & Hin & _).
  apply list_elem_of_bind in Hin as (h' & Hin & Hh').
  destruct (decide (h_id h' ∈ c_allegiances c')); [|now apply elem_of_nil in Hin].
  apply list_elem_of_singleton in Hin as [= _ ->]. exact Hh'.
Qed.

Lemma df_population_kingdoms (g : GotSchema) (df : list (string * nat))
    (k : string) :
  is_query_population g df ->
  k ∈ df.*1 -> k ∈ (fetch_houses_and_kingdoms g).*2.
Proof.
  intros Hdf Hk. unfold is_query_population in Hdf. rewrite Hdf in Hk.
  unfold population_groups in Hk.
  rewrite groupby_size_keys, merge_sort_Permutation, elem_of_remove_dups in Hk.
  now apply population_kingdom_is_house_kingdom.
Qed.

(** X4.  The choices of the kingdom selector are exactly the kingdoms of
    the house chart, in the same sorted order and without repetition: the
    kingdoms of [df_population] add nothing to the union, being kingdoms of
    houses themselves.  A choice is a kingdom some house is put in by the
    [CASE], so there are at most ten of them. *)
Theorem X4_kingdom_list (g : GotSchema) (df_population : list (string * nat)) :
  is_query_population g df_population ->
  kingdom_list df_population g = (house_counts g).*1
  /\ StronglySorted String.le (kingdom_list df_population g)
  /\ NoDup (kingdom_list df_population g)
  /\ (forall k, k ∈ kingdom_list df_population g
                <-> exists h, h ∈ got_houses g
                              /\ kingdom_of_region (h_region h) = k)
  /\ (forall k, k ∈ df_population.*1 -> k ∈ kingdom_list df_population g)
  /\ (length (kingdom_list df_population g) <= 10)%nat.
Proof.
  intros Hdf.
  assert (Hmem : forall k, k ∈ kingdom_list df_population g
                           <-> k ∈ (fetch_houses_and_kingdoms g).*2).
  { intros k. unfold kingdom_list, sorted_union.
    rewrite merge_sort_Permutation, elem_of_remove_dups, elem_of_app.
    split; [intros [Hk|Hk]; [eapply df_population_kingdoms; eauto | exact Hk]
           | now right]. }
  assert (Hnodup : NoDup (kingdom_list df_population g)).
  { unfold kingdom_list, sorted_union. rewrite merge_sort_Permutation.
    apply NoDup_remove_dups. }
  assert (Hsorted : StronglySorted String.le (kingdom_list df_population g)).
  { unfold kingdom_list, sorted_union. apply StronglySorted_merge_sort; apply _. }
  split; [|split; [exact Hsorted|split; [exact Hnodup|split; [|split]]]].
  - apply (Sorted_unique String.le).
    + now apply StronglySorted_Sorted.
    + unfold house_counts. rewrite groupby_size_keys.
      apply Sorted_merge_sort; apply _.
    + apply NoDup_Permutation; [exact Hnodup | apply groupby_size_sorted|].
      intros k. rewrite Hmem. unfold house_counts.
      now rewrite groupby_size_keys, merge_sort_Permutation,
        elem_of_remove_dups.
  - intros k. rewrite Hmem, house_kingdom_column, list_elem_of_fmap.
    split; [intros (h & -> & Hh); eauto | intros (h & Hh & <-); eauto].
  - intros k Hk. apply Hmem. eapply df_population_kingdoms; eauto.
  - change 10%nat with
      (length ["The North"; "The Vale"; "Iron Islands"; "The Riverlands";
               "The Westerlands"; "The Stormlands"; "The Crownlands";
               "The Reach"; "Dorne"; "Other Regions"]).
    apply submseteq_length, NoDup_submseteq; [exact Hnodup|].
    intros k Hk. apply Hmem in Hk.
    rewrite house_kingdom_column in Hk.
    apply list_elem_of_fmap in Hk as (h & -> & _).
    apply kingdom_of_region_range.
Qed.

Lemma select_rows_elem_of {Row} (col : Row -> string)
    (selected_kingdoms : list string) (df : list Row) (r : Row) :
  r ∈ select_rows col selected_kingdoms df -> r ∈ df.
Proof.
  unfold select_rows. destruct selected_kingdoms; [auto|].
  rewrite list_elem_of_filter. tauto.
Qed.

(** X5.  Every bar or slice of the house chart and of the population chart
    is drawn in a colour of [kingdom_color_mapping], never in one of
    plotly's default colours, and two different kingdoms are never drawn in
    the same colour. *)
Theorem X5_chart_colors (g : GotSchema) (df_population : list (string * nat))
    (selected_kingdoms : list string) (plot_type : string) :
  is_query_population g df_population ->
  let houses_fig := house_count_plot g selected_kingdoms plot_type in
  let population_fig :=
    population_plot df_population selected_kingdoms plot_type in
  (forall r, r ∈ fig_data houses_fig ->
             is_Some (figure_color houses_fig r.1))
  /\ (forall r, r ∈ fig_data population_fig ->
                is_Some (figure_color population_fig r.1))
  /\ (forall k1 k2 c,
         figure_color houses_fig k1 = Some c ->
         figure_color houses_fig k2 = Some c -> k1 = k2)
  /\ (forall k1 k2 c,
         figure_color population_fig k1 = Some c ->
         figure_color population_fig k2 = Some c -> k1 = k2).
Proof.
  intros Hdf houses_fig population_fig.
  assert (Hhouse : forall k, k ∈ (fetch_houses_and_kingdoms g).*2 ->
                             is_Some (kingdom_color_mapping !! k)).
  { intros k Hk. rewrite house_kingdom_column in Hk.
    apply list_elem_of_fmap in Hk as (h & -> & _).
    apply kingdom_color_mapping_covers, kingdom_of_region_range. }
  split; [|split; [|split]].
  - intros [k n] Hr. apply select_rows_elem_of in Hr.
    apply Hhouse. unfold house_counts in Hr.
    now apply groupby_size_elem_of in Hr as [Hk _].
  - intros [k n] Hr. apply select_rows_elem_of in Hr.
    apply Hhouse. apply (df_population_kingdoms g df_population); [exact Hdf|].
    apply list_elem_of_fmap. exists (k, n). auto.
  - intros k1 k2 c. apply kingdom_color_mapping_inj.
  - intros k1 k2 c. apply kingdom_color_mapping_inj.
Qed.

Lemma population_join_length (g : GotSchema) :
  length (population_join g)
  = sum_list
      ((fun c => length (filter (fun h => h_id h ∈ c_allegiances c)
                           (got_houses g)))
         <$> got_characters g).
Proof.
  unfold population_join.
  assert (Hinner : forall (c : Character) (hs : list House),
             length (hs ≫= fun h => if decide (h_id h ∈ c_allegiances c)
                                    then [(c, h)] else [])
             = length (filter (fun h => h_id h ∈ c_allegiances c) hs)).
  { intros c hs. induction hs as [|h hs IHh]; [reflexivity|].
    rewrite bind_cons, length_app, IHh, filter_cons.
    destruct (decide (h_id h ∈ c_allegiances c)); reflexivity. }
  induction (got_characters g) as [|c cs IH]; [reflexivity|].
  now rewrite bind_cons, length_app, IH, fmap_cons, sum_list_cons, Hinner.
Qed.

(** X6.  The total population shown is the number of (character, house)
    pairs in which the house is one of the character's allegiances: a
    character is counted once for each house of [got.houses] among its
    allegiances, so not at all without one and twice with two. *)
Theorem X6_total_population (g : GotSchema)
    (df_population : list (string * nat)) :
  is_query_population g df_population ->
  sum_list df_population.*2 = length (population_join g)
  /\ total_population df_population
     = "Total Population: " +:+ pretty (length (population_join g))
  /\ length (population_join g)
     = sum_list
         ((fun c => length (filter (fun h => h_id h ∈ c_allegiances c)
                              (got_houses g)))
            <$> got_characters g).
Proof.
  intros Hdf.
  assert (Hsum : sum_list df_population.*2 = length (population_join g)).
  { unfold is_query_population in Hdf. rewrite Hdf.
    unfold population_groups. now rewrite groupby_size_sum, length_fmap. }
  split; [exact Hsum|]. split.
  - unfold total_population. cbv zeta. now rewrite Hsum.
  - apply population_join_length.
Qed.




End Claims.
Import Instances.

(** C1, witness: the atlas filtered to Dorne. *)
Lemma C1_map_center_witness :
  to_gdf loc_geom_wkt (query_locations atlas) = Ok atlas_location_gdf /\
  to_gdf k_geom_wkt (query_kingdoms atlas) = Ok atlas_kingdom_gdf /\
  let kingdom_gdf := Sameinad.filter_kingdoms ["Dorne"] atlas_kingdom_gdf in
  let framed :=
    match kingdom_gdf with
    | _ :: _ => union_centroid kingdom_gdf
    | [] => union_centroid atlas_location_gdf
    end in
  (forall m, Sameinad.build_map ["Dorne"] atlas 0 = Ok m ->
     exists lon lat rest,
       coords framed = (lon, lat) :: rest /\ map_location m = (lat, lon))
  /\ (forall m, Sameinad.map ["Dorne"] atlas 0 = Ok m ->
     Sameinad.build_map ["Dorne"] atlas 0 = Ok m
     /\ exists lon lat rest,
          coords framed = (lon, lat) :: rest /\ map_location m = (lat, lon))
  /\ (coords framed = [] ->
      Sameinad.build_map ["Dorne"] atlas 0 = Raise IndexError
      /\ Sameinad.map ["Dorne"] atlas 0 = Raise IndexError)
  /\ (kingdom_gdf = [] -> atlas_location_gdf = [] ->
      coords (centroid (unary_union [])) = [] ->
      Sameinad.map ["Dorne"] atlas 0 = Raise IndexError)
  /\ (forall m, MapPy.build_map atlas 0 = Ok m \/ MapPy.map atlas 0 = Ok m ->
      map_location m
      = (geom_y (centroid (unary_union (geometry <$> atlas_location_gdf))),
         geom_x (centroid (unary_union (geometry <$> atlas_location_gdf))))).
Proof.
  split; [reflexivity|]. split; [reflexivity|].
  exact (C1_map_center ["Dorne"] atlas 0 atlas_location_gdf atlas_kingdom_gdf
           eq_refl eq_refl).
Defined.

(** C1, counterexample.  With no kingdom and no location the build of
    [sameinad.py] stops on an [IndexError], not on a
    [NoGeometryError]; and [map.py], run on an atlas whose
    kingdoms are centred on (7, 7), frames the map on the centre (3, 2) of
    the locations. *)
Lemma C1_counterexample :
  Sameinad.map [] empty_atlas 0 = Raise IndexError
  /\ exn_name IndexError = "IndexError"
  /\ coords (union_centroid atlas_kingdom_gdf) = [pt 7 7]
  /\ map_location <$> MapPy.map atlas 0 = Ok (float_of_Z 2, float_of_Z 3).
Proof.
  split; [reflexivity|]. split; [reflexivity|].
  split; vm_compute; reflexivity.
Qed.

(** C2, at the failing input.  With 22 kingdoms the polygons at positions
    14 and 15 are filled with the same colour, in the builds of both
    scripts: [colormap(15 / 22)] reads table entry 14, as [colormap(14 / 22)]
    does, because [(15 / 22) * 22] is just below 15 in binary64.  This is so
    whatever the palette; with up to 21 kingdoms every position [i] is given
    entry [i] of the table, as the formula has it in exact arithmetic for
    every number of kingdoms. *)
Lemma C2_rainbow_collision :
  length (atlas_kingdoms atlas22) = 22%nat
  /\ (fun m => ((map_children m ≫= layer_fill_colors) !! 14%nat,
                (map_children m ≫= layer_fill_colors) !! 15%nat,
                (map_children m ≫= layer_fill_colors) !! 16%nat))
     <$> Sameinad.map [] atlas22 0
     = Ok (Some (PyStr "#rainbow/22/14"), Some (PyStr "#rainbow/22/14"),
           Some (PyStr "#rainbow/22/16"))
  /\ (fun m => ((map_children m ≫= layer_fill_colors) !! 14%nat,
                (map_children m ≫= layer_fill_colors) !! 15%nat,
                (map_children m ≫= layer_fill_colors) !! 16%nat))
     <$> MapPy.map atlas22 0
     = Ok (Some (PyStr "#rainbow/22/14"), Some (PyStr "#rainbow/22/14"),
           Some (PyStr "#rainbow/22/16"))
  /\ lut_index (F:=float) 22 (fdiv (of_int 15) (of_int 22)) = 14
  /\ lut_index (F:=Q) 22 (fdiv (of_int 15) (of_int 22)) = 15
  /\ (forall mpl : Matplotlib,
        Sameinad.kingdom_colors (F:=float) 22 !! 15%nat
        = Sameinad.kingdom_colors (F:=float) 22 !! 14%nat
        /\ MapPy.kingdom_colors (F:=float) 22 !! 15%nat
           = MapPy.kingdom_colors (F:=float) 22 !! 14%nat)
  /\ (forall (mpl : Matplotlib) (n i : nat),
        (i < n)%nat -> (n <= 21)%nat ->
        Sameinad.kingdom_colors (F:=float) n !! i
        = Some (rgb2hex (cmap_lut "rainbow" (Z.of_nat n) (Z.of_nat i)))
        /\ MapPy.kingdom_colors (F:=float) n !! i
           = Some (rgb2hex (cmap_lut "rainbow" (Z.of_nat n) (Z.of_nat i)))).
Proof.
  split; [reflexivity|].
  split; [vm_compute; reflexivity|].
  split; [vm_compute; reflexivity|].
  split; [vm_compute; reflexivity|].
  split; [vm_compute; reflexivity|].
  split.
  - intros mpl. destruct (rainbow_22_collision (mpl:=mpl))
      as (H14 & H15 & M14 & M15).
    split; congruence.
  - intros mpl n i Hi Hn. now apply rainbow_colors_small.
Qed.

(** C3, witness: the populations 100, 4999 and 2550. *)
Lemma C3_get_radius_witness :
  exists pop_min pop_max,
    series_min [100; 4999; 2550] = Some pop_min
    /\ series_max [100; 4999; 2550] = Some pop_max
    /\ (pop_min < pop_max ->
        (forall p, In p [100; 4999; 2550] ->
           (Qabs (binary64_value
                    (get_radius (F:=float) (Some pop_min) (Some pop_max) p)
                  - (5 + 10 * (inject_Z (p - pop_min)
                               / inject_Z (pop_max - pop_min))))
            <= 1 # 2 ^ 44)%Q)
        /\ (binary64_value
              (get_radius (F:=float) (Some pop_min) (Some pop_max) pop_min)
            == 5)%Q
        /\ (binary64_value
              (get_radius (F:=float) (Some pop_min) (Some pop_max) pop_max)
            == 15)%Q).
Proof.
  assert (Hne : [100; 4999; 2550] <> []) by discriminate.
  assert (Hrange : Forall (fun p => 100 <= p < 5000) [100; 4999; 2550])
    by (repeat constructor; lia).
  destruct (C3_get_radius [100; 4999; 2550] Hne Hrange)
    as (pop_min & pop_max & Hmin & Hmax & _ & _ & _ & Hscale & _).
  exists pop_min, pop_max. auto.
Defined.

(** C3, counterexample.  Of the populations 100, 101 and 103 the middle one
    is drawn with a radius that is not [5 + 10 * (101 - 100) / (103 - 100)],
    that is 25/3, but the binary64 number just below the one nearest to
    it. *)
Lemma C3_counterexample :
  series_min [100; 101; 103] = Some 100
  /\ series_max [100; 101; 103] = Some 103
  /\ (binary64_value
        (get_radius (F:=float) (Some 100%Z) (Some 103%Z) 101%Z)
      < 5 + 10 * (inject_Z (101 - 100) / inject_Z (103 - 100)))%Q
  /\ Qeq_bool (binary64_value (get_radius (F:=float) (Some 100) (Some 103) 101))
       (5 + 10 * (inject_Z (101 - 100) / inject_Z (103 - 100)))%Q = false
  /\ PrimFloat.ltb (get_radius (F:=float) (Some 100) (Some 103) 101)
       (PrimFloat.div (float_of_Z 25) (float_of_Z 3)) = true.
Proof. repeat split; vm_compute; reflexivity. Qed.


(** C4, witness: the atlas with Dorne selected.  The polygon layer holds
    Dorne alone, filled with the single colour of a one-entry scale, and
    the map is centred on Dorne, at (12, 12); with nothing selected the two
    kingdoms are filled with the two colours of a two-entry scale and the
    map is centred on the two of them, at (7, 7). *)
Lemma C4_kingdom_filter_witness :
  exists m m0,
    Sameinad.map ["Dorne"] atlas 0 = Ok m
    /\ Sameinad.map [] atlas 0 = Ok m0
    /\ map_children m ≫= layer_fill_colors = [PyStr "#rainbow/1/0"]
    /\ map_children m0 ≫= layer_fill_colors
       = [PyStr "#rainbow/2/0"; PyStr "#rainbow/2/1"]
    /\ map_location m = (float_of_Z 12, float_of_Z 12)
    /\ map_location m0 = (float_of_Z 7, float_of_Z 7)
    /\ Sameinad.filter_kingdoms ["Dorne"] atlas_kingdom_gdf
       = drop 1 atlas_kingdom_gdf
    /\ exists g,
         map_children m !! 1%nat = Some (GeoJsonLayer g)
         /\ (fun f => feature_properties f !! "name") <$> geojson_data g
            = [Some (PyStr "Dorne")].
Proof.
  destruct (Sameinad.map ["Dorne"] atlas _) as [m|e] eqn:Hm;
    [|vm_compute in Hm; discriminate].
  destruct (Sameinad.map [] atlas _) as [m0|e] eqn:Hm0;
    [|vm_compute in Hm0; discriminate].
  exists m, m0. split; [reflexivity|]. split; [reflexivity|].
  destruct (C4_kingdom_filter ["Dorne"] atlas _ m Hm)
    as (location_gdf & all_kingdoms & kingdom_gdf & g & _ & _ & _ & _
        & _ & Hlayer & _).
  vm_compute in Hm. injection Hm as <-.
  vm_compute in Hm0. injection Hm0 as <-.
  split; [vm_compute; reflexivity|]. split; [vm_compute; reflexivity|].
  split; [reflexivity|]. split; [reflexivity|]. split; [reflexivity|].
  exists g. split; [exact Hlayer|].
  vm_compute in Hlayer. injection Hlayer as <-. vm_compute. reflexivity.
Defined.

(** C5, witness: two settlement frames of two rows each, the generator left
    in two different states. *)
Lemma C5_population_deterministic_witness :
  (synth_population 2 1).1 = (synth_population 2 2).1
  /\ (synth_population 2 1).1 = [1427; 3964]
  /\ Sameinad.map [] atlas 1 = Sameinad.map [] atlas 2.
Proof.
  destruct (C5_population_deterministic
              (rnd:=lcg_random)
              (take 2 atlas_location_gdf) (drop 2 atlas_location_gdf) 1 2
              eq_refl) as (Heq & _ & _ & Hmap & _).
  split; [exact Heq|]. split; [reflexivity | apply Hmap].
Defined.

(** C6, counterexample.  5000 belongs to the closed interval [[100, 5000]]
    and is never drawn, by any generator in any state. *)
Lemma C6_counterexample :
  exists x,
    100 <= x <= 5000
    /\ forall (rnd : NumpyRandom) (size : nat) (rng : RandomState),
         ~ In x (synth_population size rng).1.
Proof.
  exists 5000. split; [lia|]. intros rnd size rng Hin.
  apply synth_population_range in Hin. lia.
Qed.

(** C7, witness: the Inn at the Crossroads, of a type in no table. *)
Lemma C7_unknown_type_defaults_witness :
  Sameinad.location_marker crossroads_inn_row
  = Ok {| marker_location := (float_of_Z 2, float_of_Z 4);
          marker_popup :=
            {| popup_html := location_popup_content crossroads_inn;
               popup_max_width := 300 |};
          marker_icon :=
            {| icon_icon := "info-circle"; icon_prefix := "fa";
               icon_icon_color := "white"; icon_color := "gray" |} |}.
Proof.
  assert (Hunknown : forall s, loc_type crossroads_inn = Some s ->
                               Sameinad.icon_mapping !! s = None)
    by (intros s [= <-]; reflexivity).
  destruct (C7_unknown_type_defaults crossroads_inn_row Hunknown)
    as (_ & _ & Hmk & _).
  exact (Hmk eq_refl eq_refl).
Defined.

(** C7, counterexample.  In the build of [map.py] on the atlas the four
    markers, a castle, a city, a landmark and an inn, are all blue: the inn,
    whose type is in no table, gets no neutral colour, and the colour of the
    castle and of the city is keyed by no table. *)
Lemma C7_counterexample :
  MapPy.type_icon_mapping !! "Inn" = None
  /\ (fun m => map_children m ≫= layer_icons) <$> MapPy.map atlas 0
     = Ok [ {| icon_icon := "fa-fort-awesome"; icon_prefix := "fa";
               icon_icon_color := "white"; icon_color := "blue" |};
            {| icon_icon := "fa-building"; icon_prefix := "fa";
               icon_icon_color := "white"; icon_color := "blue" |};
            {| icon_icon := "fa-map-pin"; icon_prefix := "fa";
               icon_icon_color := "white"; icon_color := "blue" |};
            {| icon_icon := "fa-info-circle"; icon_prefix := "fa";
               icon_icon_color := "white"; icon_color := "blue" |} ].
Proof. split; vm_compute; reflexivity. Qed.

(** C8, at the failing input.  In the build of [sameinad.py] on the atlas,
    the popup of the polygon of Dorne, a kingdom without summary, has an
    empty summary cell and no placeholder.  The polygon popup of [map.py]
    does show the placeholder for Dorne, and so do, in the same build of
    [sameinad.py], the popups of the markers and circles of the locations
    with a missing or empty summary (all but Winterfell). *)
Lemma C8_polygon_popup_without_placeholder :
  k_summary dorne = None
  /\ (fun m => map_children m ≫= layer_popup_cells) <$> Sameinad.map [] atlas 0
     = Ok [ [ ("Name:", PyStr "The North"); ("Claimed By:", PyStr "Stark");
              ("Summary:", PyStr "The largest of the kingdoms") ];
            [ ("Name:", PyStr "Dorne"); ("Claimed By:", PyStr "Martell");
              ("Summary:", PyNone) ] ]
  /\ (fun m => map_children m ≫= layer_popup_cells) <$> MapPy.map atlas 0
     = Ok [ [ ("popup", PyStr (MapPy.kingdom_popup the_north)) ];
            [ ("popup", PyStr (MapPy.kingdom_popup dorne)) ] ]
  /\ contains placeholder (MapPy.kingdom_popup dorne) = true
  /\ (fun m => contains placeholder <$> (map_children m ≫= layer_popup_texts))
     <$> Sameinad.map [] atlas 0
     = Ok [false; true; true; true; false; true].
Proof. repeat split; vm_compute; reflexivity. Qed.

(** C9, witness: both builds succeed on the atlas. *)
Lemma C9_layer_order_witness :
  (exists m, Sameinad.map ["Dorne"] atlas 0 = Ok m
             /\ layer_kind <$> map_children m
                = [BaseTiles; KingdomPolygons; LocationMarkers;
                   SettlementCircles; LayerVisibilityControl])
  /\ (exists m, MapPy.map atlas 0 = Ok m
                /\ layer_kind <$> map_children m
                   = [BaseTiles; LocationMarkers; KingdomPolygons;
                      SettlementCircles; LayerVisibilityControl]).
Proof.
  destruct (C9_layer_order (rnd:=lcg_random) ["Dorne"] atlas 0) as [Hs Hm].
  split.
  - destruct (Sameinad.map ["Dorne"] atlas _) as [m|e] eqn:E;
      [|vm_compute in E; discriminate].
    exists m. split; [reflexivity | now apply Hs].
  - destruct (MapPy.map atlas _) as [m|e] eqn:E;
      [|vm_compute in E; discriminate].
    exists m. split; [reflexivity | now apply Hm].
Defined.

(** C9, counterexample.  The build of [map.py] on the atlas adds the
    location markers before the kingdom polygons. *)
Lemma C9_counterexample :
  (fun m => layer_kind <$> map_children m) <$> MapPy.map atlas 0
  = Ok [BaseTiles; LocationMarkers; KingdomPolygons; SettlementCircles;
        LayerVisibilityControl].
Proof. vm_compute. reflexivity. Qed.

(** C10, witness: the atlas built with nothing selected and with Dorne
    selected; the marker and circle layers agree, while the polygon layer
    holds two kingdoms in the first build and one in the second. *)
Lemma C10_filter_frame_witness :
  (exists m1 m2,
      Sameinad.map [] atlas 0 = Ok m1
      /\ Sameinad.map ["Dorne"] atlas 0 = Ok m2
      /\ map_children m1 !! 2%nat = map_children m2 !! 2%nat
      /\ map_children m1 !! 3%nat = map_children m2 !! 3%nat)
  /\ (fun m => length (map_children m ≫= layer_popup_cells))
     <$> Sameinad.map [] atlas 0 = Ok 2%nat
  /\ (fun m => length (map_children m ≫= layer_popup_cells))
     <$> Sameinad.map ["Dorne"] atlas 0 = Ok 1%nat.
Proof.
  split; [|split; vm_compute; reflexivity].
  destruct (Sameinad.map [] atlas _) as [m1|e] eqn:E1;
    [|vm_compute in E1; discriminate].
  destruct (Sameinad.map ["Dorne"] atlas _) as [m2|e] eqn:E2;
    [|vm_compute in E2; discriminate].
  exists m1, m2. split; [reflexivity|]. split; [reflexivity|].
  destruct (C10_filter_frame [] ["Dorne"] atlas _ _ m1 m2 E1 E2)
    as (l & h & mks & cs & _ & _ & _ & _ & _ & H12 & H22 & H13 & H23 & _).
  split; congruence.
Defined.

Import Realm.

(** X4, witness: the example schema, its population groups as returned. *)
Lemma X4_kingdom_list_witness :
  is_query_population got (population_groups got)
  /\ kingdom_list (population_groups got) got
     = ["Dorne"; "Other Regions"; "The North"; "The Riverlands"].
Proof.
  assert (Hdf : is_query_population got (population_groups got))
    by (unfold is_query_population; reflexivity).
  split; [exact Hdf|].
  destruct (X4_kingdom_list got (population_groups got) Hdf) as [-> _].
  reflexivity.
Defined.

(** X5, witness: the bar of Dorne in the unfiltered house chart. *)
Lemma X5_chart_colors_witness :
  figure_color (house_count_plot got [] "Bar Plot") "Dorne" = Some "#2ca02c"
  /\ is_Some (figure_color (house_count_plot got [] "Bar Plot") "Dorne").
Proof.
  split; [reflexivity|].
  assert (Hdf : is_query_population got (population_groups got))
    by (unfold is_query_population; reflexivity).
  destruct (X5_chart_colors got (population_groups got) [] "Bar Plot" Hdf)
    as [Hcol _].
  apply (Hcol ("Dorne", 1%nat)).
  apply (bool_decide_unpack _). vm_compute. exact I.
Defined.

(** X6, witness: four allegiances among four characters, one of them
    without any and one with two. *)
Lemma X6_total_population_witness :
  total_population (population_groups got) = "Total Population: 4"
  /\ length (got_characters got) = 4%nat
  /\ length (population_join got) = 4%nat.
Proof.
  assert (Hdf : is_query_population got (population_groups got))
    by (unfold is_query_population; reflexivity).
  destruct (X6_total_population got (population_groups got) Hdf)
    as (_ & -> & _).
  repeat split; reflexivity.
Defined.

(** X8, witness: Dorne selected with a name of no kingdom, and Dorne
    selected twice. *)
Lemma X8_selection_is_a_set_witness :
  Sameinad.map ["Dorne"; "Nowhere"] atlas 0
  = Sameinad.map ["Dorne"; "Dorne"] atlas 0.
Proof.
  apply X8_selection_is_a_set; [discriminate | discriminate |].
  intros s. simpl. rewrite !elem_of_cons, !elem_of_nil.
  split; (intros [Hin (k & Hk & Hname)]; split; [|eauto]);
    rewrite !elem_of_cons, elem_of_nil in Hk;
    destruct Hk as [->|[->|[]]]; injection Hname as <-;
    destruct Hin as [Hin|[Hin|[]]]; try discriminate Hin; auto.
Defined.

(** X9, witness: every kingdom of the atlas selected, with one name more. *)
Lemma X9_selecting_every_kingdom_witness :
  Sameinad.map ["Dorne"; "The North"; "Gift"] atlas 0 = Sameinad.map [] atlas 0.
Proof.
  apply X9_selecting_every_kingdom.
  intros k Hk. simpl in Hk. rewrite !elem_of_cons, elem_of_nil in Hk.
  destruct Hk as [->|[->|[]]]; eexists; (split; [reflexivity|]);
    rewrite !elem_of_cons; auto.
Defined.

(** X10, witness: a selection that names no kingdom of the atlas.  The map
    is composed, centred on the locations at (3, 2), and rendering it
    raises. *)
Lemma X10_selection_without_match_witness :
  (exists m,
      Sameinad.build_map ["Nowhere"] atlas 0 = Ok m
      /\ map_location m = (float_of_Z 2, float_of_Z 3))
  /\ Sameinad.map ["Nowhere"] atlas 0 = Raise IndexError.
Proof.
  assert (Hsel : ["Nowhere"] <> []) by discriminate.
  assert (Hnone : forall k s, k ∈ atlas_kingdoms atlas -> k_name k = Some s ->
                              s ∉ ["Nowhere"]).
  { intros k s Hk Hs. simpl in Hk. rewrite !elem_of_cons, elem_of_nil in Hk.
    rewrite elem_of_cons, elem_of_nil.
    destruct Hk as [->|[->|[]]]; injection Hs as <-;
      intros [Habs|[]]; discriminate Habs. }
  destruct (X10_selection_without_match (rnd:=lcg_random) ["Nowhere"] atlas 0
              Hsel Hnone) as [_ Hbuild].
  destruct (Sameinad.build_map ["Nowhere"] atlas _) as [m|e] eqn:Hm;
    [|vm_compute in Hm; discriminate].
  destruct (Hbuild m eq_refl)
    as (Hraise & location_gdf & lon & lat & rest & g & Hloc & Hco & Hlocation
        & _).
  split; [|exact Hraise].
  exists m. split; [reflexivity|].
  assert (Hlocs : location_gdf = atlas_location_gdf)
    by (vm_compute in Hloc; injection Hloc as <-; reflexivity).
  subst location_gdf. rewrite Hlocation.
  vm_compute in Hco. injection Hco as <- <- _. reflexivity.
Defined.

(** X11, witness: the two scripts run on the atlas. *)
Lemma X11_scripts_share_layers_witness :
  exists m1 m2,
    Sameinad.map ["Dorne"] atlas 0 = Ok m1
    /\ MapPy.map atlas 1 = Ok m2
    /\ map_children m1 !! 3%nat = map_children m2 !! 3%nat
    /\ map_children m1 !! 0%nat = map_children m2 !! 0%nat.
Proof.
  destruct (Sameinad.map ["Dorne"] atlas _) as [m1|e] eqn:E1;
    [|vm_compute in E1; discriminate].
  destruct (MapPy.map atlas _) as [m2|e] eqn:E2;
    [|vm_compute in E2; discriminate].
  exists m1, m2. split; [reflexivity|]. split; [reflexivity|].
  destruct (X11_scripts_share_layers ["Dorne"] atlas _ _ m1 m2 E1 E2)
    as (H3 & H0 & _).
  split; assumption.
Defined.

(** X12, witness: the two settlements of the atlas, Winterfell and King's
    Landing. *)
Lemma X12_settlement_circles_witness :
  exists m circles,
    Sameinad.map [] atlas 0 = Ok m
    /\ map_children m !! 3%nat = Some (FeatureGroup "Houses" circles)
    /\ length circles = 2%nat.
Proof.
  destruct (Sameinad.map [] atlas _) as [m|e] eqn:Hm;
    [|vm_compute in Hm; discriminate].
  destruct (X12_settlement_circles [] atlas _ m Hm)
    as (location_gdf & markers & circles & Hloc & _ & Hlayer & Hlen & _).
  exists m, circles. split; [reflexivity|]. split; [exact Hlayer|].
  assert (Hlocs : location_gdf = atlas_location_gdf)
    by (vm_compute in Hloc; injection Hloc as <-; reflexivity).
  subst location_gdf. rewrite Hlen. reflexivity.
Defined.

(** X13, witness: populations 2550 and 3000 in a column from 100 to 4999. *)
Lemma X13_radius_monotone_witness :
  (5 <= binary64_value
          (get_radius (F:=float) (Some 100%Z) (Some 4999%Z) 2550%Z))%Q
  /\ (binary64_value (get_radius (F:=float) (Some 100%Z) (Some 4999%Z) 2550%Z)
      <= binary64_value
           (get_radius (F:=float) (Some 100%Z) (Some 4999%Z) 3000%Z))%Q
  /\ (binary64_value (get_radius (F:=float) (Some 100%Z) (Some 4999%Z) 3000%Z)
      <= 15)%Q.
Proof. apply X13_radius_monotone; lia. Defined.
